(** * nano-banana MCP server: generation client and image persistor

    A shallow embedding of [src/gemini.ts] (the retrying client around the
    Gemini call) and of the two versions of [src/tools.ts] (output path
    resolution and saving: the version with default-directory fallback and
    the stricter version that takes one absolute path), with the properties
    of the specification proved, or refuted, on them.

    Modelling conventions.
    - A JavaScript string is the [string] of the bytes of its UTF-8
      encoding.  [trim] strips every white space and line terminator of
      ECMAScript, the ones outside ASCII included.  [toLowerCase] maps the
      letters A to Z: the code applies it before comparing with ASCII words
      only, and the two characters outside ASCII whose lower case holds an
      ASCII letter (U+212A gives k; U+0130 gives i followed by U+0307) cannot
      complete one of those words.  [slice] and [substring] are applied by
      the code to ASCII strings or behind an ASCII prefix only.
    - A thrown value is a [Thrown] (an [Error], or another value whose
      [message] is absent or a string); a promise that resolves or rejects is an
      [Outcome]; asynchronous functions are state transformers over a
      [World] that holds [process.env], the module-level client cache and
      the history of calls made to the outside (backend, image encoder,
      timers, filesystem, clock, random source).
    - What the outside answers is given by an [Oracle], a function of the
      history; [path], [os] and [Buffer] are a [Platform].  Theorems hold
      for every oracle and every platform; [posix] and the oracles at the
      end of the definitions are instances used to run the code. *)

From Stdlib Require Import ZArith String Ascii List Bool Lia.
From Stdlib Require Import Numbers.DecimalString.
From stdpp Require Import base gmap strings.

Import ListNotations.
Local Open Scope string_scope.
Local Open Scope Z_scope.
Local Open Scope list_scope.

(* ===================================================================== *)
(** ** JavaScript strings *)
(* ===================================================================== *)

Module Js.

(** Truthiness of a string: only the empty string is falsy. *)
Definition truthy (s : string) : bool :=
  match s with EmptyString => false | String _ _ => true end.

(** Truthiness of [string | undefined]. *)
Definition truthy_opt (o : option string) : bool :=
  match o with Some s => truthy s | None => false end.

Definition lower_ascii (c : ascii) : ascii :=
  let n := nat_of_ascii c in
  if ((65 <=? n)%nat && (n <=? 90)%nat)%bool then ascii_of_nat (n + 32) else c.

Fixpoint toLowerCase (s : string) : string :=
  match s with
  | EmptyString => EmptyString
  | String c s' => String (lower_ascii c) (toLowerCase s')
  end.

(** [s.startsWith(p)] *)
Definition startsWith (s p : string) : bool := String.prefix p s.

(** [s.includes(needle)] *)
Fixpoint includes (s needle : string) : bool :=
  if String.prefix needle s then true
  else match s with
       | EmptyString => false
       | String _ s' => includes s' needle
       end.

(** [s.slice(n)] for [0 <= n]. *)
Fixpoint slice_from (n : nat) (s : string) : string :=
  match n, s with
  | O, _ => s
  | S n', EmptyString => EmptyString
  | S n', String _ s' => slice_from n' s'
  end.

(** [s.substring(a, b)] for [0 <= a <= b]. *)
Definition substring (a b : nat) (s : string) : string :=
  String.substring a (b - a) s.

(** The code points that [String.prototype.trim] strips (the WhiteSpace
    and LineTerminator productions of ECMAScript: TAB, LF, VT, FF, CR,
    SPACE, U+00A0, U+1680, U+2000 to U+200A, U+2028, U+2029, U+202F,
    U+205F, U+3000, U+FEFF), each as the bytes of its UTF-8 encoding. *)
Definition WHITE_SPACE : list (list ascii) :=
  map (map ascii_of_nat)
      [ [9]; [10]; [11]; [12]; [13]; [32];
        [194; 160];
        [225; 154; 128];
        [226; 128; 128]; [226; 128; 129]; [226; 128; 130]; [226; 128; 131];
        [226; 128; 132]; [226; 128; 133]; [226; 128; 134]; [226; 128; 135];
        [226; 128; 136]; [226; 128; 137]; [226; 128; 138];
        [226; 128; 168]; [226; 128; 169]; [226; 128; 175];
        [226; 129; 159];
        [227; 128; 128];
        [239; 187; 191] ]%nat.

(** What follows the prefix [p] in [s], when [s] starts with [p]. *)
Fixpoint strip_prefix (p s : list ascii) : option (list ascii) :=
  match p, s with
  | [], _ => Some s
  | a :: p', b :: s' => if Ascii.eqb a b then strip_prefix p' s' else None
  | _ :: _, [] => None
  end.

(** What follows the first code point of [s], when that is one of
    [codes]. *)
Fixpoint strip_one (codes : list (list ascii)) (s : list ascii)
  : option (list ascii) :=
  match codes with
  | [] => None
  | code :: rest =>
      match strip_prefix code s with
      | Some r => Some r
      | None => strip_one rest s
      end
  end.

(** Strips leading code points of [codes], at most [fuel] of them. *)
Fixpoint strip_leading (fuel : nat) (codes : list (list ascii))
         (s : list ascii) : list ascii :=
  match fuel with
  | O => s
  | S fuel' =>
      match strip_one codes s with
      | Some r => strip_leading fuel' codes r
      | None => s
      end
  end.

Definition trimStart_bytes (s : list ascii) : list ascii :=
  strip_leading (length s) WHITE_SPACE s.

(** Trailing code points are the leading ones of the reversed string,
    read backwards. *)
Definition trimEnd_bytes (s : list ascii) : list ascii :=
  rev (strip_leading (length s) (map (@rev ascii) WHITE_SPACE) (rev s)).

(** [s.trim()] *)
Definition trim (s : string) : string :=
  string_of_list_ascii
    (trimEnd_bytes (trimStart_bytes (list_ascii_of_string s))).

(** [s.replace(/[:.]/g, "-")] *)
Fixpoint replace_colon_dot (s : string) : string :=
  match s with
  | EmptyString => EmptyString
  | String c s' =>
      String (if (Ascii.eqb c ":" || Ascii.eqb c ".")%bool then "-"%char else c)
             (replace_colon_dot s')
  end.

(** Template rendering of an integer: [`${n}`]. *)
Definition of_Z (z : Z) : string := NilZero.string_of_int (Z.to_int z).

End Js.

(* ===================================================================== *)
(** ** Thrown values, outcomes, the outside world *)
(* ===================================================================== *)

(** What a [catch] clause can receive.  [ApiError] is the class of
    [@google/genai] (it extends [Error] and carries a numeric status);
    [JsError] is any other instance of [Error], which may carry a numeric
    [status] property of its own; [NonError] is any other thrown value,
    seen through [?.status], [?.message] and [String(value)].

    The [message] of a [NonError] is absent ([null], [undefined], a value
    without that property or holding [null] or [undefined] there) or a
    string, and the [message] of an [Error] is a string.  A thrown value
    whose [message] is anything else (a number, an object) is not
    represented: [isRetryableGeminiError] calls [toLowerCase] on the
    message of whatever it is given, so on such a value the classifier
    itself throws a [TypeError], from inside the [catch] clause of
    [generateImage].  Every statement about [Thrown] values is a statement
    about the values of this domain. *)
Inductive Thrown : Type :=
| ApiError (status : Z) (message : string)
| JsError (message : string) (status : option Z)
| NonError (status : option Z) (message : option string) (rendered : string).

(** [new Error(msg)] *)
Definition mkError (msg : string) : Thrown := JsError msg None.

(** [error instanceof Error] *)
Definition instanceofError (e : Thrown) : bool :=
  match e with ApiError _ _ | JsError _ _ => true | NonError _ _ _ => false end.

(** [error.message], for an instance of [Error]. *)
Definition errorMessage (e : Thrown) : string :=
  match e with
  | ApiError _ m | JsError m _ => m
  | NonError _ m _ => default "" m
  end.

Inductive Outcome (A : Type) : Type :=
| Return (a : A)
| Throw (e : Thrown).
Arguments Return {A} a.
Arguments Throw {A} e.

(** *** The backend's response *)

Record Blob := { blob_data : option string; blob_mimeType : option string }.
Record Part := { inlineData : option Blob; part_text : option string }.
Record Content := { parts : option (list Part) }.
Record Candidate := { content : option Content }.
Record GenerateContentResponse := { candidates : option (list Candidate) }.

(** *** Calls to the outside, in the order they were made *)

Inductive Event : Type :=
| EvGenerateContent (apiKey model prompt : string)
| EvSharpJpeg (input : list Byte.byte)
| EvSleep (ms : Z)
| EvMkdir (path : string)
| EvWriteFile (path : string) (buffer : list Byte.byte)
| EvStat (path : string)
| EvDate
| EvRandom.

(** What the outside answers, given everything that happened before. *)
Record Oracle := {
  models_generateContent :
    list Event -> string -> string -> string -> Outcome GenerateContentResponse;
  sharp_jpeg : list Event -> list Byte.byte -> Outcome (list Byte.byte);
  fs_mkdir : list Event -> string -> Outcome unit;
  fs_writeFile : list Event -> string -> list Byte.byte -> Outcome unit;
  fs_stat_size : list Event -> string -> Outcome Z;
  date_toISOString : list Event -> string;
  random_toString36 : list Event -> string
}.

(** [path], [os] and [Buffer]. *)
Record Platform := {
  path_extname : string -> string;
  path_dirname : string -> string;
  path_join : string -> string -> string;
  path_isAbsolute : string -> bool;
  path_resolve : string -> string;
  os_homedir : string;
  os_tmpdir : string;
  base64_decode : string -> list Byte.byte;
  base64_encode : list Byte.byte -> string
}.

(** [new GoogleGenAI({ apiKey })] *)
Record GoogleGenAI := { client_apiKey : string }.

Record World := {
  env : gmap string string;
  cachedClient : option GoogleGenAI;
  cachedApiKey : option string;
  trace : list Event
}.

Definition log (ev : Event) (w : World) : World :=
  {| env := env w; cachedClient := cachedClient w;
     cachedApiKey := cachedApiKey w; trace := trace w ++ [ev] |}.

(** The world after further calls to the outside. *)
Definition extend (w : World) (evs : list Event) : World :=
  {| env := env w; cachedClient := cachedClient w;
     cachedApiKey := cachedApiKey w; trace := trace w ++ evs |}.

(** *** Asynchronous computations *)

Definition M (A : Type) : Type := World -> Outcome A * World.

Definition ret {A} (a : A) : M A := fun w => (Return a, w).
Definition throw {A} (e : Thrown) : M A := fun w => (Throw e, w).

Definition bind {A B} (m : M A) (k : A -> M B) : M B :=
  fun w => match m w with
           | (Return a, w') => k a w'
           | (Throw e, w') => (Throw e, w')
           end.

(** [try { m } catch (error) { h error }] *)
Definition try_catch {A} (m : M A) (h : Thrown -> M A) : M A :=
  fun w => match m w with
           | (Return a, w') => (Return a, w')
           | (Throw e, w') => h e w'
           end.

(** A call to the outside: logged, then answered from the history seen
    before the call. *)
Definition call {A} (ev : Event) (answer : list Event -> Outcome A) : M A :=
  fun w => (answer (trace w), log ev w).

Definition getenv (name : string) : M (option string) :=
  fun w => (Return (env w !! name), w).

Declare Scope js_scope.
Delimit Scope js_scope with js.
Notation "x <- m ;; k" := (bind m (fun x => k))
  (at level 100, m at next level, right associativity) : js_scope.
Notation "m ;;; k" := (bind m (fun _ => k))
  (at level 100, right associativity) : js_scope.
Local Open Scope js_scope.

(* ===================================================================== *)
(** ** [src/src/gemini.ts] *)
(* ===================================================================== *)

Module Gemini.

Definition DEFAULT_IMAGE_MODEL : string := "gemini-3-pro-image-preview".
Definition REQUEST_TIMEOUT_MS : Z := 60000.
Definition MAX_RETRIES : Z := 2.
Definition RETRY_BACKOFF_MS : Z := 500.
Definition RETRYABLE_STATUS_CODES : gset Z :=
  {[ 408; 429; 500; 502; 503; 504 ]}.

Definition MISSING_KEY_MESSAGE : string :=
  "GEMINI_API_KEY (or GOOGLE_API_KEY) environment variable is required for image generation.".

(** [process.env.GEMINI_API_KEY ?? process.env.GOOGLE_API_KEY], then the
    falsiness test: [??] falls through on [undefined] only. *)
Definition getConfiguredApiKey : M string :=
  primary <- getenv "GEMINI_API_KEY" ;;
  secondary <- getenv "GOOGLE_API_KEY" ;;
  let apiKey := match primary with Some k => Some k | None => secondary end in
  if negb (Js.truthy_opt apiKey) then throw (mkError MISSING_KEY_MESSAGE)
  else ret (default "" apiKey).

Definition getModelName : M string :=
  configured <- getenv "GEMINI_IMAGE_MODEL" ;;
  let configuredModel := Js.trim <$> configured in
  ret (if Js.truthy_opt configuredModel then default "" configuredModel
       else DEFAULT_IMAGE_MODEL).

(** The module-level cache: a new client is made when there is none or
    when the key it was made for differs from the configured one. *)
Definition getClient : M GoogleGenAI :=
  apiKey <- getConfiguredApiKey ;;
  fun w =>
    let fresh := {| client_apiKey := apiKey |} in
    let renewed := {| env := env w;
                      cachedClient := Some fresh;
                      cachedApiKey := Some apiKey;
                      trace := trace w |} in
    match cachedClient w with
    | Some cached =>
        if bool_decide (cachedApiKey w = Some apiKey)
        then (Return cached, w)
        else (Return fresh, renewed)
    | None => (Return fresh, renewed)
    end.

(** [RETRYABLE_STATUS_CODES.has(status)] *)
Definition retryable_status (status : Z) : bool :=
  bool_decide (status ∈ RETRYABLE_STATUS_CODES).

(** The five substring tests made on the lower-cased message. *)
Definition retryable_message (message : string) : bool :=
  let message := Js.toLowerCase message in
  Js.includes message "timeout" ||
  Js.includes message "timed out" ||
  Js.includes message "etimedout" ||
  Js.includes message "econnreset" ||
  Js.includes message "temporar".

Definition isRetryableGeminiError (error : Thrown) : bool :=
  match error with
  | ApiError status _ => retryable_status status
  | JsError message status =>
      match status with
      | Some s => if retryable_status s then true else retryable_message message
      | None => retryable_message message
      end
  | NonError status message _ =>
      match status with
      | Some s => if retryable_status s then true
                  else retryable_message (default "" message)
      | None => retryable_message (default "" message)
      end
  end.

Definition AUTH_MESSAGE : string :=
  "Gemini API authentication failed. Check GEMINI_API_KEY/GOOGLE_API_KEY and permissions.".
Definition RATE_LIMIT_MESSAGE : string :=
  "Gemini API rate limit reached. Please retry in a moment.".
Definition UNAVAILABLE_MESSAGE : string :=
  "Gemini API is temporarily unavailable. Please retry shortly.".
Definition UNKNOWN_MESSAGE : string :=
  "Failed to generate image due to an unknown error.".

Definition toUserFacingGeminiError (error : Thrown) : Thrown :=
  match error with
  | ApiError status message =>
      if (status =? 401) || (status =? 403) then mkError AUTH_MESSAGE
      else if status =? 429 then mkError RATE_LIMIT_MESSAGE
      else if status >=? 500 then mkError UNAVAILABLE_MESSAGE
      else mkError ("Gemini API request failed (status " +:+ Js.of_Z status
                      +:+ "): " +:+ message)
  | JsError message _ => mkError ("Failed to generate image: " +:+ message)
  | NonError _ _ _ => mkError UNKNOWN_MESSAGE
  end.

(** [await sleep(ms)] *)
Definition sleep (ms : Z) : M unit :=
  call (EvSleep ms) (fun _ => Return tt).

Record GenResult := {
  data : string;
  mimeType : string;
  model : string;
  text : option string
}.

Definition newline : string := String (ascii_of_nat 10) EmptyString.

(** [part.inlineData?.data] *)
Definition inline_data (part : Part) : option string :=
  match inlineData part with
  | Some blob => blob_data blob
  | None => None
  end.

(** One iteration of [for (const part of parts)], on the pair
    [(imageData, text)]. *)
Definition scan_part (st : option string * option string) (part : Part)
  : option string * option string :=
  let '(imageData, text) := st in
  if Js.truthy_opt (inline_data part) then (inline_data part, text)
  else if Js.truthy_opt (part_text part) then
    (imageData,
     if Js.truthy_opt text
     then Some (default "" text +:+ newline +:+ default "" (part_text part))
     else part_text part)
  else (imageData, text).

Definition scan_parts (ps : list Part) : option string * option string :=
  fold_left scan_part ps (None, None).

(** [response.candidates?.[0]?.content?.parts] *)
Definition response_parts (response : GenerateContentResponse)
  : option (list Part) :=
  match candidates response with
  | Some (candidate :: _) =>
      match content candidate with
      | Some c => parts c
      | None => None
      end
  | _ => None
  end.

Section WithPlatform.
Context (plat : Platform) (ora : Oracle).

(** The body of the [try] block of one attempt.  The request timeout
    ([REQUEST_TIMEOUT_MS]) is part of what the backend answers: a call that
    exceeds it is a call that throws. *)
Definition attempt_body (client : GoogleGenAI) (model prompt : string)
  : M GenResult :=
  response <- call (EvGenerateContent (client_apiKey client) model prompt)
                   (fun h => models_generateContent ora h
                               (client_apiKey client) model prompt) ;;
  match response_parts response with
  | None | Some [] =>
      throw (mkError "No content parts returned from Gemini API.")
  | Some ps =>
      let '(imageData, text) := scan_parts ps in
      if negb (Js.truthy_opt imageData)
      then throw (mkError "No image data found in the response.")
      else
        let input := base64_decode plat (default "" imageData) in
        jpgBuffer <- call (EvSharpJpeg input)
                          (fun h => sharp_jpeg ora h input) ;;
        ret {| data := base64_encode plat jpgBuffer;
               mimeType := "image/jpeg";
               model := model;
               text := if Js.truthy_opt text then text else None |}
  end.

(** Where [generateImage] leaves its loop. *)
Inductive Exit : Type :=
| ExitReturn (r : GenResult)          (* [return] inside [try] *)
| ExitCatchThrow (e : Thrown)         (* [throw] inside [catch] *)
| ExitAfterLoop (e : Thrown)          (* [throw] after the loop *)
| ExitNoFuel.                         (* the model's fuel ran out *)

(** [for (let attempt = ...; attempt <= MAX_RETRIES; attempt++)], from
    the test of the loop condition on. *)
Fixpoint retry_loop (fuel : nat) (client : GoogleGenAI)
         (model prompt : string) (attempt : Z) (w : World) : Exit * World :=
  match fuel with
  | O => (ExitNoFuel, w)
  | S fuel' =>
      if attempt <=? MAX_RETRIES then
        match attempt_body client model prompt w with
        | (Return r, w1) => (ExitReturn r, w1)
        | (Throw error, w1) =>
            let shouldRetry :=
              isRetryableGeminiError error && (attempt <? MAX_RETRIES) in
            if shouldRetry then
              let backoffMs := RETRY_BACKOFF_MS * 2 ^ attempt in
              let '(_, w2) := sleep backoffMs w1 in
              retry_loop fuel' client model prompt (attempt + 1) w2
            else (ExitCatchThrow (toUserFacingGeminiError error), w1)
        end
      else
        (ExitAfterLoop
           (mkError "Failed to generate image after retry attempts."), w)
  end.

Definition loop_fuel : nat := Z.to_nat (MAX_RETRIES + 2).

Definition outcome_of_exit (x : Exit) : Outcome GenResult :=
  match x with
  | ExitReturn r => Return r
  | ExitCatchThrow e | ExitAfterLoop e => Throw e
  | ExitNoFuel => Throw (NonError None None "out of fuel")
  end.

Definition generateImage (prompt : string) : M GenResult :=
  client <- getClient ;;
  model <- getModelName ;;
  fun w =>
    let '(x, w') := retry_loop loop_fuel client model prompt 0 w in
    (outcome_of_exit x, w').

End WithPlatform.

End Gemini.

(* ===================================================================== *)
(** ** The tool's response *)
(* ===================================================================== *)

Inductive ContentItem : Type :=
| TextContent (text : string)
| ImageContent (data mimeType : string).

Record StructuredContent := {
  file_path : string;
  mime_type : string;
  sc_model : string;
  sc_text : option string
}.

Record ToolResponse := {
  resp_content : list ContentItem;
  structuredContent : option StructuredContent;
  isError : bool
}.

(** [lines.join("\n\n")] *)
Fixpoint join_lines (lines : list string) : string :=
  match lines with
  | [] => ""
  | [l] => l
  | l :: rest => l +:+ Gemini.newline +:+ Gemini.newline +:+ join_lines rest
  end.

Definition JPEG_EXTENSIONS : gset string := {[ ".jpg"; ".jpeg" ]}.

Definition EXTENSION_MARKER : string := "must use a .jpg or .jpeg extension".

(** The error of the extension check, shared by both versions. *)
Definition invalidExtensionError (ext : string) : Thrown :=
  mkError ("save_path " +:+ EXTENSION_MARKER
             +:+ " because this tool outputs JPEG data, got: " +:+ ext).

Definition EMPTY_PAYLOAD : Thrown :=
  mkError "Image data is empty, nothing to save.".

Definition emptyFileError (filePath : string) : Thrown :=
  mkError ("File was written but is empty: " +:+ filePath).

(** The catch clause of both handlers. *)
Definition errorResponse (error : Thrown) : ToolResponse :=
  let message := if instanceofError error then errorMessage error
                 else "Unknown error" in
  {| resp_content := [TextContent ("Error generating image: " +:+ message)];
     structuredContent := None;
     isError := true |}.

Section FileNames.
Context (ora : Oracle).

Definition buildGeneratedFileName : M string :=
  iso <- call EvDate (fun h => Return (date_toISOString ora h)) ;;
  rnd <- call EvRandom (fun h => Return (random_toString36 ora h)) ;;
  let timestamp := Js.replace_colon_dot iso in
  let randomId := Js.substring 2 8 rnd in
  ret ("generated-" +:+ timestamp +:+ "-" +:+ randomId +:+ ".jpg").

(** [await mkdir(path, { recursive: true })] *)
Definition mkdir_recursive (path : string) : M unit :=
  call (EvMkdir path) (fun h => fs_mkdir ora h path).

Definition writeFile (path : string) (buffer : list Byte.byte) : M unit :=
  call (EvWriteFile path buffer) (fun h => fs_writeFile ora h path buffer).

(** [(await stat(path)).size] *)
Definition stat_size (path : string) : M Z :=
  call (EvStat path) (fun h => fs_stat_size ora h path).

End FileNames.

(* ===================================================================== *)
(** ** [tools.ts] with default directories and fallback
       ([src/unnamed/part_000]) *)
(* ===================================================================== *)

Module Tools.

Record SaveImageResult := {
  filePath : string;
  warning : option string
}.

Record Attempt := {
  a_savePath : option string;
  a_defaultDir : option string;
  a_label : string
}.

Record Args := { prompt : string; save_path : option string }.

(** [Array.from(new Set(xs))]: first occurrences, in order. *)
Fixpoint dedupe (xs : list string) : list string :=
  match xs with
  | [] => []
  | x :: rest => x :: List.filter (fun y => negb (String.eqb x y)) (dedupe rest)
  end.

Definition dquote : string := String (ascii_of_nat 34) EmptyString.

(** What [path.extname(undefined)] throws. *)
Definition pathTypeError : Thrown :=
  JsError ("The " +:+ dquote +:+ "path" +:+ dquote
             +:+ " argument must be of type string. Received undefined") None.

Section WithPlatform.
Context (plat : Platform) (ora : Oracle).

Definition expandUserPath (inputPath : string) : string :=
  if String.eqb inputPath "~" then os_homedir plat
  else if Js.startsWith inputPath "~/" || Js.startsWith inputPath "~\"
  then path_join plat (os_homedir plat) (Js.slice_from 2 inputPath)
  else inputPath.

Definition normalizePathInput (inputPath : string) : string :=
  let expanded := expandUserPath inputPath in
  if path_isAbsolute plat expanded then expanded
  else path_resolve plat expanded.

Definition getDefaultOutputDirectories : M (list string) :=
  raw <- getenv "IMAGE_OUTPUT_DIR" ;;
  let configured := Js.trim <$> raw in
  let candidates :=
    [ if Js.truthy_opt configured
      then Some (normalizePathInput (default "" configured)) else None;
      Some (path_join plat (os_homedir plat) "nano-banana-images");
      Some (path_join plat (os_tmpdir plat) "nano-banana-images") ] in
  ret (dedupe (omap (fun c => match c with
                              | Some s => if Js.truthy s then Some s else None
                              | None => None
                              end) candidates)).

(** [savePath ? normalizePathInput(savePath)
              : (defaultDir ?? getDefaultOutputDirectories()[0])] *)
Definition targetPath (savePath defaultDir : option string)
  : M (option string) :=
  if Js.truthy_opt savePath
  then ret (Some (normalizePathInput (default "" savePath)))
  else match defaultDir with
       | Some d => ret (Some d)
       | None => dirs <- getDefaultOutputDirectories ;; ret (head dirs)
       end.

Definition resolveOutputFilePath (savePath defaultDir : option string)
  : M string :=
  target <- targetPath savePath defaultDir ;;
  match target with
  | None => throw pathTypeError
  | Some targetPath =>
      let ext := path_extname plat targetPath in
      if negb (Js.truthy ext) then
        mkdir_recursive ora targetPath ;;;
        name <- buildGeneratedFileName ora ;;
        ret (path_join plat targetPath name)
      else
        let normalizedExt := Js.toLowerCase ext in
        if negb (bool_decide (normalizedExt ∈ JPEG_EXTENSIONS))
        then throw (invalidExtensionError ext)
        else
          mkdir_recursive ora (path_dirname plat targetPath) ;;;
          ret targetPath
  end.

(** The attempt list built before the loop. *)
Definition build_attempts (savePath : option string)
           (defaultDirectories : list string) : list Attempt :=
  let requested :=
    if Js.truthy_opt savePath
    then [ {| a_savePath := savePath;
              a_defaultDir := None;
              a_label := "requested save_path '" +:+ default "" savePath
                           +:+ "'" |} ]
    else [] in
  let fallbackLabels :=
    if Js.truthy_opt savePath
       && (0 <? Z.of_nat (length defaultDirectories))
    then map (fun dir => "fallback directory '" +:+ dir +:+ "'")
             defaultDirectories
    else [ "default directory '"
             +:+ default "undefined" (head defaultDirectories) +:+ "'" ] in
  (requested ++
   imap (fun index dir =>
           {| a_savePath := None;
              a_defaultDir := Some dir;
              a_label := default ("fallback directory '" +:+ dir +:+ "'")
                                 (fallbackLabels !! index) |})
        defaultDirectories)%list.

(** The [try] block of one attempt up to the size check: where the
    bytes were written. *)
Definition write_attempt (buffer : list Byte.byte) (attempt : Attempt)
  : M string :=
  filePath <- resolveOutputFilePath (a_savePath attempt)
                                    (a_defaultDir attempt) ;;
  writeFile ora filePath buffer ;;;
  size <- stat_size ora filePath ;;
  if size =? 0 then throw (emptyFileError filePath)
  else ret filePath.

(** The three [return] statements that end the [try] block. *)
Definition shape_result (savePath : option string) (attempt : Attempt)
           (firstFailureMessage : option string) (filePath : string)
  : SaveImageResult :=
  if Js.truthy_opt (a_savePath attempt)
  then {| filePath := filePath; warning := None |}
  else if Js.truthy_opt savePath && Js.truthy_opt firstFailureMessage
  then {| filePath := filePath;
          warning := Some ("Requested save_path '" +:+ default "" savePath
                             +:+ "' failed ("
                             +:+ default "" firstFailureMessage
                             +:+ "). Saved to fallback path instead.") |}
  else {| filePath := filePath; warning := None |}.

(** The test of the [catch] clause that rethrows. *)
Definition is_fatal (attempt : Attempt) (error : Thrown) : bool :=
  Js.truthy_opt (a_savePath attempt)
  && instanceofError error
  && Js.includes (errorMessage error) EXTENSION_MARKER.

(** [error instanceof Error ? error.message : String(error)] *)
Definition describe (error : Thrown) : string :=
  match error with
  | ApiError _ m | JsError m _ => m
  | NonError _ _ rendered => rendered
  end.

Definition exhaustedError (firstFailureMessage : option string)
           (lastError : option Thrown) : Thrown :=
  let fallbackSummary :=
    if Js.truthy_opt firstFailureMessage
    then " First failure: " +:+ default "" firstFailureMessage
    else "" in
  let lastMessage :=
    match lastError with
    | Some e => if instanceofError e then errorMessage e
                else "Unknown filesystem save error."
    | None => "Unknown filesystem save error."
    end in
  mkError ("Failed to save generated image. " +:+ lastMessage +:+ "."
             +:+ fallbackSummary).

(** [for (const attempt of attempts)] and the throw that follows it. *)
Fixpoint save_loop (buffer : list Byte.byte) (savePath : option string)
         (attempts : list Attempt)
         (firstFailureMessage : option string)
         (lastError : option Thrown) : M SaveImageResult :=
  match attempts with
  | [] => throw (exhaustedError firstFailureMessage lastError)
  | attempt :: rest =>
      try_catch
        (filePath <- write_attempt buffer attempt ;;
         ret (shape_result savePath attempt firstFailureMessage filePath))
        (fun error =>
           if is_fatal attempt error then throw error
           else
             let message := describe error in
             let firstFailureMessage' :=
               if negb (Js.truthy_opt firstFailureMessage)
               then Some (a_label attempt +:+ ": " +:+ message)
               else firstFailureMessage in
             save_loop buffer savePath rest firstFailureMessage'
                       (Some error))
  end.

Definition saveImage (data : string) (savePath : option string)
  : M SaveImageResult :=
  let buffer := base64_decode plat data in
  if (length buffer =? 0)%nat then throw EMPTY_PAYLOAD
  else
    defaultDirectories <- getDefaultOutputDirectories ;;
    save_loop buffer savePath
              (build_attempts savePath defaultDirectories) None None.

Definition handler (args : Args) : World -> ToolResponse * World :=
  fun w =>
    match
      (result <- Gemini.generateImage plat ora (prompt args) ;;
       saved <- saveImage (Gemini.data result) (save_path args) ;;
       ret (result, saved)) w
    with
    | (Return (result, saved), w') =>
        let text := if Js.truthy_opt (Gemini.text result)
                    then Gemini.text result else None in
        let structured :=
          {| file_path := filePath saved;
             mime_type := Gemini.mimeType result;
             sc_model := Gemini.model result;
             sc_text := text |} in
        let statusLines :=
          ((match text with Some t => [t] | None => [] end)
           ++ (if Js.truthy_opt (warning saved)
               then [default "" (warning saved)] else [])
           ++ [ "Image saved to: " +:+ filePath saved;
                "Model: " +:+ Gemini.model result ])%list in
        ({| resp_content :=
              [ TextContent (join_lines statusLines);
                ImageContent (Gemini.data result) (Gemini.mimeType result) ];
            structuredContent := Some structured;
            isError := false |}, w')
    | (Throw error, w') => (errorResponse error, w')
    end.

End WithPlatform.

End Tools.

(* ===================================================================== *)
(** ** [tools.ts] with one required absolute path
       ([src/unnamed/part_001]) *)
(* ===================================================================== *)

Module ToolsStrict.

Record Args := { prompt : string; save_path : string }.

Definition notAbsoluteError (savePath : string) : Thrown :=
  mkError ("save_path must be an absolute path, got: " +:+ savePath).

Section WithPlatform.
Context (plat : Platform) (ora : Oracle).

Definition resolveOutputFilePath (savePath : string) : M string :=
  if negb (path_isAbsolute plat savePath)
  then throw (notAbsoluteError savePath)
  else
    let ext := path_extname plat savePath in
    if negb (Js.truthy ext) then
      mkdir_recursive ora savePath ;;;
      name <- buildGeneratedFileName ora ;;
      ret (path_join plat savePath name)
    else
      let normalizedExt := Js.toLowerCase ext in
      if negb (bool_decide (normalizedExt ∈ JPEG_EXTENSIONS))
      then throw (invalidExtensionError ext)
      else
        mkdir_recursive ora (path_dirname plat savePath) ;;;
        ret savePath.

Definition saveImage (data savePath : string) : M string :=
  filePath <- resolveOutputFilePath savePath ;;
  let buffer := base64_decode plat data in
  if (length buffer =? 0)%nat then throw EMPTY_PAYLOAD
  else
    writeFile ora filePath buffer ;;;
    size <- stat_size ora filePath ;;
    if size =? 0 then throw (emptyFileError filePath)
    else ret filePath.

Definition handler (args : Args) : World -> ToolResponse * World :=
  fun w =>
    match
      (result <- Gemini.generateImage plat ora (prompt args) ;;
       filePath <- saveImage (Gemini.data result) (save_path args) ;;
       ret (result, filePath)) w
    with
    | (Return (result, filePath), w') =>
        let text := if Js.truthy_opt (Gemini.text result)
                    then Gemini.text result else None in
        let structured :=
          {| file_path := filePath;
             mime_type := Gemini.mimeType result;
             sc_model := Gemini.model result;
             sc_text := text |} in
        let statusLines :=
          ((match text with Some t => [t] | None => [] end)
           ++ [ "Image saved to: " +:+ filePath;
                "Model: " +:+ Gemini.model result ])%list in
        ({| resp_content :=
              [ TextContent (join_lines statusLines);
                ImageContent (Gemini.data result) (Gemini.mimeType result) ];
            structuredContent := Some structured;
            isError := false |}, w')
    | (Throw error, w') => (errorResponse error, w')
    end.

End WithPlatform.

End ToolsStrict.

(* ===================================================================== *)
(** ** A platform to run the code on: [path.posix], standard base64 *)
(* ===================================================================== *)

Module Posix.

Definition slash : ascii := "/"%char.
Definition dot : ascii := "."%char.

Definition len (s : string) : Z := Z.of_nat (String.length s).

(** [s.charCodeAt(i)], [None] out of range. *)
Definition charAt (s : string) (i : Z) : option ascii :=
  if i <? 0 then None else String.get (Z.to_nat i) s.

(** [s.slice(a, b)] for [0 <= a]. *)
Definition slice (s : string) (a b : Z) : string :=
  String.substring (Z.to_nat a) (Z.to_nat (b - a)) s.

(** [s.lastIndexOf("/")], [-1] when there is none. *)
Fixpoint lastIndexOf_from (s : string) (i : Z) : Z :=
  match s with
  | EmptyString => -1
  | String c s' =>
      let r := lastIndexOf_from s' (i + 1) in
      if r =? -1 then (if Ascii.eqb c slash then i else -1) else r
  end.
Definition lastSlashIndex (s : string) : Z := lastIndexOf_from s 0.

(** The indices [hi, hi-1, ..., lo]. *)
Definition down_from (hi lo : Z) : list Z :=
  map (fun k => hi - Z.of_nat k) (seq 0 (Z.to_nat (hi - lo + 1))).

(** The indices [lo, lo+1, ..., hi]. *)
Definition up_to (lo hi : Z) : list Z :=
  map (fun k => lo + Z.of_nat k) (seq 0 (Z.to_nat (hi - lo + 1))).

Definition isAbsolute (path : string) : bool :=
  match path with
  | String c _ => Ascii.eqb c slash
  | EmptyString => false
  end.

(** *** [extname] *)

Record ExtState := {
  startDot : Z; startPart : Z; end_ : Z;
  matchedSlash : bool; preDotState : Z; ext_break : bool
}.

Definition ext_step (path : string) (st : ExtState) (i : Z) : ExtState :=
  if ext_break st then st else
  match charAt path i with
  | None => st
  | Some code =>
      if Ascii.eqb code slash then
        if negb (matchedSlash st)
        then {| startDot := startDot st; startPart := i + 1; end_ := end_ st;
                matchedSlash := matchedSlash st;
                preDotState := preDotState st; ext_break := true |}
        else st
      else
        let st1 :=
          if end_ st =? -1
          then {| startDot := startDot st; startPart := startPart st;
                  end_ := i + 1; matchedSlash := false;
                  preDotState := preDotState st; ext_break := false |}
          else st in
        if Ascii.eqb code dot then
          if startDot st1 =? -1
          then {| startDot := i; startPart := startPart st1; end_ := end_ st1;
                  matchedSlash := matchedSlash st1;
                  preDotState := preDotState st1; ext_break := false |}
          else if negb (preDotState st1 =? 1)
          then {| startDot := startDot st1; startPart := startPart st1;
                  end_ := end_ st1; matchedSlash := matchedSlash st1;
                  preDotState := 1; ext_break := false |}
          else st1
        else if negb (startDot st1 =? -1)
        then {| startDot := startDot st1; startPart := startPart st1;
                end_ := end_ st1; matchedSlash := matchedSlash st1;
                preDotState := -1; ext_break := false |}
        else st1
  end.

Definition extname (path : string) : string :=
  let st := fold_left (ext_step path) (down_from (len path - 1) 0)
              {| startDot := -1; startPart := 0; end_ := -1;
                 matchedSlash := true; preDotState := 0;
                 ext_break := false |} in
  if (startDot st =? -1) || (end_ st =? -1) || (preDotState st =? 0)
     || ((preDotState st =? 1) && (startDot st =? end_ st - 1)
         && (startDot st =? startPart st + 1))
  then ""
  else slice path (startDot st) (end_ st).

(** *** [dirname] *)

Record DirState := { dir_end : Z; dir_matchedSlash : bool; dir_break : bool }.

Definition dir_step (path : string) (st : DirState) (i : Z) : DirState :=
  if dir_break st then st else
  match charAt path i with
  | None => st
  | Some code =>
      if Ascii.eqb code slash then
        if negb (dir_matchedSlash st)
        then {| dir_end := i; dir_matchedSlash := false; dir_break := true |}
        else st
      else {| dir_end := dir_end st; dir_matchedSlash := false;
              dir_break := false |}
  end.

Definition dirname (path : string) : string :=
  if len path =? 0 then "." else
  let hasRoot := isAbsolute path in
  let st := fold_left (dir_step path) (down_from (len path - 1) 1)
              {| dir_end := -1; dir_matchedSlash := true;
                 dir_break := false |} in
  if dir_end st =? -1 then (if hasRoot then "/" else ".")
  else if hasRoot && (dir_end st =? 1) then "//"
  else slice path 0 (dir_end st).

(** *** [normalizeString], [normalize], [join], [resolve] *)

Record NormState := {
  res : string; lastSegmentLength : Z; lastSlash : Z; dots : Z;
  code : ascii; norm_break : bool
}.

Definition norm_step (path : string) (allowAboveRoot : bool)
           (st : NormState) (i : Z) : NormState :=
  if norm_break st then st else
  let fetched :=
    match charAt path i with
    | Some c => Some c
    | None => if Ascii.eqb (code st) slash then None else Some slash
    end in
  match fetched with
  | None => {| res := res st; lastSegmentLength := lastSegmentLength st;
               lastSlash := lastSlash st; dots := dots st;
               code := code st; norm_break := true |}
  | Some c =>
      let next r l :=
        {| res := r; lastSegmentLength := l; lastSlash := i; dots := 0;
           code := c; norm_break := false |} in
      if Ascii.eqb c slash then
        if (lastSlash st =? i - 1) || (dots st =? 1) then
          next (res st) (lastSegmentLength st)
        else if dots st =? 2 then
          let r := res st in
          let above :=
            if allowAboveRoot
            then next (if 0 <? len r then r +:+ "/.." else "..") 2
            else next r (lastSegmentLength st) in
          if (len r <? 2) || negb (lastSegmentLength st =? 2)
             || negb (bool_decide (charAt r (len r - 1) = Some dot))
             || negb (bool_decide (charAt r (len r - 2) = Some dot))
          then
            if 2 <? len r then
              let k := lastSlashIndex r in
              if k =? -1 then next "" 0
              else let r' := slice r 0 k in
                   next r' (len r' - 1 - lastSlashIndex r')
            else if negb (len r =? 0) then next "" 0
            else above
          else above
        else
          let segment := slice path (lastSlash st + 1) i in
          next (if 0 <? len (res st) then res st +:+ "/" +:+ segment
                else segment)
               (i - lastSlash st - 1)
      else if Ascii.eqb c dot && negb (dots st =? -1) then
        {| res := res st; lastSegmentLength := lastSegmentLength st;
           lastSlash := lastSlash st; dots := dots st + 1;
           code := c; norm_break := false |}
      else
        {| res := res st; lastSegmentLength := lastSegmentLength st;
           lastSlash := lastSlash st; dots := -1;
           code := c; norm_break := false |}
  end.

Definition normalizeString (path : string) (allowAboveRoot : bool) : string :=
  res (fold_left (norm_step path allowAboveRoot) (up_to 0 (len path))
         {| res := ""; lastSegmentLength := 0; lastSlash := -1; dots := 0;
            code := "000"%char; norm_break := false |}).

Definition normalize (path : string) : string :=
  if len path =? 0 then "." else
  let absolute := isAbsolute path in
  let trailingSeparator :=
    bool_decide (charAt path (len path - 1) = Some slash) in
  let p := normalizeString path (negb absolute) in
  if len p =? 0 then
    (if absolute then "/" else if trailingSeparator then "./" else ".")
  else
    let p := if trailingSeparator then p +:+ "/" else p in
    if absolute then "/" +:+ p else p.

(** [path.join(a, b)] *)
Definition join (a b : string) : string :=
  match Js.truthy a, Js.truthy b with
  | false, false => "."
  | true, false => normalize a
  | false, true => normalize b
  | true, true => normalize (a +:+ "/" +:+ b)
  end.

(** [path.resolve(p)] in a process whose working directory is [cwd]. *)
Definition resolve (cwd p : string) : string :=
  let '(resolvedPath, resolvedAbsolute) :=
    if Js.truthy p then (p +:+ "/", isAbsolute p) else ("", false) in
  let '(resolvedPath, resolvedAbsolute) :=
    if resolvedAbsolute then (resolvedPath, true)
    else if Js.truthy cwd then (cwd +:+ "/" +:+ resolvedPath, isAbsolute cwd)
    else (resolvedPath, false) in
  let r := normalizeString resolvedPath (negb resolvedAbsolute) in
  if resolvedAbsolute then "/" +:+ r
  else if 0 <? len r then r else ".".

End Posix.

Module Base64.

Definition alphabet : string :=
  "ABCDEFGHIJKLMNOPQRSTUVWXYZabcdefghijklmnopqrstuvwxyz0123456789+/".

Definition digit (n : N) : ascii :=
  default "="%char (String.get (N.to_nat n) alphabet).

Definition byte_of (n : N) : Byte.byte :=
  default Byte.x00 (Byte.of_N (n mod 256)%N).

(** [buffer.toString("base64")] *)
Fixpoint encode_N (bs : list N) : string :=
  match bs with
  | [] => ""
  | [a] =>
      String (digit (a / 4)) (String (digit ((a mod 4) * 16)) "==")
  | [a; b] =>
      String (digit (a / 4))
        (String (digit ((a mod 4) * 16 + b / 16))
           (String (digit ((b mod 16) * 4)) "="))
  | a :: b :: c :: rest =>
      String (digit (a / 4))
        (String (digit ((a mod 4) * 16 + b / 16))
           (String (digit ((b mod 16) * 4 + c / 64))
              (String (digit (c mod 64)) (encode_N rest))))
  end%N.

Definition encode (bs : list Byte.byte) : string :=
  encode_N (map Byte.to_N bs).

(** The value of a base64 digit; both alphabets are accepted. *)
Definition sextet (c : ascii) : option N :=
  let n := N_of_ascii c in
  (if (65 <=? n) && (n <=? 90) then Some (n - 65)
   else if (97 <=? n) && (n <=? 122) then Some (n - 71)
   else if (48 <=? n) && (n <=? 57) then Some (n + 4)
   else if (n =? 43) || (n =? 45) then Some 62
   else if (n =? 47) || (n =? 95) then Some 63
   else None)%N.

(** The digits before the first [=], other characters skipped. *)
Fixpoint sextets (s : string) : list N :=
  match s with
  | EmptyString => []
  | String c s' =>
      if Ascii.eqb c "=" then []
      else match sextet c with
           | Some v => v :: sextets s'
           | None => sextets s'
           end
  end.

Fixpoint decode_N (ds : list N) : list N :=
  match ds with
  | a :: b :: c :: d :: rest =>
      (a * 4 + b / 16) :: ((b mod 16) * 16 + c / 4)
        :: ((c mod 4) * 64 + d) :: decode_N rest
  | [a; b; c] => [a * 4 + b / 16; (b mod 16) * 16 + c / 4]
  | [a; b] => [a * 4 + b / 16]
  | _ => []
  end%N.

(** [Buffer.from(s, "base64")] *)
Definition decode (s : string) : list Byte.byte :=
  map byte_of (decode_N (sextets s)).

End Base64.

(** Node on a POSIX system, for a given working directory, home directory
    and temporary directory. *)
Definition posix (cwd home tmp : string) : Platform :=
  {| path_extname := Posix.extname;
     path_dirname := Posix.dirname;
     path_join := Posix.join;
     path_isAbsolute := Posix.isAbsolute;
     path_resolve := Posix.resolve cwd;
     os_homedir := home;
     os_tmpdir := tmp;
     base64_decode := Base64.decode;
     base64_encode := Base64.encode |}.

Definition node : Platform := posix "/srv/app" "/home/user" "/tmp".

(** A world with the given environment, no cached client and no history. *)
Definition boot (vars : list (string * string)) : World :=
  {| env := list_to_map vars; cachedClient := None; cachedApiKey := None;
     trace := [] |}.

(* ===================================================================== *)
(** ** Oracles to run the code with *)
(* ===================================================================== *)

Definition is_call (ev : Event) : bool :=
  match ev with EvGenerateContent _ _ _ => true | _ => false end.

(** The number of backend calls in a history. *)
Definition calls (evs : list Event) : nat := length (List.filter is_call evs).

(** The delays of a history, in order. *)
Definition sleeps (evs : list Event) : list Z :=
  omap (fun ev => match ev with EvSleep ms => Some ms | _ => None end) evs.

Definition response_of (ps : list Part) : GenerateContentResponse :=
  {| candidates := Some [ {| content := Some {| parts := Some ps |} |} ] |}.

Definition image_part (d : string) : Part :=
  {| inlineData := Some {| blob_data := Some d;
                           blob_mimeType := Some "image/png" |};
     part_text := None |}.

Definition text_part (t : string) : Part :=
  {| inlineData := None; part_text := Some t |}.

Definition ENOTDIR (path : string) : Thrown :=
  JsError ("ENOTDIR: not a directory, mkdir '" +:+ path +:+ "'") None.

(** The backend answers its n-th call with the n-th entry of [script] (and
    with a 503 beyond it); the encoder returns its input; [mkdir] fails on
    the paths listed in [blocked]; a written file has 21 bytes. *)
Definition scripted (script : list (Outcome GenerateContentResponse))
           (blocked : list string) : Oracle :=
  {| models_generateContent := fun h _ _ _ =>
       default (Throw (ApiError 503 "backend unavailable"))
               (script !! calls h);
     sharp_jpeg := fun _ input => Return input;
     fs_mkdir := fun _ path =>
       if existsb (String.eqb path) blocked then Throw (ENOTDIR path)
       else Return tt;
     fs_writeFile := fun _ _ _ => Return tt;
     fs_stat_size := fun _ _ => Return 21;
     date_toISOString := fun _ => "2026-01-02T03:04:05.678Z";
     random_toString36 := fun _ => "0.k3x9q2mzp" |}.

(** Worlds and oracles used in the examples. *)
Definition w_no_key : World := boot [].
Definition w_keyed : World := boot [("GEMINI_API_KEY", "AIza-primary")].
Definition w_both_keys : World :=
  boot [("GEMINI_API_KEY", "AIza-primary"); ("GOOGLE_API_KEY", "AIza-secondary")].
Definition w_secondary_only : World := boot [("GOOGLE_API_KEY", "AIza-secondary")].
Definition w_empty_primary : World :=
  boot [("GEMINI_API_KEY", ""); ("GOOGLE_API_KEY", "AIza-secondary")].

(** A response with two image fragments ("First" and "Second" in base64)
    around a text fragment. *)
Definition two_images : list Part :=
  [image_part "Rmlyc3Q="; text_part "two drafts"; image_part "U2Vjb25k"].

(** A filesystem on which [/tmp/blocked] is a file, not a directory. *)
Definition blocked_fs : Oracle := scripted [] ["/tmp/blocked"].

(** "synthetic-image-bytes" in base64. *)
Definition synthetic_data : string := "c3ludGhldGljLWltYWdlLWJ5dGVz".

Definition w_output_dir : World := boot [("IMAGE_OUTPUT_DIR", "/tmp/fallback")].

(** The outcome of saving to [/tmp/blocked/output.jpg] on [blocked_fs]
    with [IMAGE_OUTPUT_DIR] set to [/tmp/fallback]. *)
Definition fallback_path : string :=
  "/tmp/fallback/generated-2026-01-02T03-04-05-678Z-k3x9q2.jpg".

Definition fallback_result : Tools.SaveImageResult :=
  {| Tools.filePath := fallback_path;
     Tools.warning :=
       Some ("Requested save_path '/tmp/blocked/output.jpg' failed "
               +:+ "(requested save_path '/tmp/blocked/output.jpg': "
               +:+ "ENOTDIR: not a directory, mkdir '/tmp/blocked'). "
               +:+ "Saved to fallback path instead.") |}.

Definition fallback_world : World :=
  extend w_output_dir
    [ EvMkdir "/tmp/blocked"; EvMkdir "/tmp/fallback"; EvDate; EvRandom;
      EvWriteFile fallback_path (Base64.decode synthetic_data);
      EvStat fallback_path ].

Definition unavailable : Oracle := scripted [] [].
Definition a_client : GoogleGenAI := {| client_apiKey := "AIza-primary" |}.

(* ===================================================================== *)
(** ** Vocabulary of the statements *)
(* ===================================================================== *)

(** [error.status], when it is a number. *)
Definition status_of (e : Thrown) : option Z :=
  match e with
  | ApiError s _ => Some s
  | JsError _ s => s
  | NonError s _ _ => s
  end.

(** A failure is transient when its status is one of the six retryable
    ones, or when its message, lower-cased, speaks of a timeout
    ("timeout", "timed out", "etimedout"), of a connection reset
    ("econnreset") or of a temporary condition ("temporar..."). *)
Definition transient (e : Thrown) : Prop :=
  (exists s, status_of e = Some s /\ s ∈ Gemini.RETRYABLE_STATUS_CODES)
  \/ (exists term,
        In term ["timeout"; "timed out"; "etimedout"; "econnreset"; "temporar"]
        /\ Js.includes (Js.toLowerCase (errorMessage e)) term = true).

(** [error.message], when there is one. *)
Definition message_of (e : Thrown) : option string :=
  match e with
  | ApiError _ m | JsError m _ => Some m
  | NonError _ m _ => m
  end.

(** The statuses that are given a message of their own. *)
Definition status_class (s : Z) : bool :=
  (s =? 401) || (s =? 403) || (s =? 429) || (500 <=? s).

(** The translated message shows the original status or the original
    message. *)
Definition keeps_detail (e : Thrown) : Prop :=
  let shown := errorMessage (Gemini.toUserFacingGeminiError e) in
  (exists s, status_of e = Some s /\ Js.includes shown (Js.of_Z s) = true)
  \/ (exists m, message_of e = Some m /\ Js.includes shown m = true).

(** A thrown value that is not an [Error]: an object with a status and a
    message. *)
Definition teapot : Thrown :=
  NonError (Some 418) (Some "I'm a teapot") "[object Object]".

(** The attempt [saveImage] makes with the caller's path. *)
Definition requested_attempt (savePath : string) : Tools.Attempt :=
  {| Tools.a_savePath := Some savePath;
     Tools.a_defaultDir := None;
     Tools.a_label := "requested save_path '" +:+ savePath +:+ "'" |}.

(** An attempt of [saveImage] on one of the default directories. *)
Definition on_default (dirs : list string) (a : Tools.Attempt) : Prop :=
  Tools.a_savePath a = None
  /\ exists dir, dir ∈ dirs /\ Tools.a_defaultDir a = Some dir.

(** The inline image bytes a fragment carries, if any. *)
Definition image_of (part : Part) : option string :=
  match Gemini.inline_data part with
  | Some d => if Js.truthy d then Some d else None
  | None => None
  end.

(** The images of a response, in fragment order. *)
Definition images (ps : list Part) : list string := omap image_of ps.

Definition first_image (ps : list Part) : option string := head (images ps).
Definition last_image (ps : list Part) : option string := last (images ps).

(** The module-level cache is coherent when the client it holds was made
    for the key it records. *)
Definition cache_coherent (w : World) : Prop :=
  match cachedClient w with
  | Some c => cachedApiKey w = Some (client_apiKey c)
  | None => True
  end.

(** The text a fragment contributes: none when it carries image bytes,
    none when its text is absent or empty. *)
Definition text_of (part : Part) : option string :=
  if Js.truthy_opt (Gemini.inline_data part) then None
  else match part_text part with
       | Some t => if Js.truthy t then Some t else None
       | None => None
       end.

(** The texts of a response, in fragment order. *)
Definition texts (ps : list Part) : list string := omap text_of ps.

(** The image a response offers: that of its first candidate's parts. *)
Definition offered_image (response : GenerateContentResponse) : option string :=
  match Gemini.response_parts response with
  | Some ps => last_image ps
  | None => None
  end.

(** Calls made by [generateImage]: backend, encoder, timer. *)
Definition generation_event (ev : Event) : bool :=
  match ev with
  | EvGenerateContent _ _ _ | EvSharpJpeg _ | EvSleep _ => true
  | _ => false
  end.

(** Calls to the filesystem. *)
Definition fs_event (ev : Event) : bool :=
  match ev with
  | EvMkdir _ | EvWriteFile _ _ | EvStat _ => true
  | _ => false
  end.

(** The directories a history asked to create, and the files it wrote, in
    order. *)
Definition mkdirs (evs : list Event) : list string :=
  omap (fun ev => match ev with EvMkdir p => Some p | _ => None end) evs.

Definition writes (evs : list Event) : list string :=
  omap (fun ev => match ev with EvWriteFile p _ => Some p | _ => None end) evs.

(** A string starts (ends) with white space when its bytes start (end)
    with the encoding of one of the code points that [trim] strips. *)
Definition starts_with_white_space (s : string) : Prop :=
  exists code rest,
    In code Js.WHITE_SPACE /\ list_ascii_of_string s = code ++ rest.

Definition ends_with_white_space (s : string) : Prop :=
  exists code rest,
    In code Js.WHITE_SPACE /\ list_ascii_of_string s = rest ++ code.

(** U+00A0, the no-break space. *)
Definition nbsp : string :=
  String (ascii_of_nat 194) (String (ascii_of_nat 160) EmptyString).

(** The file name made from the clock reading and the random draw that
    follow the history [h]: the ISO string with [:] and [.] replaced, and
    the characters 2 to 7 of the random string. *)
Definition generated_name (ora : Oracle) (h : list Event) : string :=
  "generated-"
    +:+ Js.replace_colon_dot (date_toISOString ora h)
    +:+ "-"
    +:+ Js.substring 2 8 (random_toString36 ora (h ++ [EvDate]))
    +:+ ".jpg".

(** What the [try] block of the handler with fallback threw, and the world
    it left: the error of [generateImage], or the error of [saveImage] on
    the generated data. *)
Definition thrown_in_handler (plat : Platform) (ora : Oracle)
           (args : Tools.Args) (w : World) (e : Thrown) (w' : World) : Prop :=
  Gemini.generateImage plat ora (Tools.prompt args) w = (Throw e, w')
  \/ exists r w1,
       Gemini.generateImage plat ora (Tools.prompt args) w = (Return r, w1)
       /\ Tools.saveImage plat ora (Gemini.data r) (Tools.save_path args) w1
          = (Throw e, w').

(** [generateImage] works with the key [k]: its first call to the outside
    is a backend call made with [k], for the resolved model and the prompt,
    every later backend call is the same call, and the client cache ends up
    recording [k]. *)
Definition generates_with_key (plat : Platform) (ora : Oracle)
           (prompt : string) (w : World) (k : string) : Prop :=
  exists model rest,
    Gemini.getModelName w = (Return model, w)
    /\ trace (snd (Gemini.generateImage plat ora prompt w))
       = trace w ++ EvGenerateContent k model prompt :: rest
    /\ (forall key m p,
          In (EvGenerateContent key m p) rest ->
          key = k /\ m = model /\ p = prompt)
    /\ cachedApiKey (snd (Gemini.generateImage plat ora prompt w)) = Some k.

(** A backend that answers its first call with [two_images]. *)
Definition one_answer : Oracle := scripted [Return (response_of two_images)] [].

(** A backend that fails once with a 503 and then answers. *)
Definition flaky : Oracle :=
  scripted [Throw (ApiError 503 "backend unavailable");
            Return (response_of two_images)] [].

(** A backend that rejects the key. *)
Definition unauthorized : Oracle :=
  scripted [Throw (ApiError 401 "API key not valid")] [].

(** A backend that answers with text only. *)
Definition text_only : Oracle :=
  scripted [Return (response_of [text_part "I cannot draw that."])] [].

(** A keyed world whose cache already holds the client of that key. *)
Definition w_cached : World :=
  {| env := env w_keyed; cachedClient := Some a_client;
     cachedApiKey := Some "AIza-primary"; trace := [] |}.

(* ===================================================================== *)
(** ** Properties *)
(* ===================================================================== *)

(** *** Strings *)

Lemma prefix_app (n b : string) : String.prefix n (n +:+ b) = true.
Proof.
  induction n as [|c n IH]; simpl.
  - now destruct b.
  - destruct (ascii_dec c c); [exact IH | congruence].
Qed.

Lemma includes_prefix (s n : string) :
  String.prefix n s = true -> Js.includes s n = true.
Proof. intros H. destruct s; simpl in *; now rewrite H. Qed.

Lemma includes_cons (c : ascii) (s n : string) :
  Js.includes s n = true -> Js.includes (String c s) n = true.
Proof.
  intros H. cbn [Js.includes].
  destruct (String.prefix n (String c s)); [reflexivity | exact H].
Qed.

Lemma includes_app_r (a s n : string) :
  Js.includes s n = true -> Js.includes (a +:+ s) n = true.
Proof.
  intros H. induction a as [|c a IH]; simpl String.append.
  - exact H.
  - now apply includes_cons.
Qed.

(** A string contains whatever stands between two other strings. *)
Lemma includes_middle (a n b : string) :
  Js.includes (a +:+ n +:+ b) n = true.
Proof. apply includes_app_r, includes_prefix, prefix_app. Qed.

(** *** Credential resolution *)

Lemma getConfiguredApiKey_primary (w : World) (k : string) :
  env w !! "GEMINI_API_KEY" = Some k ->
  Gemini.getConfiguredApiKey w
  = (if Js.truthy k then Return k else Throw (mkError Gemini.MISSING_KEY_MESSAGE), w).
Proof.
  intros H. unfold Gemini.getConfiguredApiKey, bind, getenv. rewrite H.
  destruct k; reflexivity.
Qed.

Lemma getConfiguredApiKey_secondary (w : World) :
  env w !! "GEMINI_API_KEY" = None ->
  Gemini.getConfiguredApiKey w
  = (match env w !! "GOOGLE_API_KEY" with
     | Some k => if Js.truthy k then Return k
                 else Throw (mkError Gemini.MISSING_KEY_MESSAGE)
     | None => Throw (mkError Gemini.MISSING_KEY_MESSAGE)
     end, w).
Proof.
  intros H. unfold Gemini.getConfiguredApiKey, bind, getenv. rewrite H.
  destruct (env w !! "GOOGLE_API_KEY") as [[|c k]|]; reflexivity.
Qed.

Lemma generateImage_no_key (plat : Platform) (ora : Oracle)
      (prompt : string) (w : World) :
  Gemini.getConfiguredApiKey w = (Throw (mkError Gemini.MISSING_KEY_MESSAGE), w) ->
  Gemini.generateImage plat ora prompt w
  = (Throw (mkError Gemini.MISSING_KEY_MESSAGE), w).
Proof.
  intros H. unfold Gemini.generateImage, Gemini.getClient, bind.
  now rewrite H.
Qed.

(** C9: when [GEMINI_API_KEY] is set to the empty string, credential
    resolution fails with the missing-credential error whatever
    [GOOGLE_API_KEY] holds, and so does [generateImage], leaving the world
    untouched: the secondary key is read only when the primary one is
    absent. *)
Theorem C9_empty_primary_key_is_not_replaced
        (plat : Platform) (ora : Oracle) (prompt : string) (w : World) :
  env w !! "GEMINI_API_KEY" = Some "" ->
  Gemini.getConfiguredApiKey w
    = (Throw (mkError Gemini.MISSING_KEY_MESSAGE), w)
  /\ Gemini.generateImage plat ora prompt w
    = (Throw (mkError Gemini.MISSING_KEY_MESSAGE), w).
Proof.
  intros H.
  assert (Hk := getConfiguredApiKey_primary w "" H). simpl in Hk.
  split; [exact Hk | now apply generateImage_no_key].
Qed.

Lemma C9_witness :
  env w_empty_primary !! "GOOGLE_API_KEY" = Some "AIza-secondary"
  /\ Gemini.generateImage node unavailable "a red apple" w_empty_primary
     = (Throw (mkError Gemini.MISSING_KEY_MESSAGE), w_empty_primary).
Proof.
  split; [reflexivity|].
  apply (C9_empty_primary_key_is_not_replaced node unavailable "a red apple").
  reflexivity.
Defined.

(** *** Worlds and histories *)

Lemma extend_nil (w : World) : extend w [] = w.
Proof. destruct w; unfold extend; simpl. now rewrite app_nil_r. Qed.

Lemma extend_extend (w : World) (a b : list Event) :
  extend (extend w a) b = extend w (a ++ b).
Proof. unfold extend; simpl. now rewrite app_assoc. Qed.

Lemma log_extend (ev : Event) (w : World) : log ev w = extend w [ev].
Proof. reflexivity. Qed.

Lemma calls_app (a b : list Event) : calls (a ++ b) = (calls a + calls b)%nat.
Proof. unfold calls. now rewrite List.filter_app, length_app. Qed.

Lemma sleeps_app (a b : list Event) : sleeps (a ++ b) = sleeps a ++ sleeps b.
Proof. unfold sleeps. apply omap_app. Qed.

(** *** One attempt *)

(** An attempt calls the backend once, then the encoder at most once. *)
Lemma attempt_body_extends (plat : Platform) (ora : Oracle)
      (client : GoogleGenAI) (model prompt : string) (w : World) :
  exists tail,
    snd (Gemini.attempt_body plat ora client model prompt w)
    = extend w (EvGenerateContent (client_apiKey client) model prompt :: tail)
    /\ (tail = [] \/ exists input, tail = [EvSharpJpeg input]).
Proof.
  unfold Gemini.attempt_body, bind, call.
  destruct (models_generateContent ora (trace w) (client_apiKey client)
              model prompt) as [response|e].
  2:{ exists []. split; [reflexivity | now left]. }
  destruct (Gemini.response_parts response) as [[|p ps]|].
  1,3: exists []; split; [reflexivity | now left].
  destruct (Gemini.scan_parts (p :: ps)) as [imageData text].
  destruct (negb (Js.truthy_opt imageData)).
  { exists []. split; [reflexivity | now left]. }
  eexists [EvSharpJpeg _]. split; [|right; eauto].
  match goal with |- context [sharp_jpeg ?o ?h ?i] =>
    destruct (sharp_jpeg o h i) end; simpl;
    rewrite !log_extend, extend_extend; reflexivity.
Qed.

(** *** The retry loop *)

Section RetryLoop.
Context (plat : Platform) (ora : Oracle).
Context (client : GoogleGenAI) (model prompt : string).

Local Abbreviation body := (Gemini.attempt_body plat ora client model prompt).
Local Abbreviation loop fuel := (Gemini.retry_loop plat ora fuel client model prompt).

(** One iteration whose attempt succeeded. *)
Lemma retry_loop_return (fuel : nat) (attempt : Z) (w w1 : World)
      (r : Gemini.GenResult) :
  attempt <= Gemini.MAX_RETRIES ->
  body w = (Return r, w1) ->
  loop (S fuel) attempt w = (Gemini.ExitReturn r, w1).
Proof.
  intros Ha Hb. cbn [Gemini.retry_loop].
  destruct (Z.leb_spec attempt Gemini.MAX_RETRIES); [|lia].
  now rewrite Hb.
Qed.

(** One iteration whose attempt failed: the decision of the catch
    clause. *)
Lemma retry_loop_throw (fuel : nat) (attempt : Z) (w w1 : World)
      (e : Thrown) :
  attempt <= Gemini.MAX_RETRIES ->
  body w = (Throw e, w1) ->
  loop (S fuel) attempt w
  = if Gemini.isRetryableGeminiError e && (attempt <? Gemini.MAX_RETRIES)
    then loop fuel (attempt + 1)
              (log (EvSleep (Gemini.RETRY_BACKOFF_MS * 2 ^ attempt)) w1)
    else (Gemini.ExitCatchThrow (Gemini.toUserFacingGeminiError e), w1).
Proof.
  intros Ha Hb. cbn [Gemini.retry_loop].
  destruct (Z.leb_spec attempt Gemini.MAX_RETRIES); [|lia].
  rewrite Hb. reflexivity.
Qed.

(** With enough fuel the loop is left from inside, by [return] or by the
    [throw] of the catch clause. *)
Lemma retry_loop_exits_inside (fuel : nat) :
  forall (attempt : Z) (w : World),
    0 <= attempt <= Gemini.MAX_RETRIES ->
    (Z.to_nat (Gemini.MAX_RETRIES - attempt) < fuel)%nat ->
    match fst (loop fuel attempt w) with
    | Gemini.ExitReturn _ | Gemini.ExitCatchThrow _ => True
    | Gemini.ExitAfterLoop _ | Gemini.ExitNoFuel => False
    end.
Proof.
  induction fuel as [|fuel IH]; intros attempt w Ha Hf; [lia|].
  destruct (body w) as [[r|e] w1] eqn:Hb.
  - now rewrite (retry_loop_return fuel attempt w w1 r (proj2 Ha) Hb).
  - rewrite (retry_loop_throw fuel attempt w w1 e (proj2 Ha) Hb).
    destruct (Gemini.isRetryableGeminiError e); simpl; [|exact I].
    destruct (Z.ltb_spec attempt Gemini.MAX_RETRIES); [|exact I].
    apply IH; lia.
Qed.

(** The history of a run of the loop from [attempt] on. *)
Lemma retry_loop_history (fuel : nat) :
  forall (attempt : Z) (w : World),
    0 <= attempt <= Gemini.MAX_RETRIES ->
    (Z.to_nat (Gemini.MAX_RETRIES - attempt) < fuel)%nat ->
    exists delta,
      snd (loop fuel attempt w) = extend w delta
      /\ (1 <= calls delta)%nat
      /\ Z.of_nat (calls delta) <= Gemini.MAX_RETRIES + 1 - attempt
      /\ sleeps delta
         = (fun k => Gemini.RETRY_BACKOFF_MS * 2 ^ k)
             <$> seqZ attempt (Z.of_nat (calls delta) - 1)
      /\ (forall ms, last delta <> Some (EvSleep ms)).
Proof.
  induction fuel as [|fuel IH]; intros attempt w Ha Hf; [lia|].
  destruct (attempt_body_extends plat ora client model prompt w)
    as (tail & Hw1 & Htail).
  set (first := EvGenerateContent (client_apiKey client) model prompt) in *.
  assert (Hc : calls (first :: tail) = 1%nat)
    by (destruct Htail as [->|[i ->]]; reflexivity).
  assert (Hs : sleeps (first :: tail) = [])
    by (destruct Htail as [->|[i ->]]; reflexivity).
  assert (Hl : forall ms, last (first :: tail) <> Some (EvSleep ms))
    by (intros ms; destruct Htail as [->|[i ->]]; discriminate).
  assert (Hone : exists delta,
             extend w (first :: tail) = extend w delta
             /\ (1 <= calls delta)%nat
             /\ Z.of_nat (calls delta) <= Gemini.MAX_RETRIES + 1 - attempt
             /\ sleeps delta
                = (fun k => Gemini.RETRY_BACKOFF_MS * 2 ^ k)
                    <$> seqZ attempt (Z.of_nat (calls delta) - 1)
             /\ (forall ms, last delta <> Some (EvSleep ms))).
  { exists (first :: tail). rewrite Hc, Hs.
    repeat split; [lia | lia | exact Hl]. }
  destruct (body w) as [[r|e] w1] eqn:Hb; simpl in Hw1; subst w1.
  - now rewrite (retry_loop_return fuel attempt w _ r (proj2 Ha) Hb).
  - rewrite (retry_loop_throw fuel attempt w _ e (proj2 Ha) Hb).
    destruct (Gemini.isRetryableGeminiError e); simpl; [|exact Hone].
    destruct (Z.ltb_spec attempt Gemini.MAX_RETRIES); [|exact Hone].
    destruct (IH (attempt + 1)
                (log (EvSleep (Gemini.RETRY_BACKOFF_MS * 2 ^ attempt))
                     (extend w (first :: tail))))
      as (delta & Hw & Hc1 & Hc2 & Hsl & Hla);
      [lia | clear - H Ha Hf; lia |].
    set (pause := EvSleep (Gemini.RETRY_BACKOFF_MS * 2 ^ attempt)) in *.
    exists ((first :: tail) ++ [pause] ++ delta).
    rewrite Hw, log_extend, !extend_extend.
    rewrite !calls_app, !sleeps_app, Hc, Hs, Hsl.
    change (calls [pause]) with 0%nat. change (sleeps [pause])
      with [Gemini.RETRY_BACKOFF_MS * 2 ^ attempt].
    repeat split.
    + lia.
    + lia.
    + replace (Z.of_nat (1 + (0 + calls delta)) - 1)
        with (Z.succ (Z.of_nat (calls delta) - 1)) by lia.
      rewrite (seqZ_cons attempt) by lia. simpl.
      now rewrite Z.pred_succ, <- Z.add_1_r.
    + intros ms. rewrite !last_app.
      destruct (last delta) eqn:Hd.
      * apply Hla.
      * apply last_None in Hd. subst delta. cbv in Hc1. lia.
Qed.

(** The error the loop ends with is the translation of the raw error of
    the attempt that was made last, [k]; the attempts before it were the
    only other calls to the backend. *)
Lemma retry_loop_terminal_error (fuel : nat) :
  forall (attempt : Z) (w w' : World) (e' : Thrown),
    0 <= attempt <= Gemini.MAX_RETRIES ->
    loop fuel attempt w = (Gemini.ExitCatchThrow e', w') ->
    exists (k : Z) (pre : list Event) (raw : Thrown),
      attempt <= k <= Gemini.MAX_RETRIES
      /\ Z.of_nat (calls pre) = k - attempt
      /\ body (extend w pre) = (Throw raw, w')
      /\ e' = Gemini.toUserFacingGeminiError raw
      /\ (Gemini.isRetryableGeminiError raw = false
          \/ k = Gemini.MAX_RETRIES).
Proof.
  induction fuel as [|fuel IH]; intros attempt w w' e' Ha H; [discriminate|].
  assert (Hhere : forall e,
             body w = (Throw e, w') ->
             Gemini.isRetryableGeminiError e = false
             \/ attempt = Gemini.MAX_RETRIES ->
             exists (k : Z) (pre : list Event) (raw : Thrown),
               attempt <= k <= Gemini.MAX_RETRIES
               /\ Z.of_nat (calls pre) = k - attempt
               /\ body (extend w pre) = (Throw raw, w')
               /\ Gemini.toUserFacingGeminiError e
                  = Gemini.toUserFacingGeminiError raw
               /\ (Gemini.isRetryableGeminiError raw = false
                   \/ k = Gemini.MAX_RETRIES)).
  { intros e Hb Hwhy. exists attempt, [], e. rewrite extend_nil.
    repeat split; [lia | lia | unfold calls; simpl; lia | exact Hb | exact Hwhy]. }
  destruct (attempt_body_extends plat ora client model prompt w)
    as (tail & Hw1 & Htail).
  destruct (body w) as [[r|e] w1] eqn:Hb; simpl in Hw1.
  - rewrite (retry_loop_return fuel attempt w w1 r (proj2 Ha) Hb) in H.
    discriminate.
  - rewrite (retry_loop_throw fuel attempt w w1 e (proj2 Ha) Hb) in H.
    destruct (Gemini.isRetryableGeminiError e) eqn:Hr; simpl in H.
    + destruct (Z.ltb_spec attempt Gemini.MAX_RETRIES).
      * destruct (IH (attempt + 1) _ _ _ ltac:(lia) H)
          as (k & pre & raw & Hk & Hc & Hrest).
        subst w1. rewrite log_extend, !extend_extend in Hrest.
        eexists k, _, raw. split; [lia|]. split; [|exact Hrest].
        rewrite !calls_app.
        assert (Hone : calls (EvGenerateContent (client_apiKey client)
                                model prompt :: tail) = 1%nat)
          by (destruct Htail as [->|[i ->]]; reflexivity).
        rewrite Hone. change (calls [_]) with 0%nat. lia.
      * injection H as <- <-. apply Hhere; [reflexivity | right; lia].
    + injection H as <- <-. apply Hhere; [reflexivity | now left].
Qed.

(** Every backend call of the loop is the call of its client, model and
    prompt, and an iteration starts with it. *)
Lemma retry_loop_same_call (fuel : nat) :
  forall (attempt : Z) (w : World),
    exists delta,
      snd (loop fuel attempt w) = extend w delta
      /\ (forall key m p,
            In (EvGenerateContent key m p) delta ->
            key = client_apiKey client /\ m = model /\ p = prompt)
      /\ (fuel <> O -> attempt <= Gemini.MAX_RETRIES ->
          exists rest,
            delta
            = EvGenerateContent (client_apiKey client) model prompt :: rest).
Proof.
  induction fuel as [|fuel IH]; intros attempt w.
  { exists []. rewrite extend_nil. split; [reflexivity|].
    split; [intros key m p []|]. intros H. now destruct H. }
  cbn [Gemini.retry_loop].
  destruct (Z.leb_spec attempt Gemini.MAX_RETRIES) as [Ha|Ha].
  2:{ exists []. rewrite extend_nil. split; [reflexivity|].
      split; [intros key m p []|]. intros _ H. lia. }
  destruct (attempt_body_extends plat ora client model prompt w)
    as (tail & Hw1 & Htail).
  set (first := EvGenerateContent (client_apiKey client) model prompt) in *.
  assert (Hfirst : forall key m p,
             In (EvGenerateContent key m p) (first :: tail) ->
             key = client_apiKey client /\ m = model /\ p = prompt).
  { intros key m p [H|H]; [now injection H as <- <- <-|].
    destruct Htail as [->|[i ->]]; [destruct H|].
    destruct H as [H|[]]; discriminate H. }
  destruct (body w) as [[r|e] w1]; cbn [snd] in Hw1; subst w1.
  - exists (first :: tail). split; [reflexivity|]. split; [exact Hfirst|].
    intros _ _. now exists tail.
  - destruct (_ && _).
    + cbn [Gemini.sleep call].
      destruct (IH (attempt + 1)
                  (log (EvSleep (Gemini.RETRY_BACKOFF_MS * 2 ^ attempt))
                       (extend w (first :: tail))))
        as (delta & -> & Hd & _).
      exists ((first :: tail)
                ++ [EvSleep (Gemini.RETRY_BACKOFF_MS * 2 ^ attempt)] ++ delta).
      rewrite log_extend, !extend_extend. split; [reflexivity|]. split.
      * intros key m p Hin. apply in_app_or in Hin as [Hin|Hin];
          [now apply Hfirst|].
        destruct Hin as [Hin|Hin]; [discriminate Hin | now apply Hd].
      * intros _ _. eexists. reflexivity.
    + exists (first :: tail). split; [reflexivity|]. split; [exact Hfirst|].
      intros _ _. now exists tail.
Qed.

End RetryLoop.

(** *** Transient failures *)

Lemma retryable_status_elem (s : Z) :
  Gemini.retryable_status s = true -> s ∈ Gemini.RETRYABLE_STATUS_CODES.
Proof. unfold Gemini.retryable_status. apply bool_decide_eq_true_1. Qed.

Lemma retryable_message_term (m : string) :
  Gemini.retryable_message m = true ->
  exists term,
    In term ["timeout"; "timed out"; "etimedout"; "econnreset"; "temporar"]
    /\ Js.includes (Js.toLowerCase m) term = true.
Proof.
  unfold Gemini.retryable_message. intros H.
  repeat (apply orb_true_iff in H; destruct H as [H|H]);
    eexists; (split; [|exact H]); simpl; tauto.
Qed.

(** What the classifier accepts is transient. *)
Lemma isRetryable_transient (e : Thrown) :
  Gemini.isRetryableGeminiError e = true -> transient e.
Proof.
  destruct e as [s m | m [s|] | [s|] m r]; simpl; intros H.
  - left. exists s. split; [reflexivity | now apply retryable_status_elem].
  - destruct (Gemini.retryable_status s) eqn:Hs.
    + left. exists s. split; [reflexivity | now apply retryable_status_elem].
    + right. now apply retryable_message_term.
  - right. now apply retryable_message_term.
  - destruct (Gemini.retryable_status s) eqn:Hs.
    + left. exists s. split; [reflexivity | now apply retryable_status_elem].
    + right. now apply retryable_message_term.
  - right. now apply retryable_message_term.
Qed.

Example api_error_message_is_not_consulted :
  Gemini.isRetryableGeminiError (ApiError 400 "request timeout") = false.
Proof. reflexivity. Qed.

Example retry_classifier_test :
  Gemini.isRetryableGeminiError (ApiError 503 "backend unavailable") = true
  /\ Gemini.isRetryableGeminiError (ApiError 400 "bad request") = false.
Proof. split; reflexivity. Qed.

(** *** [generateImage] as a whole *)

Lemma getConfiguredApiKey_world (w : World) :
  snd (Gemini.getConfiguredApiKey w) = w.
Proof.
  unfold Gemini.getConfiguredApiKey, bind, getenv.
  now destruct (negb _).
Qed.

Lemma getConfiguredApiKey_throws (w w1 : World) (e : Thrown) :
  Gemini.getConfiguredApiKey w = (Throw e, w1) ->
  e = mkError Gemini.MISSING_KEY_MESSAGE.
Proof.
  unfold Gemini.getConfiguredApiKey, bind, getenv.
  destruct (negb _); [|discriminate]. now intros [= <- _].
Qed.

Lemma getClient_trace (w : World) :
  trace (snd (Gemini.getClient w)) = trace w.
Proof.
  assert (Hw := getConfiguredApiKey_world w).
  unfold Gemini.getClient, bind.
  destruct (Gemini.getConfiguredApiKey w) as [[k|e] w1]; simpl in Hw; subst w1.
  - destruct (cachedClient w); [destruct (bool_decide _)|]; reflexivity.
  - reflexivity.
Qed.

Lemma generateImage_unfold (plat : Platform) (ora : Oracle)
      (prompt : string) (w : World) :
  (exists e, Gemini.getClient w = (Throw e, w)
             /\ e = mkError Gemini.MISSING_KEY_MESSAGE
             /\ Gemini.generateImage plat ora prompt w = (Throw e, w))
  \/ (exists client model w0,
         trace w0 = trace w
         /\ Gemini.generateImage plat ora prompt w
            = (Gemini.outcome_of_exit
                 (fst (Gemini.retry_loop plat ora Gemini.loop_fuel
                         client model prompt 0 w0)),
               snd (Gemini.retry_loop plat ora Gemini.loop_fuel
                      client model prompt 0 w0))).
Proof.
  assert (Ht := getClient_trace w).
  unfold Gemini.generateImage, bind.
  destruct (Gemini.getClient w) as [[client|e] w0] eqn:Hc.
  - right. unfold Gemini.getModelName, bind, getenv, ret.
    match goal with
    | |- context [Gemini.retry_loop _ _ _ _ ?m _ _ _] => exists client, m, w0
    end.
    split; [exact Ht|].
    now destruct (Gemini.retry_loop _ _ _ _ _ _ _ _).
  - left. exists e.
    assert (Hw := getConfiguredApiKey_world w).
    unfold Gemini.getClient, bind in Hc.
    destruct (Gemini.getConfiguredApiKey w) as [[k|e1] w1] eqn:Hk;
      simpl in Hw; subst w1.
    + destruct (cachedClient w); [destruct (bool_decide _)|]; discriminate.
    + injection Hc as -> ->.
      split; [reflexivity|]. split; [|reflexivity].
      exact (getConfiguredApiKey_throws _ _ _ Hk).
Qed.

(** On a coherent cache [getClient] returns a client made for the
    configured key and records that key. *)
Lemma getClient_coherent (w : World) (k : string) :
  Gemini.getConfiguredApiKey w = (Return k, w) ->
  cache_coherent w ->
  exists client w0,
    Gemini.getClient w = (Return client, w0)
    /\ client_apiKey client = k
    /\ env w0 = env w /\ trace w0 = trace w /\ cachedApiKey w0 = Some k.
Proof.
  intros Hk Hco. unfold Gemini.getClient, bind. rewrite Hk.
  unfold cache_coherent in Hco.
  destruct (cachedClient w) as [cached|] eqn:Hc.
  - destruct (bool_decide (cachedApiKey w = Some k)) eqn:Hb.
    + apply bool_decide_eq_true_1 in Hb. exists cached, w.
      split; [reflexivity|]. split; [congruence|]. now repeat split.
    + eexists _, _. split; [reflexivity|]. now repeat split.
  - eexists _, _. split; [reflexivity|]. now repeat split.
Qed.

Lemma generateImage_uses_key (plat : Platform) (ora : Oracle)
      (prompt : string) (w : World) (k : string) :
  Gemini.getConfiguredApiKey w = (Return k, w) ->
  cache_coherent w ->
  generates_with_key plat ora prompt w k.
Proof.
  intros Hk Hco.
  destruct (getClient_coherent w k Hk Hco)
    as (client & w0 & Hc & <- & He & Ht & Hkey).
  assert (Hm : Gemini.getModelName w
               = (Return (if Js.truthy_opt
                                (Js.trim <$> env w !! "GEMINI_IMAGE_MODEL")
                          then default "" (Js.trim <$> env w !! "GEMINI_IMAGE_MODEL")
                          else Gemini.DEFAULT_IMAGE_MODEL), w)) by reflexivity.
  assert (Hm0 : Gemini.getModelName w0
                = (Return (if Js.truthy_opt
                                 (Js.trim <$> env w !! "GEMINI_IMAGE_MODEL")
                           then default "" (Js.trim <$> env w !! "GEMINI_IMAGE_MODEL")
                           else Gemini.DEFAULT_IMAGE_MODEL), w0)).
  { unfold Gemini.getModelName, bind, getenv, ret. now rewrite He. }
  set (model := if Js.truthy_opt (Js.trim <$> env w !! "GEMINI_IMAGE_MODEL")
                then default "" (Js.trim <$> env w !! "GEMINI_IMAGE_MODEL")
                else Gemini.DEFAULT_IMAGE_MODEL) in *.
  assert (Hrun : Gemini.generateImage plat ora prompt w
                 = (Gemini.outcome_of_exit
                      (fst (Gemini.retry_loop plat ora Gemini.loop_fuel client
                              model prompt 0 w0)),
                    snd (Gemini.retry_loop plat ora Gemini.loop_fuel client
                           model prompt 0 w0))).
  { unfold Gemini.generateImage, bind. rewrite Hc, Hm0.
    now destruct (Gemini.retry_loop _ _ _ _ _ _ _ _). }
  destruct (retry_loop_same_call plat ora client model prompt
              Gemini.loop_fuel 0 w0) as (delta & Hd & Hsame & Hfirst).
  destruct Hfirst as [rest ->];
    [discriminate | unfold Gemini.MAX_RETRIES; lia |].
  exists model, rest. split; [exact Hm|]. rewrite Hrun. cbn [snd].
  rewrite Hd. cbn [trace cachedApiKey extend]. rewrite Ht.
  split; [reflexivity|]. split; [|exact Hkey].
  intros key m p Hin. apply Hsame. now right.
Qed.

(** The cache is coherent at start-up and every run of [generateImage]
    keeps it so: [getClient] is the only place where it is written. *)
Lemma boot_coherent (vars : list (string * string)) :
  cache_coherent (boot vars).
Proof. exact I. Qed.

Lemma generateImage_coherent (plat : Platform) (ora : Oracle)
      (prompt : string) (w : World) :
  cache_coherent w ->
  cache_coherent (snd (Gemini.generateImage plat ora prompt w)).
Proof.
  intros Hco.
  assert (Hloop : forall client model w0,
             cache_coherent w0 ->
             cache_coherent
               (snd (Gemini.retry_loop plat ora Gemini.loop_fuel client model
                       prompt 0 w0))).
  { intros client model w0 H0.
    destruct (retry_loop_same_call plat ora client model prompt
                Gemini.loop_fuel 0 w0) as (delta & -> & _).
    exact H0. }
  assert (Hw := getConfiguredApiKey_world w).
  unfold Gemini.generateImage, Gemini.getClient, Gemini.getModelName,
    bind, getenv, ret.
  destruct (Gemini.getConfiguredApiKey w) as [[k|e] w1]; cbn [snd] in Hw;
    subst w1; [|exact Hco].
  destruct (cachedClient w) as [cached|] eqn:Hc.
  - destruct (bool_decide (cachedApiKey w = Some k)).
    + specialize (Hloop cached
                    (if Js.truthy_opt (Js.trim <$> env w !! "GEMINI_IMAGE_MODEL")
                     then default "" (Js.trim <$> env w !! "GEMINI_IMAGE_MODEL")
                     else Gemini.DEFAULT_IMAGE_MODEL) w Hco).
      now destruct (Gemini.retry_loop _ _ _ _ _ _ _ _).
    + match goal with
      | |- context [Gemini.retry_loop _ _ _ ?c ?m _ _ ?w0] =>
          specialize (Hloop c m w0 eq_refl)
      end.
      now destruct (Gemini.retry_loop _ _ _ _ _ _ _ _).
  - match goal with
    | |- context [Gemini.retry_loop _ _ _ ?c ?m _ _ ?w0] =>
        specialize (Hloop c m w0 eq_refl)
    end.
    now destruct (Gemini.retry_loop _ _ _ _ _ _ _ _).
Qed.

(** C8: the credential is the primary key when that one is set to a
    non-empty value, and the secondary key when the primary one is absent,
    and [generateImage] works with the key so resolved (on a coherent client
    cache, which is what the module starts with and what every run keeps):
    the first thing it does is a backend call made with that key, every
    later backend call is made with it, and the client cache records it.
    When neither key is set,
    [generateImage] fails with the missing-credential error and the world is
    left as it was (no backend call, no delay, so nothing is retried), and
    both handlers answer with an error-flagged response whose text contains
    "environment variable is required". *)
Theorem C8_credential_resolution_and_missing_key
        (plat : Platform) (ora : Oracle) (w : World) :
  (forall k, env w !! "GEMINI_API_KEY" = Some k -> Js.truthy k = true ->
             Gemini.getConfiguredApiKey w = (Return k, w)
             /\ (cache_coherent w ->
                 forall prompt, generates_with_key plat ora prompt w k))
  /\ (forall k, env w !! "GEMINI_API_KEY" = None ->
                env w !! "GOOGLE_API_KEY" = Some k -> Js.truthy k = true ->
                Gemini.getConfiguredApiKey w = (Return k, w)
                /\ (cache_coherent w ->
                    forall prompt, generates_with_key plat ora prompt w k))
  /\ (env w !! "GEMINI_API_KEY" = None ->
      env w !! "GOOGLE_API_KEY" = None ->
      forall prompt : string,
        Gemini.generateImage plat ora prompt w
          = (Throw (mkError Gemini.MISSING_KEY_MESSAGE), w)
        /\ (forall save_path,
              exists t,
                Tools.handler plat ora
                  {| Tools.prompt := prompt; Tools.save_path := save_path |} w
                = ({| resp_content := [TextContent t];
                      structuredContent := None;
                      isError := true |}, w)
                /\ Js.includes t "environment variable is required" = true)
        /\ (forall save_path,
              exists t,
                ToolsStrict.handler plat ora
                  {| ToolsStrict.prompt := prompt;
                     ToolsStrict.save_path := save_path |} w
                = ({| resp_content := [TextContent t];
                      structuredContent := None;
                      isError := true |}, w)
                /\ Js.includes t "environment variable is required" = true)).
Proof.
  split; [|split].
  - intros k H Hk.
    assert (Hkey : Gemini.getConfiguredApiKey w = (Return k, w))
      by (rewrite (getConfiguredApiKey_primary w k H); now rewrite Hk).
    split; [exact Hkey|]. intros Hco prompt.
    now apply generateImage_uses_key.
  - intros k H1 H2 Hk.
    assert (Hkey : Gemini.getConfiguredApiKey w = (Return k, w))
      by (rewrite (getConfiguredApiKey_secondary w H1), H2; now rewrite Hk).
    split; [exact Hkey|]. intros Hco prompt.
    now apply generateImage_uses_key.
  - intros H1 H2 prompt.
    assert (Hg : Gemini.generateImage plat ora prompt w
                 = (Throw (mkError Gemini.MISSING_KEY_MESSAGE), w)).
    { apply generateImage_no_key.
      rewrite (getConfiguredApiKey_secondary w H1). now rewrite H2. }
    split; [exact Hg|].
    split; intros save_path; eexists;
      (split; [|exact (includes_middle "Error generating image: GEMINI_API_KEY (or GOOGLE_API_KEY) "
                         "environment variable is required"
                         " for image generation.")]).
    + unfold Tools.handler, bind. cbn [Tools.prompt]. rewrite Hg. reflexivity.
    + unfold ToolsStrict.handler, bind. cbn [ToolsStrict.prompt]. rewrite Hg.
      reflexivity.
Qed.

Lemma C8_witness :
  (Gemini.getConfiguredApiKey w_both_keys = (Return "AIza-primary", w_both_keys)
   /\ generates_with_key node unavailable "draw a cat" w_both_keys
                         "AIza-primary")
  /\ (Gemini.getConfiguredApiKey w_secondary_only
      = (Return "AIza-secondary", w_secondary_only)
      /\ generates_with_key node one_answer "draw a cat" w_secondary_only
                            "AIza-secondary")
  /\ Gemini.generateImage node unavailable "draw a cat" w_no_key
     = (Throw (mkError Gemini.MISSING_KEY_MESSAGE), w_no_key).
Proof.
  split; [|split].
  - destruct (proj1 (C8_credential_resolution_and_missing_key
                       node unavailable w_both_keys)
                    "AIza-primary" eq_refl eq_refl) as [Hkey Hrun].
    split; [exact Hkey | exact (Hrun I "draw a cat")].
  - destruct (proj1 (proj2 (C8_credential_resolution_and_missing_key
                              node one_answer w_secondary_only))
                    "AIza-secondary" eq_refl eq_refl eq_refl) as [Hkey Hrun].
    split; [exact Hkey | exact (Hrun I "draw a cat")].
  - apply (proj2 (proj2 (C8_credential_resolution_and_missing_key
                           node unavailable w_no_key)));
      reflexivity.
Defined.

(** With only the secondary key set, the backend is called with it. *)
Example secondary_key_is_used :
  trace (snd (Gemini.generateImage node one_answer "draw a cat"
                w_secondary_only))
  = [ EvGenerateContent "AIza-secondary" Gemini.DEFAULT_IMAGE_MODEL "draw a cat";
      EvSharpJpeg (Base64.decode "U2Vjb25k") ].
Proof. vm_compute. reflexivity. Qed.

(** C10: the [throw] that follows the retry loop is never reached.  When
    a key is configured, [generateImage] is the outcome of its loop, and
    from attempt 0 the loop is left by the [return] of the [try] block or by
    the [throw] of the [catch] clause, for every backend, encoder and input
    (and the model's fuel does not run out); an iteration goes on to the
    next one only when its attempt counter is strictly below
    [MAX_RETRIES]. *)
Theorem C10_throw_after_loop_unreachable (plat : Platform) (ora : Oracle) :
  (forall (prompt : string) (w : World),
     Gemini.generateImage plat ora prompt w
     = (Throw (mkError Gemini.MISSING_KEY_MESSAGE), w)
     \/ exists client model w0,
         trace w0 = trace w
         /\ match Gemini.retry_loop plat ora Gemini.loop_fuel
                                    client model prompt 0 w0 with
            | (Gemini.ExitReturn r, w') =>
                Gemini.generateImage plat ora prompt w = (Return r, w')
            | (Gemini.ExitCatchThrow e, w') =>
                Gemini.generateImage plat ora prompt w = (Throw e, w')
            | (Gemini.ExitAfterLoop _, _) | (Gemini.ExitNoFuel, _) => False
            end)
  /\ (forall (client : GoogleGenAI) (model prompt : string) (w : World),
        match fst (Gemini.retry_loop plat ora Gemini.loop_fuel
                     client model prompt 0 w) with
        | Gemini.ExitReturn _ | Gemini.ExitCatchThrow _ => True
        | Gemini.ExitAfterLoop _ | Gemini.ExitNoFuel => False
        end)
  /\ (forall (client : GoogleGenAI) (model prompt : string)
             (fuel : nat) (attempt : Z) (w : World),
        attempt <= Gemini.MAX_RETRIES ->
        (exists r w1,
            Gemini.retry_loop plat ora (S fuel) client model prompt attempt w
            = (Gemini.ExitReturn r, w1))
        \/ (exists raw w1,
               Gemini.retry_loop plat ora (S fuel) client model prompt attempt w
               = (Gemini.ExitCatchThrow (Gemini.toUserFacingGeminiError raw), w1))
        \/ (attempt < Gemini.MAX_RETRIES
            /\ exists w2,
                Gemini.retry_loop plat ora (S fuel) client model prompt attempt w
                = Gemini.retry_loop plat ora fuel client model prompt
                    (attempt + 1) w2)).
Proof.
  assert (Hinside : forall client model prompt w,
             match fst (Gemini.retry_loop plat ora Gemini.loop_fuel
                          client model prompt 0 w) with
             | Gemini.ExitReturn _ | Gemini.ExitCatchThrow _ => True
             | Gemini.ExitAfterLoop _ | Gemini.ExitNoFuel => False
             end).
  { intros client model prompt w. apply retry_loop_exits_inside.
    - unfold Gemini.MAX_RETRIES; lia.
    - vm_compute. lia. }
  split; [|split].
  - intros prompt w.
    destruct (generateImage_unfold plat ora prompt w)
      as [(e & _ & -> & H) | (client & model & w0 & Ht & H)];
      [now left | right].
    exists client, model, w0. split; [exact Ht|].
    specialize (Hinside client model prompt w0).
    destruct (Gemini.retry_loop plat ora Gemini.loop_fuel client model
                prompt 0 w0) as [[r|e|e|] w'];
      cbn [fst snd Gemini.outcome_of_exit] in H, Hinside;
      [exact H | exact H | contradiction | contradiction].
  - exact Hinside.
  - intros client model prompt fuel attempt w Ha.
    destruct (Gemini.attempt_body plat ora client model prompt w)
      as [[r|e] w1] eqn:Hb.
    + left. exists r, w1. now apply retry_loop_return.
    + right.
      rewrite (retry_loop_throw plat ora client model prompt
                 fuel attempt w w1 e Ha Hb).
      destruct (Gemini.isRetryableGeminiError e); simpl.
      * destruct (Z.ltb_spec attempt Gemini.MAX_RETRIES).
        -- right. split; [assumption|]. eauto.
        -- left. eauto.
      * left. eauto.
Qed.

Lemma C10_witness :
  1 <= Gemini.MAX_RETRIES
  /\ ((exists r w1,
         Gemini.retry_loop node unavailable 2 a_client "m" "draw a cat" 1 w_keyed
         = (Gemini.ExitReturn r, w1))
      \/ (exists raw w1,
             Gemini.retry_loop node unavailable 2 a_client "m" "draw a cat" 1
                               w_keyed
             = (Gemini.ExitCatchThrow (Gemini.toUserFacingGeminiError raw), w1))
      \/ (1 < Gemini.MAX_RETRIES
          /\ exists w2,
              Gemini.retry_loop node unavailable 2 a_client "m" "draw a cat" 1
                                w_keyed
              = Gemini.retry_loop node unavailable 1 a_client "m" "draw a cat"
                                  (1 + 1) w2)).
Proof.
  assert (H : 1 <= Gemini.MAX_RETRIES) by (vm_compute; discriminate).
  split; [exact H|].
  exact (proj2 (proj2 (C10_throw_after_loop_unreachable node unavailable))
               a_client "m" "draw a cat" 1%nat 1 w_keyed H).
Defined.

(** C5: [generateImage] calls the backend at most 3 times; the delays it
    waits are, in order, the first (number of calls - 1) of 500 and 1000,
    so each is 500 * 2^attempt, and the last thing it does is never a delay.
    A failed attempt [attempt] is followed by another one only when the
    failure is transient and [attempt < 2], and then exactly the delay
    [500 * 2 ^ attempt] is waited in between; otherwise the loop ends there
    with the translated error and nothing is waited. *)
Theorem C5_retry_policy (plat : Platform) (ora : Oracle) :
  (forall (prompt : string) (w : World),
     exists delta,
       trace (snd (Gemini.generateImage plat ora prompt w)) = trace w ++ delta
       /\ (calls delta <= 3)%nat
       /\ sleeps delta = firstn (calls delta - 1) [500; 1000]
       /\ (forall ms, last delta <> Some (EvSleep ms)))
  /\ (forall (fuel : nat) (client : GoogleGenAI) (model prompt : string)
             (attempt : Z) (w w1 : World) (e : Thrown),
        attempt <= Gemini.MAX_RETRIES ->
        Gemini.attempt_body plat ora client model prompt w = (Throw e, w1) ->
        (transient e
         /\ attempt < 2
         /\ Gemini.isRetryableGeminiError e = true
         /\ Gemini.retry_loop plat ora (S fuel) client model prompt attempt w
            = Gemini.retry_loop plat ora fuel client model prompt (attempt + 1)
                (log (EvSleep (500 * 2 ^ attempt)) w1))
        \/ ((Gemini.isRetryableGeminiError e = false \/ 2 <= attempt)
            /\ Gemini.retry_loop plat ora (S fuel) client model prompt attempt w
               = (Gemini.ExitCatchThrow (Gemini.toUserFacingGeminiError e), w1))).
Proof.
  split.
  - intros prompt w.
    destruct (generateImage_unfold plat ora prompt w)
      as [(e & _ & _ & ->) | (client & model & w0 & Ht & ->)].
    + exists []. simpl. rewrite app_nil_r.
      split; [reflexivity|]. split; [cbv; lia|].
      split; [reflexivity | discriminate].
    + destruct (retry_loop_history plat ora client model prompt
                  Gemini.loop_fuel 0 w0)
        as (delta & Hw & Hc1 & Hc2 & Hs & Hl).
      { unfold Gemini.MAX_RETRIES; lia. }
      { vm_compute; lia. }
      exists delta. cbn [snd]. rewrite Hw. simpl. rewrite Ht.
      split; [reflexivity|].
      unfold Gemini.MAX_RETRIES in Hc2.
      split; [lia|]. split; [|exact Hl].
      rewrite Hs.
      destruct (calls delta) as [|[|[|[|n]]]]; try lia; reflexivity.
  - intros fuel client model prompt attempt w w1 e Ha Hb.
    rewrite (retry_loop_throw plat ora client model prompt
               fuel attempt w w1 e Ha Hb).
    destruct (Gemini.isRetryableGeminiError e) eqn:Hr; simpl.
    + unfold Gemini.MAX_RETRIES.
      destruct (Z.ltb_spec attempt 2).
      * left. repeat split; try assumption. now apply isRetryable_transient.
      * right. split; [now right | reflexivity].
    + right. split; [now left | reflexivity].
Qed.

Lemma C5_witness :
  0 <= Gemini.MAX_RETRIES
  /\ Gemini.attempt_body node unavailable a_client "m" "draw a cat" w_keyed
     = (Throw (ApiError 503 "backend unavailable"),
        log (EvGenerateContent "AIza-primary" "m" "draw a cat") w_keyed)
  /\ ((transient (ApiError 503 "backend unavailable")
       /\ 0 < 2
       /\ Gemini.isRetryableGeminiError (ApiError 503 "backend unavailable") = true
       /\ Gemini.retry_loop node unavailable 4 a_client "m" "draw a cat" 0 w_keyed
          = Gemini.retry_loop node unavailable 3 a_client "m" "draw a cat" (0 + 1)
              (log (EvSleep (500 * 2 ^ 0))
                 (log (EvGenerateContent "AIza-primary" "m" "draw a cat") w_keyed)))
      \/ ((Gemini.isRetryableGeminiError (ApiError 503 "backend unavailable") = false
           \/ 2 <= 0)
          /\ Gemini.retry_loop node unavailable 4 a_client "m" "draw a cat" 0 w_keyed
             = (Gemini.ExitCatchThrow
                  (Gemini.toUserFacingGeminiError
                     (ApiError 503 "backend unavailable")),
                log (EvGenerateContent "AIza-primary" "m" "draw a cat") w_keyed))).
Proof.
  assert (Ha : 0 <= Gemini.MAX_RETRIES) by (vm_compute; discriminate).
  assert (Hb : Gemini.attempt_body node unavailable a_client "m" "draw a cat"
                 w_keyed
               = (Throw (ApiError 503 "backend unavailable"),
                  log (EvGenerateContent "AIza-primary" "m" "draw a cat") w_keyed))
    by reflexivity.
  split; [exact Ha|]. split; [exact Hb|].
  exact (proj2 (C5_retry_policy node unavailable)
               3%nat a_client "m" "draw a cat" 0 w_keyed _ _ Ha Hb).
Defined.

(** A run against a backend that answers 503 three times: three calls,
    delays of 500 and 1000 in between, then the translated error. *)
Example three_attempts_then_unavailable :
  let '(out, w') := Gemini.generateImage node unavailable "draw a cat" w_keyed in
  out = Throw (mkError Gemini.UNAVAILABLE_MESSAGE)
  /\ trace w'
     = [ EvGenerateContent "AIza-primary" Gemini.DEFAULT_IMAGE_MODEL "draw a cat";
         EvSleep 500;
         EvGenerateContent "AIza-primary" Gemini.DEFAULT_IMAGE_MODEL "draw a cat";
         EvSleep 1000;
         EvGenerateContent "AIza-primary" Gemini.DEFAULT_IMAGE_MODEL "draw a cat" ].
Proof. vm_compute. split; reflexivity. Qed.

(** *** Error translation *)

Lemma includes_self (m : string) : Js.includes m m = true.
Proof.
  apply includes_prefix. induction m as [|c m IH]; simpl; [reflexivity|].
  destruct (ascii_dec c c); [exact IH | congruence].
Qed.

(** The claim of C7 fails for a thrown value that is not an [Error]: an
    object with status 418 and message "I'm a teapot" is outside the three
    status classes, and its translation shows neither the status nor the
    message. *)
Lemma C7_counterexample :
  ~ (forall e : Thrown,
       match status_of e with Some s => status_class s = false | None => True end ->
       keeps_detail e).
Proof.
  intros H. specialize (H teapot eq_refl).
  destruct H as [(s & [= <-] & H) | (m & [= <-] & H)]; vm_compute in H;
    discriminate H.
Qed.

(** C7, amended: for attempts that fail with [ApiError]s, with other
    [Error]s, or with other values whose [message] is absent or a string
    (the domain of [Thrown]), an error thrown by [generateImage] is the
    missing-key error, thrown before the loop with the world untouched, or
    the translation of the raw error of the attempt made last, which was
    either not retryable or the third attempt; the raw errors of earlier
    attempts are dropped untranslated.  The translation maps an [ApiError]
    of status 401 or 403 to the check-credential message, of status 429 to
    the retry-later message, of status 500 and above to the
    temporarily-unavailable message, and any other [ApiError] to a message
    that shows its status and its message; any other [Error] to a message
    that shows its message; and a thrown value that is not an [Error] to the
    fixed unknown-error message.  (A thrown value that is not an [Error]
    and whose [message] is neither absent nor a string is outside this
    statement: the classifier throws a [TypeError] on it before any
    translation is made.) *)
Theorem C7_terminal_error_is_translated_once (plat : Platform) (ora : Oracle) :
  (forall (prompt : string) (w w' : World) (e : Thrown),
     Gemini.generateImage plat ora prompt w = (Throw e, w') ->
     (e = mkError Gemini.MISSING_KEY_MESSAGE /\ w' = w)
     \/ (exists (client : GoogleGenAI) (model : string) (w0 : World)
                (raw : Thrown),
            Gemini.attempt_body plat ora client model prompt w0 = (Throw raw, w')
            /\ e = Gemini.toUserFacingGeminiError raw
            /\ (calls (trace w0) <= calls (trace w) + 2)%nat
            /\ (Gemini.isRetryableGeminiError raw = false
                \/ calls (trace w0) = (calls (trace w) + 2)%nat)))
  /\ (forall s m, s = 401 \/ s = 403 ->
        Gemini.toUserFacingGeminiError (ApiError s m)
        = mkError Gemini.AUTH_MESSAGE)
  /\ (forall m,
        Gemini.toUserFacingGeminiError (ApiError 429 m)
        = mkError Gemini.RATE_LIMIT_MESSAGE)
  /\ (forall s m, 500 <= s ->
        Gemini.toUserFacingGeminiError (ApiError s m)
        = mkError Gemini.UNAVAILABLE_MESSAGE)
  /\ (forall s m, status_class s = false ->
        exists shown,
          Gemini.toUserFacingGeminiError (ApiError s m) = mkError shown
          /\ Js.includes shown (Js.of_Z s) = true
          /\ Js.includes shown m = true)
  /\ (forall m status,
        exists shown,
          Gemini.toUserFacingGeminiError (JsError m status) = mkError shown
          /\ Js.includes shown m = true)
  /\ (forall status m rendered,
        Gemini.toUserFacingGeminiError (NonError status m rendered)
        = mkError Gemini.UNKNOWN_MESSAGE).
Proof.
  repeat apply conj.
  - intros prompt w w' e H.
    destruct (generateImage_unfold plat ora prompt w)
      as [(e0 & _ & -> & H0) | (client & model & w0 & Ht & H0)].
    { rewrite H0 in H. injection H as <- <-. now left. }
    right.
    assert (Hin := retry_loop_exits_inside plat ora client model prompt
                     Gemini.loop_fuel 0 w0
                     ltac:(unfold Gemini.MAX_RETRIES; lia)
                     ltac:(vm_compute; lia)).
    destruct (Gemini.retry_loop plat ora Gemini.loop_fuel client model
                prompt 0 w0) as [x w1] eqn:Hl.
    rewrite H0 in H. cbn [fst snd] in H, Hin.
    destruct x as [r|e1|e1|]; cbn [Gemini.outcome_of_exit] in H;
      try contradiction; [discriminate|].
    injection H as -> ->.
    destruct (retry_loop_terminal_error plat ora client model prompt
                Gemini.loop_fuel 0 w0 _ _
                ltac:(unfold Gemini.MAX_RETRIES; lia) Hl)
      as (k & pre & raw & Hk & Hc & Hb & -> & Hwhy).
    exists client, model, (extend w0 pre), raw.
    split; [exact Hb|]. split; [reflexivity|].
    simpl. rewrite calls_app, Ht. unfold Gemini.MAX_RETRIES in *.
    split; [lia|]. destruct Hwhy as [Hr| ->]; [now left | right; lia].
  - intros s m [-> | ->]; reflexivity.
  - reflexivity.
  - intros s m Hs. simpl.
    destruct (Z.eqb_spec s 401), (Z.eqb_spec s 403), (Z.eqb_spec s 429);
      try lia; simpl.
    destruct (Z.geb_spec s 500); [reflexivity | lia].
  - intros s m Hs. unfold status_class in Hs.
    apply orb_false_iff in Hs as [Hs H500].
    simpl. rewrite Z.geb_leb, H500.
    apply orb_false_iff in Hs as [Hs H429]. rewrite Hs, H429.
    eexists. split; [reflexivity|]. split.
    + apply includes_middle.
    + do 3 apply includes_app_r. apply includes_self.
  - intros m status. eexists. split; [reflexivity|].
    apply includes_app_r, includes_self.
  - reflexivity.
Qed.

Lemma C7_witness :
  Gemini.generateImage node (scripted [Throw teapot] []) "draw a cat" w_keyed
  = (Throw (mkError Gemini.UNKNOWN_MESSAGE),
     snd (Gemini.generateImage node (scripted [Throw teapot] [])
            "draw a cat" w_keyed))
  /\ (exists shown,
         Gemini.toUserFacingGeminiError (ApiError 400 "bad request")
         = mkError shown
         /\ Js.includes shown (Js.of_Z 400) = true
         /\ Js.includes shown "bad request" = true)
  /\ Gemini.toUserFacingGeminiError (ApiError 503 "backend unavailable")
     = mkError Gemini.UNAVAILABLE_MESSAGE.
Proof.
  destruct (C7_terminal_error_is_translated_once node (scripted [Throw teapot] []))
    as (Hrun & Hauth & Hrate & Hsrv & Hother & Herr & Hunk).
  split; [|split].
  - destruct (Hrun "draw a cat" w_keyed _ _ eq_refl)
      as [[H _] | (c & m & w0 & raw & _ & _ & _ & _)]; reflexivity.
  - apply Hother. reflexivity.
  - apply Hsrv. lia.
Defined.

(** *** Scanning the fragments of a response *)

Lemma image_of_truthy (part : Part) :
  Js.truthy_opt (Gemini.inline_data part) = true ->
  image_of part = Gemini.inline_data part.
Proof.
  unfold image_of. destruct (Gemini.inline_data part) as [d|]; simpl;
    [intros -> | discriminate]; reflexivity.
Qed.

Lemma image_of_falsy (part : Part) :
  Js.truthy_opt (Gemini.inline_data part) = false -> image_of part = None.
Proof.
  unfold image_of. destruct (Gemini.inline_data part) as [d|]; simpl;
    [intros -> |]; reflexivity.
Qed.

(** The image kept by the scan is the last one met, or the one held
    before when none is met. *)
Lemma scan_parts_from (ps : list Part) :
  forall imageData text,
    fst (fold_left Gemini.scan_part ps (imageData, text))
    = match last_image ps with Some d => Some d | None => imageData end.
Proof.
  unfold last_image, images.
  induction ps as [|p ps IH]; intros imageData text; [reflexivity|].
  cbn [fold_left omap list_omap]. unfold Gemini.scan_part at 2.
  destruct (Js.truthy_opt (Gemini.inline_data p)) eqn:Hi.
  - rewrite IH, (image_of_truthy p Hi).
    destruct (Gemini.inline_data p) as [d|]; [|discriminate].
    rewrite last_cons. now destruct (last _).
  - rewrite (image_of_falsy p Hi).
    destruct (Js.truthy_opt (part_text p)); apply IH.
Qed.

(** Claim C1 fails when a response carries two images: the first image is
    "Rmlyc3Q=", the scan keeps "U2Vjb25k", and that is what a run of
    [generateImage] hands to the encoder and returns. *)
Lemma C1_counterexample :
  first_image two_images = Some "Rmlyc3Q="
  /\ fst (Gemini.scan_parts two_images) = Some "U2Vjb25k"
  /\ fst (Gemini.scan_parts two_images) <> first_image two_images
  /\ fst (Gemini.generateImage node
            (scripted [Return (response_of two_images)] [])
            "draw a cat" w_keyed)
     = Return {| Gemini.data := "U2Vjb25k";
                 Gemini.mimeType := "image/jpeg";
                 Gemini.model := Gemini.DEFAULT_IMAGE_MODEL;
                 Gemini.text := Some "two drafts" |}.
Proof. repeat split; try reflexivity. discriminate. Qed.

(** C1, amended: the image kept from a response is that of the last
    fragment carrying inline image bytes, in fragment order; when the
    backend answers with such a response, the attempt hands the decoded
    bytes of that last image to the JPEG encoder and returns what the
    encoder produced. *)
Theorem C1_last_image_fragment_wins (plat : Platform) (ora : Oracle) :
  (forall ps : list Part, fst (Gemini.scan_parts ps) = last_image ps)
  /\ (forall (client : GoogleGenAI) (model prompt : string) (w : World)
             (response : GenerateContentResponse) (ps : list Part) (d : string),
        models_generateContent ora (trace w) (client_apiKey client) model prompt
          = Return response ->
        Gemini.response_parts response = Some ps ->
        last_image ps = Some d ->
        Gemini.attempt_body plat ora client model prompt w
        = (match sharp_jpeg ora
                   (trace w ++ [EvGenerateContent (client_apiKey client)
                                  model prompt])
                   (base64_decode plat d) with
           | Return jpgBuffer =>
               Return {| Gemini.data := base64_encode plat jpgBuffer;
                         Gemini.mimeType := "image/jpeg";
                         Gemini.model := model;
                         Gemini.text :=
                           if Js.truthy_opt (snd (Gemini.scan_parts ps))
                           then snd (Gemini.scan_parts ps) else None |}
           | Throw e => Throw e
           end,
           extend w [EvGenerateContent (client_apiKey client) model prompt;
                     EvSharpJpeg (base64_decode plat d)])).
Proof.
  assert (Hscan : forall ps, fst (Gemini.scan_parts ps) = last_image ps).
  { intros ps. unfold Gemini.scan_parts. rewrite scan_parts_from.
    now destruct (last_image ps). }
  split; [exact Hscan|].
  intros client model prompt w response ps d Hresp Hps Hlast.
  unfold Gemini.attempt_body, bind, call. rewrite Hresp, Hps.
  destruct ps as [|p ps]; [discriminate|].
  specialize (Hscan (p :: ps)). rewrite Hlast in Hscan.
  destruct (Gemini.scan_parts (p :: ps)) as [imageData text].
  simpl in Hscan. subst imageData.
  assert (Ht : Js.truthy d = true).
  { unfold last_image, images in Hlast.
    apply last_Some_elem_of, list_elem_of_omap in Hlast as (q & _ & Hq).
    unfold image_of in Hq. destruct (Gemini.inline_data q) as [d'|]; [|discriminate].
    destruct (Js.truthy d') eqn:Hd; [|discriminate]. now injection Hq as <-. }
  cbn [Js.truthy_opt]. rewrite Ht. cbn [negb default snd].
  cbn [trace log].
  destruct (sharp_jpeg ora _ _); unfold ret;
    rewrite !log_extend, extend_extend; reflexivity.
Qed.

Lemma C1_witness :
  Gemini.attempt_body node (scripted [Return (response_of two_images)] [])
    a_client "m" "draw a cat" w_keyed
  = (Return {| Gemini.data := "U2Vjb25k";
               Gemini.mimeType := "image/jpeg";
               Gemini.model := "m";
               Gemini.text := Some "two drafts" |},
     extend w_keyed [EvGenerateContent "AIza-primary" "m" "draw a cat";
                     EvSharpJpeg (Base64.decode "U2Vjb25k")]).
Proof.
  exact (proj2 (C1_last_image_fragment_wins node
                  (scripted [Return (response_of two_images)] []))
               a_client "m" "draw a cat" w_keyed
               (response_of two_images) two_images "U2Vjb25k"
               eq_refl eq_refl eq_refl).
Defined.

(** *** Saving: the payload check *)

Lemma getDefaultOutputDirectories_world (plat : Platform) (w : World) :
  exists dirs, Tools.getDefaultOutputDirectories plat w = (Return dirs, w).
Proof. unfold Tools.getDefaultOutputDirectories, bind, getenv, ret. eauto. Qed.

(** In the version with fallback an empty payload is refused before
    anything else is done, whatever the path. *)
Lemma saveImage_empty_payload_fallback (plat : Platform) (ora : Oracle)
      (data : string) (savePath : option string) (w : World) :
  base64_decode plat data = [] ->
  Tools.saveImage plat ora data savePath w = (Throw EMPTY_PAYLOAD, w).
Proof. intros H. unfold Tools.saveImage. now rewrite H. Qed.

(** *** Resolving the output path *)

Section Resolve.
Context (plat : Platform) (ora : Oracle).

(** The name made from the clock reading and the random draw that follow
    the history [h]. *)
Local Abbreviation name_after h :=
  ("generated-"
     +:+ Js.replace_colon_dot (date_toISOString ora h)
     +:+ "-"
     +:+ Js.substring 2 8 (random_toString36 ora (h ++ [EvDate]))
     +:+ ".jpg").

Lemma buildGeneratedFileName_run (w : World) :
  buildGeneratedFileName ora w
  = (Return (name_after (trace w)), extend w [EvDate; EvRandom]).
Proof.
  unfold buildGeneratedFileName, bind, call, ret. cbn [trace log].
  now rewrite !log_extend, extend_extend.
Qed.

Lemma targetPath_world (savePath defaultDir : option string) (w : World) :
  exists target,
    Tools.targetPath plat savePath defaultDir w = (Return target, w).
Proof.
  unfold Tools.targetPath.
  destruct (Js.truthy_opt savePath); [unfold ret; eauto|].
  destruct defaultDir; [unfold ret; eauto|].
  unfold bind. destruct (getDefaultOutputDirectories_world plat w) as [dirs ->].
  unfold ret; eauto.
Qed.

Lemma targetPath_supplied (savePath : string) (defaultDir : option string)
      (w : World) :
  Js.truthy savePath = true ->
  Tools.targetPath plat (Some savePath) defaultDir w
  = (Return (Some (Tools.normalizePathInput plat savePath)), w).
Proof. intros H. unfold Tools.targetPath. cbn. now rewrite H. Qed.

Lemma targetPath_default (dir : string) (w : World) :
  Tools.targetPath plat None (Some dir) w = (Return (Some dir), w).
Proof. reflexivity. Qed.

(** The version with fallback, on a target without extension. *)
Lemma resolve_directory (savePath defaultDir : option string)
      (t : string) (w : World) :
  Tools.targetPath plat savePath defaultDir w = (Return (Some t), w) ->
  Js.truthy (path_extname plat t) = false ->
  Tools.resolveOutputFilePath plat ora savePath defaultDir w
  = match fs_mkdir ora (trace w) t with
    | Return _ =>
        (Return (path_join plat t (name_after (trace w ++ [EvMkdir t]))),
         extend w [EvMkdir t; EvDate; EvRandom])
    | Throw e => (Throw e, extend w [EvMkdir t])
    end.
Proof.
  intros Ht Hext. unfold Tools.resolveOutputFilePath, bind at 1.
  rewrite Ht, Hext. cbn [negb]. unfold bind at 1, mkdir_recursive, call.
  destruct (fs_mkdir ora (trace w) t) as [[]|e]; [|reflexivity].
  unfold bind. rewrite buildGeneratedFileName_run. unfold ret.
  now rewrite log_extend, extend_extend.
Qed.

(** On a target with a JPEG extension. *)
Lemma resolve_jpeg (savePath defaultDir : option string)
      (t : string) (w : World) :
  Tools.targetPath plat savePath defaultDir w = (Return (Some t), w) ->
  Js.truthy (path_extname plat t) = true ->
  Js.toLowerCase (path_extname plat t) ∈ JPEG_EXTENSIONS ->
  Tools.resolveOutputFilePath plat ora savePath defaultDir w
  = (match fs_mkdir ora (trace w) (path_dirname plat t) with
     | Return _ => Return t
     | Throw e => Throw e
     end, extend w [EvMkdir (path_dirname plat t)]).
Proof.
  intros Ht Hext Hin. unfold Tools.resolveOutputFilePath, bind at 1.
  rewrite Ht, Hext. cbn [negb].
  rewrite bool_decide_eq_true_2 by exact Hin. cbn [negb].
  unfold bind, mkdir_recursive, call.
  now destruct (fs_mkdir ora (trace w) (path_dirname plat t)) as [[]|e].
Qed.

(** On a target with any other extension. *)
Lemma resolve_other (savePath defaultDir : option string)
      (t : string) (w : World) :
  Tools.targetPath plat savePath defaultDir w = (Return (Some t), w) ->
  Js.truthy (path_extname plat t) = true ->
  Js.toLowerCase (path_extname plat t) ∉ JPEG_EXTENSIONS ->
  Tools.resolveOutputFilePath plat ora savePath defaultDir w
  = (Throw (invalidExtensionError (path_extname plat t)), w).
Proof.
  intros Ht Hext Hin. unfold Tools.resolveOutputFilePath, bind at 1.
  rewrite Ht, Hext. cbn [negb].
  now rewrite bool_decide_eq_false_2 by exact Hin.
Qed.

(** The same three cases in the version that requires an absolute path. *)
Lemma strict_resolve_directory (t : string) (w : World) :
  path_isAbsolute plat t = true ->
  Js.truthy (path_extname plat t) = false ->
  ToolsStrict.resolveOutputFilePath plat ora t w
  = match fs_mkdir ora (trace w) t with
    | Return _ =>
        (Return (path_join plat t (name_after (trace w ++ [EvMkdir t]))),
         extend w [EvMkdir t; EvDate; EvRandom])
    | Throw e => (Throw e, extend w [EvMkdir t])
    end.
Proof.
  intros Ha Hext. unfold ToolsStrict.resolveOutputFilePath.
  rewrite Ha, Hext. cbn [negb]. unfold bind at 1, mkdir_recursive, call.
  destruct (fs_mkdir ora (trace w) t) as [[]|e]; [|reflexivity].
  unfold bind. rewrite buildGeneratedFileName_run. unfold ret.
  now rewrite log_extend, extend_extend.
Qed.

Lemma strict_resolve_jpeg (t : string) (w : World) :
  path_isAbsolute plat t = true ->
  Js.truthy (path_extname plat t) = true ->
  Js.toLowerCase (path_extname plat t) ∈ JPEG_EXTENSIONS ->
  ToolsStrict.resolveOutputFilePath plat ora t w
  = (match fs_mkdir ora (trace w) (path_dirname plat t) with
     | Return _ => Return t
     | Throw e => Throw e
     end, extend w [EvMkdir (path_dirname plat t)]).
Proof.
  intros Ha Hext Hin. unfold ToolsStrict.resolveOutputFilePath.
  rewrite Ha, Hext. cbn [negb].
  rewrite bool_decide_eq_true_2 by exact Hin. cbn [negb].
  unfold bind, mkdir_recursive, call.
  now destruct (fs_mkdir ora (trace w) (path_dirname plat t)) as [[]|e].
Qed.

Lemma strict_resolve_other (t : string) (w : World) :
  path_isAbsolute plat t = true ->
  Js.truthy (path_extname plat t) = true ->
  Js.toLowerCase (path_extname plat t) ∉ JPEG_EXTENSIONS ->
  ToolsStrict.resolveOutputFilePath plat ora t w
  = (Throw (invalidExtensionError (path_extname plat t)), w).
Proof.
  intros Ha Hext Hin. unfold ToolsStrict.resolveOutputFilePath.
  rewrite Ha, Hext. cbn [negb].
  now rewrite bool_decide_eq_false_2 by exact Hin.
Qed.

Lemma strict_resolve_relative (t : string) (w : World) :
  path_isAbsolute plat t = false ->
  ToolsStrict.resolveOutputFilePath plat ora t w
  = (Throw (ToolsStrict.notAbsoluteError t), w).
Proof.
  intros Ha. unfold ToolsStrict.resolveOutputFilePath. now rewrite Ha.
Qed.

End Resolve.

Lemma not_jpeg_png : Js.toLowerCase ".png" ∉ JPEG_EXTENSIONS.
Proof.
  intros H. apply elem_of_union in H as [H|H];
    apply elem_of_singleton in H; discriminate H.
Qed.

Lemma jpeg_upper : Js.toLowerCase ".JPG" ∈ JPEG_EXTENSIONS.
Proof. apply elem_of_union. left. now apply elem_of_singleton. Qed.

(** *** Saving in the version that requires an absolute path *)

(** C2, on the version that requires an absolute path: there [saveImage]
    resolves the path before it looks at the payload.  With an empty payload
    and an absolute path without extension it first asks for the directory
    to be created, and fails with the empty-payload error only when that
    succeeded (with the error of [mkdir] otherwise); with a JPEG file path
    it first asks for the parent directory to be created; with another
    extension it fails with the extension error, not with the empty-payload
    error. *)
Theorem C2_strict_version_resolves_before_payload_check
        (plat : Platform) (ora : Oracle) (data t : string) (w : World) :
  base64_decode plat data = [] ->
  path_isAbsolute plat t = true ->
  (Js.truthy (path_extname plat t) = false ->
   ToolsStrict.saveImage plat ora data t w
   = match fs_mkdir ora (trace w) t with
     | Return _ =>
         (Throw EMPTY_PAYLOAD, extend w [EvMkdir t; EvDate; EvRandom])
     | Throw e => (Throw e, extend w [EvMkdir t])
     end)
  /\ (Js.truthy (path_extname plat t) = true ->
      Js.toLowerCase (path_extname plat t) ∈ JPEG_EXTENSIONS ->
      ToolsStrict.saveImage plat ora data t w
      = (match fs_mkdir ora (trace w) (path_dirname plat t) with
         | Return _ => Throw EMPTY_PAYLOAD
         | Throw e => Throw e
         end, extend w [EvMkdir (path_dirname plat t)]))
  /\ (Js.truthy (path_extname plat t) = true ->
      Js.toLowerCase (path_extname plat t) ∉ JPEG_EXTENSIONS ->
      ToolsStrict.saveImage plat ora data t w
      = (Throw (invalidExtensionError (path_extname plat t)), w)).
Proof.
  intros Hdata Ha. unfold ToolsStrict.saveImage, bind. rewrite Hdata.
  cbn [length Nat.eqb]. repeat apply conj.
  - intros Hext. rewrite (strict_resolve_directory plat ora t w Ha Hext).
    now destruct (fs_mkdir ora (trace w) t).
  - intros Hext Hin. rewrite (strict_resolve_jpeg plat ora t w Ha Hext Hin).
    now destruct (fs_mkdir ora (trace w) (path_dirname plat t)).
  - intros Hext Hin. now rewrite (strict_resolve_other plat ora t w Ha Hext Hin).
Qed.

Lemma C2_witness :
  ToolsStrict.saveImage node unavailable "" "/tmp/out" w_no_key
  = (Throw EMPTY_PAYLOAD, extend w_no_key [EvMkdir "/tmp/out"; EvDate; EvRandom])
  /\ ToolsStrict.saveImage node unavailable "" "/tmp/x/photo.png" w_no_key
     = (Throw (invalidExtensionError ".png"), w_no_key).
Proof.
  split.
  - exact (proj1 (C2_strict_version_resolves_before_payload_check
                    node unavailable "" "/tmp/out" w_no_key eq_refl eq_refl)
                 eq_refl).
  - exact (proj2 (proj2 (C2_strict_version_resolves_before_payload_check
                           node unavailable "" "/tmp/x/photo.png" w_no_key
                           eq_refl eq_refl))
                 eq_refl not_jpeg_png).
Defined.

Lemma replace_colon_dot_length (s : string) :
  String.length (Js.replace_colon_dot s) = String.length s.
Proof. induction s as [|c s IH]; simpl; [reflexivity | now rewrite IH]. Qed.

Lemma replace_colon_dot_clean (s : string) (c : ascii) :
  c = ":"%char \/ c = "."%char ->
  Js.includes (Js.replace_colon_dot s) (String c EmptyString) = false.
Proof.
  intros Hc. induction s as [|x s IH]; [reflexivity|].
  cbn [Js.replace_colon_dot Js.includes String.prefix].
  rewrite IH.
  destruct (ascii_dec c _) as [->|Hne]; [|reflexivity].
  exfalso.
  destruct (Ascii.eqb x ":" || Ascii.eqb x ".")%bool eqn:Hx.
  - destruct Hc as [Hc|Hc]; discriminate Hc.
  - apply orb_false_iff in Hx as [H1 H2].
    apply Ascii.eqb_neq in H1, H2. destruct Hc; congruence.
Qed.

Lemma substring_length (n m : nat) (s : string) :
  (String.length (String.substring n m s) <= m)%nat.
Proof.
  revert n m. induction s as [|c s IH]; intros [|n] [|m]; simpl; try lia.
  - specialize (IH 0%nat m). lia.
  - apply (IH n 0%nat).
  - apply IH.
Qed.

(** The claim of C6 fails where it says that the parent directory of the
    returned path equals the target: on the POSIX platform the target
    [/tmp/link/..] has no extension, the directory asked for is
    [/tmp/link/..], and the file is placed in [/tmp], because [path.join]
    normalises what it joins. *)
Lemma C6_counterexample :
  ~ (forall (plat : Platform) (ora : Oracle)
            (savePath defaultDir : option string) (t : string) (w : World)
            (p : string),
       Tools.targetPath plat savePath defaultDir w = (Return (Some t), w) ->
       Js.truthy (path_extname plat t) = false ->
       fst (Tools.resolveOutputFilePath plat ora savePath defaultDir w)
       = Return p ->
       path_dirname plat p = t).
Proof.
  intros H.
  specialize (H node unavailable (Some "/tmp/link/..") None "/tmp/link/.."
                w_no_key "/tmp/generated-2026-01-02T03-04-05-678Z-k3x9q2.jpg").
  assert (Ht : Tools.targetPath node (Some "/tmp/link/..") None w_no_key
               = (Return (Some "/tmp/link/.."), w_no_key))
    by (vm_compute; reflexivity).
  assert (Hext : Js.truthy (path_extname node "/tmp/link/..") = false)
    by (vm_compute; reflexivity).
  assert (Hp : fst (Tools.resolveOutputFilePath node unavailable
                      (Some "/tmp/link/..") None w_no_key)
               = Return "/tmp/generated-2026-01-02T03-04-05-678Z-k3x9q2.jpg")
    by (vm_compute; reflexivity).
  specialize (H Ht Hext Hp). vm_compute in H. discriminate H.
Qed.

(** C6, amended: on an effective target path without extension,
    [resolveOutputFilePath] first asks for that directory to be created;
    when that fails it throws the error of [mkdir] and does nothing else;
    when it succeeds it reads the clock, draws a random number and returns
    [path.join] of the target and the name
    [generated-<timestamp>-<suffix>.jpg], where the timestamp is the ISO
    clock reading with [:] and [.] replaced by [-] and the suffix is made of
    the characters 2 to 7 of the random string (at most six).  On a target
    whose extension lower-cases to [.jpg] or [.jpeg] it asks for the parent
    directory to be created and returns the target unchanged, or throws the
    error of [mkdir]; on any other extension it fails with the extension
    error and does nothing else.  This holds in the version with fallback
    for the target that [savePath] and [defaultDir] determine, and in the
    stricter version for every absolute path. *)
Theorem C6_resolveOutputFilePath (plat : Platform) (ora : Oracle) :
  (forall (savePath defaultDir : option string) (t : string) (w : World),
     Tools.targetPath plat savePath defaultDir w = (Return (Some t), w) ->
     (Js.truthy (path_extname plat t) = false ->
      Tools.resolveOutputFilePath plat ora savePath defaultDir w
      = match fs_mkdir ora (trace w) t with
        | Return _ =>
            (Return (path_join plat t
                       (generated_name ora (trace w ++ [EvMkdir t]))),
             extend w [EvMkdir t; EvDate; EvRandom])
        | Throw e => (Throw e, extend w [EvMkdir t])
        end)
     /\ (Js.truthy (path_extname plat t) = true ->
         Js.toLowerCase (path_extname plat t) ∈ JPEG_EXTENSIONS ->
         Tools.resolveOutputFilePath plat ora savePath defaultDir w
         = (match fs_mkdir ora (trace w) (path_dirname plat t) with
            | Return _ => Return t
            | Throw e => Throw e
            end, extend w [EvMkdir (path_dirname plat t)]))
     /\ (Js.truthy (path_extname plat t) = true ->
         Js.toLowerCase (path_extname plat t) ∉ JPEG_EXTENSIONS ->
         Tools.resolveOutputFilePath plat ora savePath defaultDir w
         = (Throw (invalidExtensionError (path_extname plat t)), w)))
  /\ (forall (t : string) (w : World),
        path_isAbsolute plat t = true ->
        (Js.truthy (path_extname plat t) = false ->
         ToolsStrict.resolveOutputFilePath plat ora t w
         = match fs_mkdir ora (trace w) t with
           | Return _ =>
               (Return (path_join plat t
                          (generated_name ora (trace w ++ [EvMkdir t]))),
                extend w [EvMkdir t; EvDate; EvRandom])
           | Throw e => (Throw e, extend w [EvMkdir t])
           end)
        /\ (Js.truthy (path_extname plat t) = true ->
            Js.toLowerCase (path_extname plat t) ∈ JPEG_EXTENSIONS ->
            ToolsStrict.resolveOutputFilePath plat ora t w
            = (match fs_mkdir ora (trace w) (path_dirname plat t) with
               | Return _ => Return t
               | Throw e => Throw e
               end, extend w [EvMkdir (path_dirname plat t)]))
        /\ (Js.truthy (path_extname plat t) = true ->
            Js.toLowerCase (path_extname plat t) ∉ JPEG_EXTENSIONS ->
            ToolsStrict.resolveOutputFilePath plat ora t w
            = (Throw (invalidExtensionError (path_extname plat t)), w)))
  /\ (forall h : list Event,
        exists timestamp suffix,
          generated_name ora h
          = "generated-" +:+ timestamp +:+ "-" +:+ suffix +:+ ".jpg"
          /\ timestamp = Js.replace_colon_dot (date_toISOString ora h)
          /\ String.length timestamp = String.length (date_toISOString ora h)
          /\ Js.includes timestamp ":" = false
          /\ Js.includes timestamp "." = false
          /\ suffix = Js.substring 2 8 (random_toString36 ora (h ++ [EvDate]))
          /\ (String.length suffix <= 6)%nat).
Proof.
  split; [|split].
  - intros savePath defaultDir t w Ht. repeat apply conj.
    + intros Hext. now apply resolve_directory.
    + intros Hext Hin. now apply resolve_jpeg.
    + intros Hext Hin. now apply resolve_other.
  - intros t w Ha. repeat apply conj.
    + intros Hext. now apply strict_resolve_directory.
    + intros Hext Hin. now apply strict_resolve_jpeg.
    + intros Hext Hin. now apply strict_resolve_other.
  - intros h. eexists _, _. split; [reflexivity|]. split; [reflexivity|].
    split; [apply replace_colon_dot_length|].
    split; [apply replace_colon_dot_clean; now left|].
    split; [apply replace_colon_dot_clean; now right|].
    split; [reflexivity | apply substring_length].
Qed.

Lemma C6_witness :
  Tools.resolveOutputFilePath node unavailable None (Some "/tmp/out") w_no_key
  = (Return "/tmp/out/generated-2026-01-02T03-04-05-678Z-k3x9q2.jpg",
     extend w_no_key [EvMkdir "/tmp/out"; EvDate; EvRandom])
  /\ Tools.resolveOutputFilePath node blocked_fs None (Some "/tmp/blocked")
       w_no_key
     = (Throw (ENOTDIR "/tmp/blocked"), extend w_no_key [EvMkdir "/tmp/blocked"])
  /\ Tools.resolveOutputFilePath node unavailable
       (Some "/tmp/x/image.JPG") None w_no_key
     = (Return "/tmp/x/image.JPG", extend w_no_key [EvMkdir "/tmp/x"])
  /\ Tools.resolveOutputFilePath node unavailable
       (Some "/tmp/x/photo.png") None w_no_key
     = (Throw (invalidExtensionError ".png"), w_no_key)
  /\ ToolsStrict.resolveOutputFilePath node unavailable "/tmp/x/photo.png" w_no_key
     = (Throw (invalidExtensionError ".png"), w_no_key).
Proof.
  destruct (C6_resolveOutputFilePath node unavailable) as (Hf & Hs & _).
  destruct (C6_resolveOutputFilePath node blocked_fs) as (Hb & _ & _).
  repeat apply conj.
  - destruct (Hf None (Some "/tmp/out") "/tmp/out" w_no_key eq_refl)
      as (Hdir & _ & _).
    exact (Hdir eq_refl).
  - destruct (Hb None (Some "/tmp/blocked") "/tmp/blocked" w_no_key eq_refl)
      as (Hdir & _ & _).
    exact (Hdir eq_refl).
  - destruct (Hf (Some "/tmp/x/image.JPG") None "/tmp/x/image.JPG" w_no_key
                eq_refl) as (_ & Hjpeg & _).
    exact (Hjpeg eq_refl jpeg_upper).
  - destruct (Hf (Some "/tmp/x/photo.png") None "/tmp/x/photo.png" w_no_key
                eq_refl) as (_ & _ & Hother).
    exact (Hother eq_refl not_jpeg_png).
  - destruct (Hs "/tmp/x/photo.png" w_no_key eq_refl) as (_ & _ & Hother).
    exact (Hother eq_refl not_jpeg_png).
Defined.

(** The test of the repository on a directory target, on the POSIX
    platform: the parent of the resolved path is the directory and its base
    name is a generated one. *)
Example resolve_directory_test :
  fst (Tools.resolveOutputFilePath node unavailable (Some "/tmp/out") None
         w_no_key)
  = Return "/tmp/out/generated-2026-01-02T03-04-05-678Z-k3x9q2.jpg"
  /\ Posix.dirname "/tmp/out/generated-2026-01-02T03-04-05-678Z-k3x9q2.jpg"
     = "/tmp/out".
Proof. split; reflexivity. Qed.

(** [path.join] normalises: for a target written with a trailing
    separator, or through [..], the file lands in the same directory, whose
    name [path.dirname] gives in normal form. *)
Example resolve_directory_normalised :
  fst (Tools.resolveOutputFilePath node unavailable (Some "/tmp/out/") None
         w_no_key)
  = Return "/tmp/out/generated-2026-01-02T03-04-05-678Z-k3x9q2.jpg"
  /\ fst (Tools.resolveOutputFilePath node unavailable (Some "/tmp/a/../out")
            None w_no_key)
     = Return "/tmp/out/generated-2026-01-02T03-04-05-678Z-k3x9q2.jpg".
Proof. split; reflexivity. Qed.

(** The test of the repository on file targets. *)
Example resolve_file_test :
  fst (Tools.resolveOutputFilePath node unavailable (Some "/tmp/t/image.JPG")
         None w_no_key) = Return "/tmp/t/image.JPG"
  /\ fst (Tools.resolveOutputFilePath node unavailable
            (Some "/tmp/t/image.jpeg") None w_no_key)
     = Return "/tmp/t/image.jpeg"
  /\ fst (Tools.resolveOutputFilePath node unavailable
            (Some "/tmp/t/image.png") None w_no_key)
     = Throw (invalidExtensionError ".png").
Proof. repeat split; reflexivity. Qed.

(** *** The attempts of [saveImage] *)

Section SaveLoop.
Context (plat : Platform) (ora : Oracle).
Context (buffer : list Byte.byte) (savePath : option string).

(** One iteration of the loop. *)
Lemma save_loop_cons (attempt : Tools.Attempt) (rest : list Tools.Attempt)
      (firstFailureMessage : option string) (lastError : option Thrown)
      (w : World) :
  Tools.save_loop plat ora buffer savePath (attempt :: rest)
                  firstFailureMessage lastError w
  = match Tools.write_attempt plat ora buffer attempt w with
    | (Return filePath, w1) =>
        (Return (Tools.shape_result savePath attempt firstFailureMessage
                   filePath), w1)
    | (Throw error, w1) =>
        if Tools.is_fatal attempt error then (Throw error, w1)
        else Tools.save_loop plat ora buffer savePath rest
               (if negb (Js.truthy_opt firstFailureMessage)
                then Some (Tools.a_label attempt +:+ ": "
                             +:+ Tools.describe error)
                else firstFailureMessage)
               (Some error) w1
    end.
Proof.
  cbn [Tools.save_loop]. unfold try_catch, bind.
  destruct (Tools.write_attempt plat ora buffer attempt w) as [[p|e] w1];
    [reflexivity|].
  now destruct (Tools.is_fatal attempt e).
Qed.

(** A failure of path resolution is the failure of the attempt. *)
Lemma write_attempt_resolve_throws (attempt : Tools.Attempt)
      (w w1 : World) (e : Thrown) :
  Tools.resolveOutputFilePath plat ora (Tools.a_savePath attempt)
                              (Tools.a_defaultDir attempt) w = (Throw e, w1) ->
  Tools.write_attempt plat ora buffer attempt w = (Throw e, w1).
Proof. intros H. unfold Tools.write_attempt, bind. now rewrite H. Qed.

Lemma build_attempts_supplied (sp : string) (dirs : list string) :
  Js.truthy sp = true ->
  exists defaults,
    Tools.build_attempts (Some sp) dirs = requested_attempt sp :: defaults
    /\ Forall (on_default dirs) defaults.
Proof.
  intros Hsp. unfold Tools.build_attempts. cbn [Js.truthy_opt]. rewrite Hsp.
  eexists. split; [reflexivity|].
  apply Forall_forall. intros a Ha.
  apply elem_of_lookup_imap in Ha as (i & dir & -> & Hi).
  split; [reflexivity|]. exists dir. split; [|reflexivity].
  eapply list_elem_of_lookup_2, Hi.
Qed.

Lemma build_attempts_omitted (dirs : list string) :
  Js.truthy_opt savePath = false ->
  Forall (on_default dirs) (Tools.build_attempts savePath dirs).
Proof.
  intros Hsp. unfold Tools.build_attempts. rewrite Hsp. cbn [app].
  apply Forall_forall. intros a Ha.
  apply elem_of_lookup_imap in Ha as (i & dir & -> & Hi).
  split; [reflexivity|]. exists dir. split; [|reflexivity].
  eapply list_elem_of_lookup_2, Hi.
Qed.

End SaveLoop.

(** *** Saving: the extension check *)

Lemma invalidExtension_is_marked (ext : string) :
  Js.includes (errorMessage (invalidExtensionError ext)) EXTENSION_MARKER = true.
Proof. apply includes_middle. Qed.


(** C3: in the version with fallback, when a path is supplied whose
    normalised form has an extension that does not lower-case to [.jpg] or
    [.jpeg], and the payload is not empty, [saveImage] fails with the
    extension error and the world is left as it was: no directory is
    created, nothing is written, no default directory is tried. *)
Theorem C3_invalid_extension_is_fatal
        (plat : Platform) (ora : Oracle)
        (data savePath : string) (w : World) :
  base64_decode plat data <> [] ->
  Js.truthy savePath = true ->
  Js.truthy (path_extname plat (Tools.normalizePathInput plat savePath)) = true ->
  Js.toLowerCase (path_extname plat (Tools.normalizePathInput plat savePath))
    ∉ JPEG_EXTENSIONS ->
  Tools.saveImage plat ora data (Some savePath) w
  = (Throw (invalidExtensionError
              (path_extname plat (Tools.normalizePathInput plat savePath))), w).
Proof.
  intros Hdata Hsp Hext Hjpeg.
  unfold Tools.saveImage.
  destruct (base64_decode plat data) as [|b bs] eqn:Hb; [congruence|].
  cbn [length Nat.eqb]. unfold bind.
  destruct (getDefaultOutputDirectories_world plat w) as [dirs ->].
  destruct (build_attempts_supplied savePath dirs Hsp) as (defaults & -> & _).
  rewrite save_loop_cons.
  rewrite (write_attempt_resolve_throws plat ora _ (requested_attempt savePath)
             w w _
             (resolve_other plat ora (Some savePath) None _ w
                (targetPath_supplied plat savePath None w Hsp) Hext Hjpeg)).
  unfold Tools.is_fatal. cbn [requested_attempt Tools.a_savePath Js.truthy_opt].
  rewrite Hsp. cbn [instanceofError invalidExtensionError mkError andb].
  now rewrite (invalidExtension_is_marked _).
Qed.

Lemma C3_witness :
  Tools.saveImage node unavailable synthetic_data (Some "/tmp/x/photo.png")
                  w_no_key
  = (Throw (invalidExtensionError ".png"), w_no_key).
Proof.
  apply (C3_invalid_extension_is_fatal node unavailable synthetic_data
           "/tmp/x/photo.png" w_no_key).
  - discriminate.
  - reflexivity.
  - reflexivity.
  - exact not_jpeg_png.
Defined.

(** *** The warning of [saveImage] *)

Section Warning.
Context (plat : Platform) (ora : Oracle).
Context (buffer : list Byte.byte) (savePath : option string).

(** A run of the loop over default directories that returns: some
    attempt of the list wrote the file, and the warning is there exactly
    when a path was supplied and a failure had been recorded before. *)
Lemma save_loop_defaults (dirs : list string) (attempts : list Tools.Attempt) :
  Forall (on_default dirs) attempts ->
  forall (firstFailureMessage : option string) (lastError : option Thrown)
         (w w' : World) (r : Tools.SaveImageResult),
    Tools.save_loop plat ora buffer savePath attempts
                    firstFailureMessage lastError w = (Return r, w') ->
    (exists attempt w2,
        attempt ∈ attempts
        /\ Tools.write_attempt plat ora buffer attempt w2
           = (Return (Tools.filePath r), w'))
    /\ (Js.truthy_opt savePath = false -> Tools.warning r = None)
    /\ (Js.truthy_opt savePath = true ->
        Js.truthy_opt firstFailureMessage = true ->
        is_Some (Tools.warning r)).
Proof.
  induction 1 as [|a attempts [Ha _] _ IH];
    intros ffm lastError w w' r Hrun; [discriminate|].
  rewrite save_loop_cons in Hrun.
  destruct (Tools.write_attempt plat ora buffer a w) as [[p|e] w1] eqn:Hw.
  - injection Hrun as <- <-. unfold Tools.shape_result. rewrite Ha.
    cbn [Js.truthy_opt]. split; [|split].
    + exists a, w. split; [apply list_elem_of_here|].
      rewrite Hw. now destruct (_ && _).
    + now intros ->.
    + intros -> ->. cbn. eauto.
  - unfold Tools.is_fatal in Hrun. rewrite Ha in Hrun. cbn in Hrun.
    apply IH in Hrun as ((attempt & w2 & Hin & Hok) & Hnone & Hsome).
    split; [|split].
    + exists attempt, w2. split; [now apply list_elem_of_further | exact Hok].
    + exact Hnone.
    + intros Hsp Hffm. apply (Hsome Hsp). now rewrite Hffm.
Qed.

End Warning.

(** C4: for a successful [saveImage] of the version with fallback, the
    outcome carries a warning if and only if a non-empty path was supplied,
    the attempt on it failed with an error other than the extension error,
    and the file was written by a later attempt on one of the default
    directories; when no path is supplied there is no warning, and when the
    attempt on the supplied path succeeds the outcome is its path without
    warning. *)
Theorem C4_warning_iff_fallback_after_failed_request
        (plat : Platform) (ora : Oracle) (data : string)
        (savePath : option string) (w w' : World)
        (r : Tools.SaveImageResult) :
  Tools.saveImage plat ora data savePath w = (Return r, w') ->
  (is_Some (Tools.warning r) <->
   exists sp e w1 dirs attempt w2,
     savePath = Some sp /\ Js.truthy sp = true
     /\ Tools.write_attempt plat ora (base64_decode plat data)
                            (requested_attempt sp) w = (Throw e, w1)
     /\ (forall ext, e <> invalidExtensionError ext)
     /\ Tools.getDefaultOutputDirectories plat w = (Return dirs, w)
     /\ on_default dirs attempt
     /\ Tools.write_attempt plat ora (base64_decode plat data) attempt w2
        = (Return (Tools.filePath r), w'))
  /\ (Js.truthy_opt savePath = false -> Tools.warning r = None)
  /\ (forall sp p w1,
        savePath = Some sp -> Js.truthy sp = true ->
        Tools.write_attempt plat ora (base64_decode plat data)
                            (requested_attempt sp) w = (Return p, w1) ->
        r = {| Tools.filePath := p; Tools.warning := None |} /\ w' = w1).
Proof.
  intros Hrun. unfold Tools.saveImage in Hrun.
  set (buffer := base64_decode plat data) in *.
  destruct (length buffer =? 0)%nat; [discriminate|].
  unfold bind in Hrun.
  destruct (getDefaultOutputDirectories_world plat w) as [dirs Hdirs].
  rewrite Hdirs in Hrun.
  destruct (Js.truthy_opt savePath) eqn:Hsp.
  - (* a path was supplied *)
    destruct savePath as [sp|]; [|discriminate]. cbn in Hsp.
    destruct (build_attempts_supplied sp dirs Hsp) as (defaults & Hb & Hdef).
    rewrite Hb, save_loop_cons in Hrun.
    destruct (Tools.write_attempt plat ora buffer (requested_attempt sp) w)
      as [[p|e] w1] eqn:Hw.
    + (* the attempt on it succeeded *)
      injection Hrun as <- <-.
      unfold Tools.shape_result.
      cbn [requested_attempt Tools.a_savePath Js.truthy_opt]. rewrite Hsp.
      split; [|split].
      * split; [intros [x Hx]; discriminate|].
        intros (sp' & e & w1' & _ & _ & _ & [= <-] & _ & Hthrow & _).
        congruence.
      * discriminate.
      * intros sp' p' w1' [= <-] _ Hret. rewrite Hw in Hret.
        injection Hret as <- <-. now split.
    + (* the attempt on it failed *)
      destruct (Tools.is_fatal (requested_attempt sp) e) eqn:Hfatal;
        [discriminate|].
      cbn [negb Js.truthy_opt] in Hrun.
      apply (save_loop_defaults plat ora buffer (Some sp) dirs defaults Hdef)
        in Hrun as ((attempt & w2 & Hin & Hok) & _ & Hsome).
      split; [|split].
      * split; [intros _ | intros _; apply Hsome; [exact Hsp | reflexivity]].
        exists sp, e, w1, dirs, attempt, w2.
        split; [reflexivity|]. split; [exact Hsp|]. split; [exact Hw|].
        split.
        { intros ext ->. unfold Tools.is_fatal in Hfatal.
          cbn [requested_attempt Tools.a_savePath Js.truthy_opt] in Hfatal.
          rewrite Hsp in Hfatal. cbn [instanceofError invalidExtensionError
                                       mkError andb] in Hfatal.
          now rewrite (invalidExtension_is_marked ext) in Hfatal. }
        split; [exact Hdirs|]. split; [|exact Hok].
        rewrite Forall_forall in Hdef. now apply Hdef.
      * discriminate.
      * intros sp' p' w1' [= <-] _ Hret. rewrite Hw in Hret. discriminate.
  - (* no path was supplied *)
    apply (save_loop_defaults plat ora buffer savePath dirs _
             (build_attempts_omitted savePath dirs Hsp))
      in Hrun as (_ & Hnone & _).
    specialize (Hnone Hsp).
    split; [|split].
    + split; [rewrite Hnone; intros [x Hx]; discriminate|].
      intros (sp & e & w1 & _ & _ & _ & -> & Ht & _).
      cbn in Hsp. congruence.
    + intros _. exact Hnone.
    + intros sp p w1 -> Ht. cbn in Hsp. congruence.
Qed.

Lemma C4_witness :
  Tools.saveImage node blocked_fs synthetic_data
    (Some "/tmp/blocked/output.jpg") w_output_dir
  = (Return fallback_result, fallback_world)
  /\ exists sp e w1 dirs attempt w2,
       Some "/tmp/blocked/output.jpg" = Some sp /\ Js.truthy sp = true
       /\ Tools.write_attempt node blocked_fs (base64_decode node synthetic_data)
            (requested_attempt sp) w_output_dir = (Throw e, w1)
       /\ (forall ext, e <> invalidExtensionError ext)
       /\ Tools.getDefaultOutputDirectories node w_output_dir
          = (Return dirs, w_output_dir)
       /\ on_default dirs attempt
       /\ Tools.write_attempt node blocked_fs (base64_decode node synthetic_data)
            attempt w2
          = (Return (Tools.filePath fallback_result), fallback_world).
Proof.
  assert (Hrun : Tools.saveImage node blocked_fs synthetic_data
                   (Some "/tmp/blocked/output.jpg") w_output_dir
                 = (Return fallback_result, fallback_world))
    by (vm_compute; reflexivity).
  split; [exact Hrun|].
  apply (proj1 (proj1 (C4_warning_iff_fallback_after_failed_request
                         node blocked_fs synthetic_data
                         (Some "/tmp/blocked/output.jpg")
                         w_output_dir fallback_world fallback_result Hrun))).
  eexists. reflexivity.
Defined.

(** The tests of the repository on [saveImage]: a usable file path is
    written as it is, without warning; a path under a file falls back to
    [IMAGE_OUTPUT_DIR], with a warning that names the request. *)
Example saveImage_direct_test :
  fst (Tools.saveImage node unavailable synthetic_data
         (Some "/tmp/work/output.jpg") w_no_key)
  = Return {| Tools.filePath := "/tmp/work/output.jpg";
              Tools.warning := None |}.
Proof. vm_compute. reflexivity. Qed.

Example saveImage_fallback_test :
  Posix.dirname (Tools.filePath fallback_result) = "/tmp/fallback"
  /\ Js.includes (default "" (Tools.warning fallback_result))
                 "Requested save_path" = true.
Proof. split; vm_compute; reflexivity. Qed.

(** Without a path the first default directory is used, silently. *)
Example saveImage_default_test :
  fst (Tools.saveImage node unavailable synthetic_data None w_no_key)
  = Return {| Tools.filePath :=
                "/home/user/nano-banana-images/generated-2026-01-02T03-04-05-678Z-k3x9q2.jpg";
              Tools.warning := None |}.
Proof. vm_compute. reflexivity. Qed.

(** End to end: a prompt, a key, no path, a backend that answers with an
    image and a text.  The response is not error-flagged, the file is under
    the first default directory, and the text says where it was saved. *)
Example handler_success_test :
  let response :=
    fst (Tools.handler node
           (scripted [Return (response_of
                                [text_part "A cat."; image_part "U2Vjb25k"])] [])
           {| Tools.prompt := "draw a cat"; Tools.save_path := None |} w_keyed) in
  isError response = false
  /\ (file_path <$> structuredContent response)
     = Some "/home/user/nano-banana-images/generated-2026-01-02T03-04-05-678Z-k3x9q2.jpg"
  /\ (mime_type <$> structuredContent response) = Some "image/jpeg"
  /\ match resp_content response with
     | TextContent t :: _ => Js.includes t "Image saved to:" = true
     | _ => False
     end.
Proof. vm_compute. repeat split; reflexivity. Qed.

(** End to end: an explicit target [/tmp/x/photo.png] fails with the
    extension message and nothing is touched on disk. *)
Example handler_bad_extension_test :
  let '(response, w') :=
    Tools.handler node
      (scripted [Return (response_of [image_part "U2Vjb25k"])] [])
      {| Tools.prompt := "draw a cat";
         Tools.save_path := Some "/tmp/x/photo.png" |} w_keyed in
  isError response = true
  /\ match resp_content response with
     | [TextContent t] => Js.includes t EXTENSION_MARKER = true
     | _ => False
     end
  /\ List.filter (fun ev => match ev with
                            | EvMkdir _ | EvWriteFile _ _ | EvStat _ => true
                            | _ => false
                            end) (trace w') = [].
Proof. vm_compute. repeat split; reflexivity. Qed.

(* ===================================================================== *)
(** ** Further properties of [gemini.ts] *)
(* ===================================================================== *)

(** *** White space *)

Lemma strip_prefix_Some (p : list ascii) :
  forall s r, Js.strip_prefix p s = Some r <-> s = p ++ r.
Proof.
  induction p as [|a p IH]; intros s r; cbn [Js.strip_prefix app].
  - split; [now intros [= ->] | now intros ->].
  - destruct s as [|b s].
    + split; discriminate.
    + destruct (Ascii.eqb_spec a b) as [->|Hne].
      * rewrite IH. split; [now intros -> | now intros [= ->]].
      * split; [discriminate | intros [= Hab _]; congruence].
Qed.

Lemma strip_one_Some (codes : list (list ascii)) (s r : list ascii) :
  Js.strip_one codes s = Some r ->
  exists code, In code codes /\ s = code ++ r.
Proof.
  induction codes as [|code codes IH]; cbn [Js.strip_one]; [discriminate|].
  destruct (Js.strip_prefix code s) as [r'|] eqn:Hp.
  - intros [= ->]. exists code. split; [now left|].
    now apply strip_prefix_Some.
  - intros H. destruct (IH H) as (c & Hin & Hs). exists c.
    split; [now right | exact Hs].
Qed.

Lemma strip_one_None (codes : list (list ascii)) (s : list ascii) :
  Js.strip_one codes s = None ->
  forall code rest, In code codes -> s <> code ++ rest.
Proof.
  induction codes as [|code codes IH]; cbn [Js.strip_one];
    intros H c rest Hin; [destruct Hin|].
  destruct (Js.strip_prefix code s) as [r'|] eqn:Hp; [discriminate|].
  destruct Hin as [<-|Hin]; [|now apply IH].
  intros Hs. apply strip_prefix_Some in Hs. congruence.
Qed.

(** With fuel for every byte, what [strip_leading] leaves starts with
    none of the code points, and is the end of what it was given. *)
Lemma strip_leading_done (codes : list (list ascii)) :
  Forall (fun code => code <> []) codes ->
  forall (fuel : nat) (s : list ascii),
    (length s <= fuel)%nat ->
    Js.strip_one codes (Js.strip_leading fuel codes s) = None.
Proof.
  intros Hne. induction fuel as [|fuel IH]; intros s Hlen.
  - destruct s; [|cbn in Hlen; lia]. cbn [Js.strip_leading].
    destruct (Js.strip_one codes []) as [r|] eqn:H; [|reflexivity].
    destruct (strip_one_Some _ _ _ H) as (code & Hin & Hs).
    rewrite List.Forall_forall in Hne. specialize (Hne code Hin).
    destruct code; [congruence | discriminate].
  - cbn [Js.strip_leading].
    destruct (Js.strip_one codes s) as [r|] eqn:H; [|exact H].
    apply IH. destruct (strip_one_Some _ _ _ H) as (code & Hin & ->).
    rewrite List.Forall_forall in Hne. specialize (Hne code Hin).
    rewrite length_app in Hlen. destruct code; [congruence|].
    cbn [length] in Hlen. lia.
Qed.

Lemma strip_leading_suffix (codes : list (list ascii)) (fuel : nat) :
  forall s, exists front, s = front ++ Js.strip_leading fuel codes s.
Proof.
  induction fuel as [|fuel IH]; intros s; cbn [Js.strip_leading].
  - now exists [].
  - destruct (Js.strip_one codes s) as [r|] eqn:H; [|now exists []].
    destruct (strip_one_Some _ _ _ H) as (code & _ & ->).
    destruct (IH r) as [front Hr]. exists (code ++ front).
    now rewrite <- app_assoc, <- Hr.
Qed.

Lemma white_space_not_empty :
  Forall (fun code : list ascii => code <> []) Js.WHITE_SPACE.
Proof. repeat constructor; discriminate. Qed.

Lemma white_space_rev_not_empty :
  Forall (fun code : list ascii => code <> []) (map (@rev ascii) Js.WHITE_SPACE).
Proof. repeat constructor; discriminate. Qed.

(** What [trim] returns neither starts nor ends with white space. *)
Lemma trim_trimmed (s : string) :
  ~ starts_with_white_space (Js.trim s) /\ ~ ends_with_white_space (Js.trim s).
Proof.
  unfold starts_with_white_space, ends_with_white_space, Js.trim.
  rewrite list_ascii_of_string_of_list_ascii.
  set (l1 := Js.trimStart_bytes (list_ascii_of_string s)).
  assert (H1 : Js.strip_one Js.WHITE_SPACE l1 = None)
    by (apply strip_leading_done; [apply white_space_not_empty | lia]).
  unfold Js.trimEnd_bytes.
  set (back := Js.strip_leading (length l1) (map (@rev ascii) Js.WHITE_SPACE)
                                (rev l1)).
  assert (H2 : Js.strip_one (map (@rev ascii) Js.WHITE_SPACE) back = None).
  { apply strip_leading_done; [apply white_space_rev_not_empty|].
    rewrite length_rev. lia. }
  destruct (strip_leading_suffix (map (@rev ascii) Js.WHITE_SPACE)
              (length l1) (rev l1)) as [front Hfront].
  fold back in Hfront.
  split.
  - intros (code & rest & Hin & Hs).
    apply (strip_one_None _ _ H1 code (rest ++ rev front) Hin).
    rewrite <- (rev_involutive l1), Hfront, rev_app_distr, Hs.
    now rewrite <- app_assoc.
  - intros (code & rest & Hin & Hs).
    apply (strip_one_None _ _ H2 (rev code) (rev rest)).
    + now apply in_map.
    + rewrite <- (rev_involutive back), Hs, rev_app_distr. reflexivity.
Qed.

Lemma default_model_trimmed :
  ~ starts_with_white_space Gemini.DEFAULT_IMAGE_MODEL
  /\ ~ ends_with_white_space Gemini.DEFAULT_IMAGE_MODEL.
Proof.
  split.
  - intros (code & rest & Hin & Hs).
    refine (strip_one_None Js.WHITE_SPACE _ _ code rest Hin Hs).
    vm_compute. reflexivity.
  - intros (code & rest & Hin & Hs).
    refine (strip_one_None (map (@rev ascii) Js.WHITE_SPACE)
              (rev (list_ascii_of_string Gemini.DEFAULT_IMAGE_MODEL)) _
              (rev code) (rev rest) (in_map _ _ _ Hin) _).
    + vm_compute. reflexivity.
    + now rewrite Hs, rev_app_distr.
Qed.

(** *** The model name *)

(** X1: reading the model name changes nothing, and the name is never
    empty and neither starts nor ends with white space (that of Unicode
    included): it is the trimmed [GEMINI_IMAGE_MODEL] when that is set to
    something other than white space, and the default model otherwise. *)
Theorem X1_model_name_never_empty (w : World) :
  exists m,
    Gemini.getModelName w = (Return m, w)
    /\ Js.truthy m = true
    /\ ~ starts_with_white_space m
    /\ ~ ends_with_white_space m
    /\ match env w !! "GEMINI_IMAGE_MODEL" with
       | Some raw => if Js.truthy (Js.trim raw) then m = Js.trim raw
                     else m = Gemini.DEFAULT_IMAGE_MODEL
       | None => m = Gemini.DEFAULT_IMAGE_MODEL
       end.
Proof.
  unfold Gemini.getModelName, bind, getenv, ret.
  destruct (env w !! "GEMINI_IMAGE_MODEL") as [raw|]; cbn.
  - destruct (Js.truthy (Js.trim raw)) eqn:Ht; eexists.
    + split; [reflexivity|]. split; [exact Ht|].
      split; [apply trim_trimmed|]. split; [apply trim_trimmed | reflexivity].
    + split; [reflexivity|]. split; [reflexivity|].
      split; [apply default_model_trimmed|].
      split; [apply default_model_trimmed | reflexivity].
  - eexists. split; [reflexivity|]. split; [reflexivity|].
    split; [apply default_model_trimmed|].
    split; [apply default_model_trimmed | reflexivity].
Qed.

Example model_name_blank_override :
  fst (Gemini.getModelName (boot [("GEMINI_IMAGE_MODEL", "   ")]))
  = Return Gemini.DEFAULT_IMAGE_MODEL
  /\ fst (Gemini.getModelName (boot [("GEMINI_IMAGE_MODEL", " imagen-x ")]))
     = Return "imagen-x".
Proof. split; vm_compute; reflexivity. Qed.

(** A value made of no-break spaces is blank, and no-break spaces around
    a name are stripped. *)
Example model_name_no_break_space :
  fst (Gemini.getModelName (boot [("GEMINI_IMAGE_MODEL", nbsp)]))
  = Return Gemini.DEFAULT_IMAGE_MODEL
  /\ fst (Gemini.getModelName
            (boot [("GEMINI_IMAGE_MODEL", nbsp +:+ "imagen-x" +:+ nbsp)]))
     = Return "imagen-x".
Proof. split; vm_compute; reflexivity. Qed.

(** *** The client cache *)

(** X2: a successful [getClient] leaves the environment and the history
    as they were and the cache holding the returned client under the
    configured key; on a coherent cache the returned client was made for
    that key; the cache stays coherent, and asking again returns the same
    client and changes nothing. *)
Theorem X2_client_cache (w w' : World) (c : GoogleGenAI) :
  Gemini.getClient w = (Return c, w') ->
  env w' = env w
  /\ trace w' = trace w
  /\ cachedClient w' = Some c
  /\ (exists k,
         Gemini.getConfiguredApiKey w = (Return k, w)
         /\ cachedApiKey w' = Some k
         /\ (cache_coherent w -> client_apiKey c = k /\ cache_coherent w'))
  /\ Gemini.getClient w' = (Return c, w').
Proof.
  intros H.
  assert (Hw := getConfiguredApiKey_world w).
  assert (Hsame : forall w2, env w2 = env w ->
             Gemini.getConfiguredApiKey w2
             = (fst (Gemini.getConfiguredApiKey w), w2)).
  { intros w2 He. unfold Gemini.getConfiguredApiKey, bind, getenv.
    rewrite He. now destruct (negb _). }
  unfold Gemini.getClient, bind in H.
  destruct (Gemini.getConfiguredApiKey w) as [[k|e] w1] eqn:Hk;
    simpl in Hw; subst w1; [|discriminate].
  assert (Hagain : forall w2,
             env w2 = env w -> cachedClient w2 = Some c ->
             cachedApiKey w2 = Some k ->
             Gemini.getClient w2 = (Return c, w2)).
  { intros w2 He Hc Ha. unfold Gemini.getClient, bind.
    rewrite (Hsame w2 He). cbn [fst]. rewrite Hc, Ha.
    now rewrite bool_decide_eq_true_2. }
  destruct (cachedClient w) as [cached|] eqn:Hc.
  - destruct (bool_decide (cachedApiKey w = Some k)) eqn:Hb.
    + injection H as <- <-. apply bool_decide_eq_true_1 in Hb.
      split; [reflexivity|]. split; [reflexivity|]. split; [exact Hc|].
      split; [|now apply Hagain].
      exists k. split; [reflexivity|]. split; [exact Hb|].
      intros Hco. split; [|exact Hco].
      unfold cache_coherent in Hco. rewrite Hc, Hb in Hco. congruence.
    + injection H as <- <-.
      split; [reflexivity|]. split; [reflexivity|]. split; [reflexivity|].
      split; [|now apply Hagain].
      exists k. split; [reflexivity|]. split; [reflexivity|].
      intros _. split; reflexivity.
  - injection H as <- <-.
    split; [reflexivity|]. split; [reflexivity|]. split; [reflexivity|].
    split; [|now apply Hagain].
    exists k. split; [reflexivity|]. split; [reflexivity|].
    intros _. split; reflexivity.
Qed.

Lemma X2_witness :
  env w_cached = env w_keyed
  /\ Gemini.getClient w_cached = (Return a_client, w_cached).
Proof.
  destruct (X2_client_cache w_keyed w_cached a_client eq_refl)
    as (He & _ & _ & _ & Hagain).
  split; [exact He | exact Hagain].
Defined.

(** A key that changes replaces the cached client. *)
Example client_replaced_on_new_key :
  fst (Gemini.getClient
         {| env := env w_secondary_only; cachedClient := Some a_client;
            cachedApiKey := Some "AIza-primary"; trace := [] |})
  = Return {| client_apiKey := "AIza-secondary" |}.
Proof. reflexivity. Qed.

(** *** The narrative of a response *)

Lemma string_app_assoc (a b c : string) :
  (a +:+ b) +:+ c = a +:+ (b +:+ c).
Proof.
  induction a as [|x a IH]; [reflexivity|].
  change (String x ((a +:+ b) +:+ c) = String x (a +:+ (b +:+ c))).
  now rewrite IH.
Qed.

Lemma truthy_append (a b : string) :
  Js.truthy a = true -> Js.truthy (a +:+ b) = true.
Proof. now destruct a. Qed.

Lemma text_of_image (part : Part) :
  Js.truthy_opt (Gemini.inline_data part) = true -> text_of part = None.
Proof. unfold text_of. now intros ->. Qed.

Lemma text_of_text (part : Part) :
  Js.truthy_opt (Gemini.inline_data part) = false ->
  Js.truthy_opt (part_text part) = true ->
  exists t, part_text part = Some t /\ Js.truthy t = true
            /\ text_of part = Some t.
Proof.
  unfold text_of. intros -> H.
  destruct (part_text part) as [t|]; [|discriminate]. cbn in H.
  exists t. now rewrite H.
Qed.

Lemma text_of_none (part : Part) :
  Js.truthy_opt (part_text part) = false -> text_of part = None.
Proof.
  unfold text_of. intros H. destruct (Js.truthy_opt (Gemini.inline_data part));
    [reflexivity|].
  destruct (part_text part) as [t|]; [|reflexivity]. cbn in H. now rewrite H.
Qed.

(** The scan from a text already gathered. *)
Lemma scan_texts_from (ps : list Part) :
  forall imageData acc,
    Js.truthy acc = true ->
    snd (fold_left Gemini.scan_part ps (imageData, Some acc))
    = Some (String.concat Gemini.newline (acc :: texts ps)).
Proof.
  unfold texts.
  induction ps as [|p ps IH]; intros imageData acc Hacc; [reflexivity|].
  cbn [fold_left omap list_omap]. unfold Gemini.scan_part at 2.
  destruct (Js.truthy_opt (Gemini.inline_data p)) eqn:Hi.
  - rewrite (text_of_image p Hi). now apply IH.
  - destruct (Js.truthy_opt (part_text p)) eqn:Ht.
    + destruct (text_of_text p Hi Ht) as (t & Hp & Htt & ->).
      cbn [Js.truthy_opt]. rewrite Hacc, Hp. cbn [default].
      rewrite IH by now apply truthy_append.
      f_equal. cbn [String.concat].
      destruct (omap text_of ps); now rewrite ?string_app_assoc.
    + rewrite (text_of_none p Ht). now apply IH.
Qed.

(** X3: the text kept from a response is the concatenation, in fragment
    order and separated by a line feed, of the non-empty texts of the
    fragments that carry no image bytes; it is absent when there is none.
    The text of a fragment that also carries image bytes is dropped. *)
Theorem X3_texts_joined_by_newline (ps : list Part) :
  snd (Gemini.scan_parts ps)
  = match texts ps with
    | [] => None
    | ts => Some (String.concat Gemini.newline ts)
    end.
Proof.
  unfold Gemini.scan_parts, texts.
  enough (H : forall imageData,
             snd (fold_left Gemini.scan_part ps (imageData, None))
             = match omap text_of ps with
               | [] => None
               | ts => Some (String.concat Gemini.newline ts)
               end) by apply H.
  induction ps as [|p ps IH]; intros imageData; [reflexivity|].
  cbn [fold_left omap list_omap]. unfold Gemini.scan_part at 2.
  destruct (Js.truthy_opt (Gemini.inline_data p)) eqn:Hi.
  - rewrite (text_of_image p Hi). apply IH.
  - destruct (Js.truthy_opt (part_text p)) eqn:Ht.
    + destruct (text_of_text p Hi Ht) as (t & Hp & Htt & ->).
      cbn [Js.truthy_opt]. rewrite Hp.
      now rewrite (scan_texts_from ps imageData t Htt).
    + rewrite (text_of_none p Ht). apply IH.
Qed.

Example text_beside_image_is_dropped :
  Gemini.scan_parts
    [ text_part "one";
      {| inlineData := Some {| blob_data := Some "U2Vjb25k";
                               blob_mimeType := None |};
         part_text := Some "caption" |};
      text_part ""; text_part "two" ]
  = (Some "U2Vjb25k", Some ("one" +:+ Gemini.newline +:+ "two")).
Proof. reflexivity. Qed.

(** *** Runs of [generateImage] *)

(** With a client and a model name in hand, [generateImage] is its loop. *)
Lemma generateImage_keyed (plat : Platform) (ora : Oracle) (prompt : string)
      (w w0 : World) (client : GoogleGenAI) (model : string) :
  Gemini.getClient w = (Return client, w0) ->
  Gemini.getModelName w0 = (Return model, w0) ->
  Gemini.generateImage plat ora prompt w
  = (Gemini.outcome_of_exit
       (fst (Gemini.retry_loop plat ora Gemini.loop_fuel client model prompt 0 w0)),
     snd (Gemini.retry_loop plat ora Gemini.loop_fuel client model prompt 0 w0)).
Proof.
  intros Hc Hm. unfold Gemini.generateImage, bind. rewrite Hc, Hm.
  now destruct (Gemini.retry_loop _ _ _ _ _ _ _ _).
Qed.

Lemma getModelName_anywhere (w w0 : World) :
  env w0 = env w ->
  Gemini.getModelName w0 = (fst (Gemini.getModelName w), w0).
Proof.
  intros He. unfold Gemini.getModelName, bind, getenv, ret. now rewrite He.
Qed.

(** The text gathered by the scan is absent or non-empty. *)
Lemma scan_text_absent_or_truthy (ps : list Part) :
  forall imageData text,
    text = None \/ Js.truthy_opt text = true ->
    snd (fold_left Gemini.scan_part ps (imageData, text)) = None
    \/ Js.truthy_opt (snd (fold_left Gemini.scan_part ps (imageData, text)))
       = true.
Proof.
  induction ps as [|p ps IH]; intros imageData text Ht; [exact Ht|].
  cbn [fold_left]. unfold Gemini.scan_part at 2 4.
  destruct (Js.truthy_opt (Gemini.inline_data p)); [now apply IH|].
  destruct (Js.truthy_opt (part_text p)) eqn:Hp; [|now apply IH].
  apply IH. right.
  destruct (Js.truthy_opt text) eqn:Htt; [|exact Hp].
  destruct text as [t|]; [|discriminate]. cbn in Htt |- *.
  now apply truthy_append.
Qed.

Lemma getClient_env (w : World) : env (snd (Gemini.getClient w)) = env w.
Proof.
  assert (Hw := getConfiguredApiKey_world w).
  unfold Gemini.getClient, bind.
  destruct (Gemini.getConfiguredApiKey w) as [[k|e] w1]; simpl in Hw; subst w1.
  - destruct (cachedClient w); [destruct (bool_decide _)|]; reflexivity.
  - reflexivity.
Qed.

(** What a successful attempt returns. *)
Lemma attempt_body_returns (plat : Platform) (ora : Oracle)
      (client : GoogleGenAI) (model prompt : string) (w w1 : World)
      (r : Gemini.GenResult) :
  Gemini.attempt_body plat ora client model prompt w = (Return r, w1) ->
  exists response ps d jpgBuffer,
    models_generateContent ora (trace w) (client_apiKey client) model prompt
      = Return response
    /\ Gemini.response_parts response = Some ps
    /\ last_image ps = Some d
    /\ sharp_jpeg ora
         (trace w ++ [EvGenerateContent (client_apiKey client) model prompt])
         (base64_decode plat d) = Return jpgBuffer
    /\ r = {| Gemini.data := base64_encode plat jpgBuffer;
              Gemini.mimeType := "image/jpeg";
              Gemini.model := model;
              Gemini.text := snd (Gemini.scan_parts ps) |}
    /\ w1 = extend w [EvGenerateContent (client_apiKey client) model prompt;
                      EvSharpJpeg (base64_decode plat d)].
Proof.
  intros H. unfold Gemini.attempt_body, bind, call in H.
  destruct (models_generateContent ora (trace w) (client_apiKey client)
              model prompt) as [response|e] eqn:Hresp; [|discriminate].
  destruct (Gemini.response_parts response) as [[|p ps]|] eqn:Hps;
    try discriminate.
  assert (Hlast := scan_parts_from (p :: ps) None None).
  assert (Htext := scan_text_absent_or_truthy (p :: ps) None None
                     (or_introl eq_refl)).
  unfold Gemini.scan_parts in *.
  destruct (fold_left Gemini.scan_part (p :: ps) (None, None))
    as [imageData text] eqn:Hscan.
  cbn [fst snd] in Hlast, Htext.
  destruct imageData as [d|]; [|discriminate].
  destruct (Js.truthy d) eqn:Hd; cbn [Js.truthy_opt negb] in H;
    rewrite Hd in H; [|discriminate].
  cbn [negb default] in H. cbn [trace log] in H.
  destruct (sharp_jpeg ora _ _) as [jpg|e] eqn:Hsharp; [|discriminate].
  injection H as <- <-.
  exists response, (p :: ps), d, jpg.
  split; [reflexivity|]. split; [exact Hps|].
  split; [now destruct (last_image (p :: ps))|].
  split; [exact Hsharp|]. rewrite Hscan. cbn [snd]. split.
  - f_equal. destruct Htext as [-> | ->]; [reflexivity|reflexivity].
  - now rewrite !log_extend, extend_extend.
Qed.

Section RunsOfTheLoop.
Context (plat : Platform) (ora : Oracle).
Context (client : GoogleGenAI) (model prompt : string).

(** A result the loop returns is the result of one of its attempts. *)
Lemma retry_loop_returns (fuel : nat) :
  forall (attempt : Z) (w w' : World) (r : Gemini.GenResult),
    Gemini.retry_loop plat ora fuel client model prompt attempt w
    = (Gemini.ExitReturn r, w') ->
    exists w0,
      Gemini.attempt_body plat ora client model prompt w0 = (Return r, w').
Proof.
  induction fuel as [|fuel IH]; intros attempt w w' r H; [discriminate|].
  cbn [Gemini.retry_loop] in H.
  destruct (attempt <=? Gemini.MAX_RETRIES); [|discriminate].
  destruct (Gemini.attempt_body plat ora client model prompt w)
    as [[r1|e] w1] eqn:Hb.
  - injection H as <- <-. eauto.
  - destruct (_ && _); [|discriminate]. eapply IH, H.
Qed.

(** The loop calls nothing but the backend, the encoder and the timer. *)
Lemma retry_loop_generation_events (fuel : nat) :
  forall (attempt : Z) (w : World),
    exists delta,
      snd (Gemini.retry_loop plat ora fuel client model prompt attempt w)
      = extend w delta
      /\ forallb generation_event delta = true.
Proof.
  induction fuel as [|fuel IH]; intros attempt w.
  { exists []. now rewrite extend_nil. }
  cbn [Gemini.retry_loop].
  destruct (attempt <=? Gemini.MAX_RETRIES);
    [|exists []; now rewrite extend_nil].
  destruct (attempt_body_extends plat ora client model prompt w)
    as (tail & Hw1 & Htail).
  assert (Hg : forallb generation_event
                 (EvGenerateContent (client_apiKey client) model prompt :: tail)
               = true)
    by (destruct Htail as [->|[i ->]]; reflexivity).
  destruct (Gemini.attempt_body plat ora client model prompt w)
    as [[r|e] w1]; cbn [snd] in Hw1; subst w1.
  - eexists. split; [reflexivity | exact Hg].
  - destruct (_ && _).
    + cbn [Gemini.sleep call].
      destruct (IH (attempt + 1)
                  (log (EvSleep (Gemini.RETRY_BACKOFF_MS * 2 ^ attempt))
                       (extend w
                          (EvGenerateContent (client_apiKey client) model
                                             prompt :: tail))))
        as (delta & -> & Hd).
      eexists. rewrite log_extend, !extend_extend. split; [reflexivity|].
      rewrite !forallb_app, Hg, Hd. reflexivity.
    + eexists. split; [reflexivity | exact Hg].
Qed.

End RunsOfTheLoop.

Lemma getModelName_run (w : World) :
  exists m, Gemini.getModelName w = (Return m, w) /\ Js.truthy m = true.
Proof.
  unfold Gemini.getModelName, bind, getenv, ret.
  destruct (Js.truthy_opt (Js.trim <$> env w !! "GEMINI_IMAGE_MODEL")) eqn:Ht.
  - eexists. split; [reflexivity|].
    destruct (Js.trim <$> env w !! "GEMINI_IMAGE_MODEL"); [exact Ht|discriminate].
  - eexists. split; reflexivity.
Qed.

(** X4: what [generateImage] returns.  The run ended with a backend call
    followed by the encoder's call; the backend answered that call with a
    response whose first candidate holds fragments with at least one image;
    the data returned is the base64 form of what the encoder made of the
    decoded last image of those fragments, and the text is what the scan of
    those fragments kept, never the empty string.  The MIME type is
    [image/jpeg] and the model is the resolved model name, the one the
    backend was called with. *)
Theorem X4_generated_result (plat : Platform) (ora : Oracle)
        (prompt : string) (w w' : World) (r : Gemini.GenResult) :
  Gemini.generateImage plat ora prompt w = (Return r, w') ->
  Gemini.mimeType r = "image/jpeg"
  /\ Gemini.getModelName w = (Return (Gemini.model r), w)
  /\ Js.truthy (Gemini.model r) = true
  /\ Gemini.text r <> Some ""
  /\ exists key h response ps d jpgBuffer,
       trace w'
       = h ++ [EvGenerateContent key (Gemini.model r) prompt;
               EvSharpJpeg (base64_decode plat d)]
       /\ models_generateContent ora h key (Gemini.model r) prompt
          = Return response
       /\ Gemini.response_parts response = Some ps
       /\ last_image ps = Some d
       /\ sharp_jpeg ora
            (h ++ [EvGenerateContent key (Gemini.model r) prompt])
            (base64_decode plat d) = Return jpgBuffer
       /\ Gemini.data r = base64_encode plat jpgBuffer
       /\ Gemini.text r = snd (Gemini.scan_parts ps).
Proof.
  intros H.
  assert (He := getClient_env w).
  destruct (Gemini.getClient w) as [[client|e] w0] eqn:Hc; cbn [snd] in He.
  2:{ unfold Gemini.generateImage, bind in H. rewrite Hc in H. discriminate. }
  destruct (getModelName_run w) as (m & Hm & Hmt).
  assert (Hm0 := getModelName_anywhere w w0 He). rewrite Hm in Hm0.
  cbn [fst] in Hm0.
  rewrite (generateImage_keyed plat ora prompt w w0 client m Hc Hm0) in H.
  destruct (Gemini.retry_loop plat ora Gemini.loop_fuel client m prompt 0 w0)
    as [x w1] eqn:Hl.
  cbn [fst snd] in H.
  destruct x as [r1|e|e|]; cbn in H; try discriminate.
  injection H as -> ->.
  destruct (retry_loop_returns plat ora client m prompt _ _ _ _ _ Hl)
    as (wk & Hb).
  destruct (attempt_body_returns plat ora client m prompt wk w' r Hb)
    as (response & ps & d & jpg & Hresp & Hps & Hlast & Hsharp & -> & ->).
  cbn. split; [reflexivity|]. split; [exact Hm|]. split; [exact Hmt|].
  split.
  - destruct (scan_text_absent_or_truthy ps None None (or_introl eq_refl))
      as [Hn|Ht]; unfold Gemini.scan_parts.
    + rewrite Hn. discriminate.
    + intros Habs. rewrite Habs in Ht. discriminate.
  - exists (client_apiKey client), (trace wk), response, ps, d, jpg.
    split; [reflexivity|]. split; [exact Hresp|]. split; [exact Hps|].
    split; [exact Hlast|]. split; [exact Hsharp|].
    split; reflexivity.
Qed.

Lemma X4_witness :
  exists r w',
    Gemini.generateImage node one_answer "draw a cat" w_keyed = (Return r, w')
    /\ Gemini.mimeType r = "image/jpeg"
    /\ Gemini.model r = Gemini.DEFAULT_IMAGE_MODEL
    /\ Gemini.text r <> Some "".
Proof.
  destruct (X4_generated_result node one_answer "draw a cat" w_keyed _ _ eq_refl)
    as (H1 & _ & _ & H4 & _).
  eexists _, _. split; [reflexivity|]. split; [exact H1|].
  split; [reflexivity | exact H4].
Defined.

Section Runs.
Context (plat : Platform) (ora : Oracle) (prompt : string).
Context (w w0 : World) (client : GoogleGenAI) (model : string).
Hypothesis Hclient : Gemini.getClient w = (Return client, w0).
Hypothesis Hmodel : Gemini.getModelName w0 = (Return model, w0).

Local Abbreviation first_call :=
  (EvGenerateContent (client_apiKey client) model prompt).

(** The run when the first attempt ends it. *)
Lemma generateImage_first_attempt_throws (e : Thrown) (w1 : World) :
  Gemini.attempt_body plat ora client model prompt w0 = (Throw e, w1) ->
  Gemini.isRetryableGeminiError e = false ->
  Gemini.generateImage plat ora prompt w
  = (Throw (Gemini.toUserFacingGeminiError e), w1).
Proof.
  intros Hb Hr.
  rewrite (generateImage_keyed plat ora prompt w w0 client model Hclient Hmodel).
  change Gemini.loop_fuel with 4%nat.
  rewrite (retry_loop_throw plat ora client model prompt 3 0 w0 w1 e
             ltac:(vm_compute; discriminate) Hb), Hr.
  reflexivity.
Qed.

(** X5: a backend failure that is not retryable ends the run at once:
    one call, no delay, and the translated error. *)
Theorem X5_non_retryable_failure_fails_fast (e : Thrown) :
  models_generateContent ora (trace w0) (client_apiKey client) model prompt
    = Throw e ->
  Gemini.isRetryableGeminiError e = false ->
  Gemini.generateImage plat ora prompt w
  = (Throw (Gemini.toUserFacingGeminiError e), extend w0 [first_call]).
Proof.
  intros Hb Hr. apply generateImage_first_attempt_throws; [|exact Hr].
  unfold Gemini.attempt_body, bind, call. now rewrite Hb.
Qed.

(** X6: an answer that offers no image (no candidate, no parts, or parts
    without inline image bytes) is not retried: after that single call, and
    without calling the encoder, the run fails with one of the two
    no-content messages behind the generic prefix. *)
Theorem X6_answer_without_image_is_not_retried
        (response : GenerateContentResponse) :
  models_generateContent ora (trace w0) (client_apiKey client) model prompt
    = Return response ->
  offered_image response = None ->
  exists reason,
    (reason = "No content parts returned from Gemini API."
     \/ reason = "No image data found in the response.")
    /\ Gemini.generateImage plat ora prompt w
       = (Throw (mkError ("Failed to generate image: " +:+ reason)),
          extend w0 [first_call]).
Proof.
  intros Hb Hnone.
  assert (Hbody : exists reason,
             (reason = "No content parts returned from Gemini API."
              \/ reason = "No image data found in the response.")
             /\ Gemini.attempt_body plat ora client model prompt w0
                = (Throw (mkError reason), extend w0 [first_call])).
  { unfold Gemini.attempt_body, bind, call. rewrite Hb.
    unfold offered_image in Hnone.
    destruct (Gemini.response_parts response) as [[|p ps]|];
      [eexists; split; [left; reflexivity | reflexivity] | |
       eexists; split; [left; reflexivity | reflexivity]].
    assert (Hscan := scan_parts_from (p :: ps) None None).
    rewrite Hnone in Hscan. unfold Gemini.scan_parts.
    destruct (fold_left Gemini.scan_part (p :: ps) (None, None))
      as [imageData text]. cbn [fst] in Hscan. subst imageData.
    eexists; split; [right; reflexivity | reflexivity]. }
  destruct Hbody as (reason & Hwhich & Hbody). exists reason.
  split; [exact Hwhich|].
  rewrite (generateImage_first_attempt_throws _ _ Hbody);
    [reflexivity | destruct Hwhich as [-> | ->]; reflexivity].
Qed.

(** X7: when the first attempt fails with a retryable error and the
    second one succeeds, the run waits 500 in between and returns the
    second attempt's result. *)
Theorem X7_recovery_after_one_transient_failure
        (e0 : Thrown) (w1 w2 : World) (r : Gemini.GenResult) :
  Gemini.attempt_body plat ora client model prompt w0 = (Throw e0, w1) ->
  Gemini.isRetryableGeminiError e0 = true ->
  Gemini.attempt_body plat ora client model prompt (log (EvSleep 500) w1)
    = (Return r, w2) ->
  Gemini.generateImage plat ora prompt w = (Return r, w2).
Proof.
  intros Hb0 Hr0 Hb1.
  rewrite (generateImage_keyed plat ora prompt w w0 client model Hclient Hmodel).
  change Gemini.loop_fuel with 4%nat.
  rewrite (retry_loop_throw plat ora client model prompt 3 0 w0 w1 e0
             ltac:(vm_compute; discriminate) Hb0), Hr0.
  cbn [andb]. change (0 <? Gemini.MAX_RETRIES) with true. cbv iota.
  change (Gemini.RETRY_BACKOFF_MS * 2 ^ 0) with 500.
  rewrite (retry_loop_return plat ora client model prompt 2 (0 + 1) _ w2 r
             ltac:(vm_compute; discriminate) Hb1).
  reflexivity.
Qed.

(** X8: when three attempts in a row fail, the first two with retryable
    errors, the run waits 500 and then 1000 and ends with the translation
    of the third error, retryable or not: the first two errors are
    dropped. *)
Theorem X8_third_failure_is_final
        (e0 e1 e2 : Thrown) (w1 w2 w3 : World) :
  Gemini.attempt_body plat ora client model prompt w0 = (Throw e0, w1) ->
  Gemini.isRetryableGeminiError e0 = true ->
  Gemini.attempt_body plat ora client model prompt (log (EvSleep 500) w1)
    = (Throw e1, w2) ->
  Gemini.isRetryableGeminiError e1 = true ->
  Gemini.attempt_body plat ora client model prompt (log (EvSleep 1000) w2)
    = (Throw e2, w3) ->
  Gemini.generateImage plat ora prompt w
  = (Throw (Gemini.toUserFacingGeminiError e2), w3).
Proof.
  intros Hb0 Hr0 Hb1 Hr1 Hb2.
  rewrite (generateImage_keyed plat ora prompt w w0 client model Hclient Hmodel).
  change Gemini.loop_fuel with 4%nat.
  rewrite (retry_loop_throw plat ora client model prompt 3 0 w0 w1 e0
             ltac:(vm_compute; discriminate) Hb0), Hr0.
  cbn [andb]. change (0 <? Gemini.MAX_RETRIES) with true. cbv iota.
  change (Gemini.RETRY_BACKOFF_MS * 2 ^ 0) with 500.
  rewrite (retry_loop_throw plat ora client model prompt 2 (0 + 1) _ w2 e1
             ltac:(vm_compute; discriminate) Hb1), Hr1.
  cbn [andb]. change (0 + 1 <? Gemini.MAX_RETRIES) with true. cbv iota.
  change (Gemini.RETRY_BACKOFF_MS * 2 ^ (0 + 1)) with 1000.
  rewrite (retry_loop_throw plat ora client model prompt 1 (0 + 1 + 1) _ w3 e2
             ltac:(vm_compute; discriminate) Hb2).
  change (0 + 1 + 1 <? Gemini.MAX_RETRIES) with false.
  now rewrite andb_false_r.
Qed.

End Runs.

Lemma X5_witness :
  Gemini.generateImage node unauthorized "draw a cat" w_keyed
  = (Throw (mkError Gemini.AUTH_MESSAGE),
     extend w_cached
       [EvGenerateContent "AIza-primary" Gemini.DEFAULT_IMAGE_MODEL "draw a cat"]).
Proof.
  exact (X5_non_retryable_failure_fails_fast node unauthorized "draw a cat"
           w_keyed w_cached a_client Gemini.DEFAULT_IMAGE_MODEL eq_refl eq_refl
           (ApiError 401 "API key not valid") eq_refl eq_refl).
Defined.

Lemma X6_witness :
  exists reason,
    (reason = "No content parts returned from Gemini API."
     \/ reason = "No image data found in the response.")
    /\ Gemini.generateImage node text_only "draw a cat" w_keyed
       = (Throw (mkError ("Failed to generate image: " +:+ reason)),
          extend w_cached
            [EvGenerateContent "AIza-primary" Gemini.DEFAULT_IMAGE_MODEL
                               "draw a cat"]).
Proof.
  exact (X6_answer_without_image_is_not_retried node text_only "draw a cat"
           w_keyed w_cached a_client Gemini.DEFAULT_IMAGE_MODEL eq_refl eq_refl
           (response_of [text_part "I cannot draw that."]) eq_refl eq_refl).
Defined.

Lemma X7_witness :
  exists r w2,
    Gemini.generateImage node flaky "draw a cat" w_keyed = (Return r, w2)
    /\ sleeps (trace w2) = [500]
    /\ calls (trace w2) = 2%nat.
Proof.
  eexists _, _. split.
  - exact (X7_recovery_after_one_transient_failure node flaky "draw a cat"
             w_keyed w_cached a_client Gemini.DEFAULT_IMAGE_MODEL eq_refl eq_refl
             _ _ _ _ eq_refl eq_refl eq_refl).
  - split; reflexivity.
Defined.

Lemma X8_witness :
  Gemini.generateImage node unavailable "draw a cat" w_keyed
  = (Throw (mkError Gemini.UNAVAILABLE_MESSAGE),
     extend w_cached
       [ EvGenerateContent "AIza-primary" Gemini.DEFAULT_IMAGE_MODEL "draw a cat";
         EvSleep 500;
         EvGenerateContent "AIza-primary" Gemini.DEFAULT_IMAGE_MODEL "draw a cat";
         EvSleep 1000;
         EvGenerateContent "AIza-primary" Gemini.DEFAULT_IMAGE_MODEL "draw a cat" ]).
Proof.
  exact (X8_third_failure_is_final node unavailable "draw a cat"
           w_keyed w_cached a_client Gemini.DEFAULT_IMAGE_MODEL eq_refl eq_refl
           _ _ _ _ _ _ eq_refl eq_refl eq_refl eq_refl eq_refl).
Defined.

(** *** The classifier outside [ApiError] *)

(** X9: for a thrown value that is not an [ApiError], the classifier
    answers yes exactly when the value is transient: its numeric status is
    one of the six retryable statuses, or its lower-cased message contains
    one of the five terms.  (For an [ApiError] the status alone decides.) *)
Theorem X9_classifier_outside_api_errors (e : Thrown) :
  (forall s m, e <> ApiError s m) ->
  Gemini.isRetryableGeminiError e = true <-> transient e.
Proof.
  intros Hne. split; [apply isRetryable_transient|].
  assert (Hm : forall m,
             (exists term,
                 In term ["timeout"; "timed out"; "etimedout"; "econnreset";
                          "temporar"]
                 /\ Js.includes (Js.toLowerCase m) term = true) ->
             Gemini.retryable_message m = true).
  { intros m (term & Hin & Hinc). unfold Gemini.retryable_message.
    simpl in Hin.
    repeat (destruct Hin as [<-|Hin]; [rewrite Hinc; now rewrite ?orb_true_r|]).
    contradiction. }
  assert (Hs : forall s, s ∈ Gemini.RETRYABLE_STATUS_CODES ->
                         Gemini.retryable_status s = true).
  { intros s. unfold Gemini.retryable_status. apply bool_decide_eq_true_2. }
  destruct e as [s m | m [s|] | [s|] m r]; simpl.
  - now destruct (Hne s m).
  - intros [(s' & [= <-] & Hin) | H]; [now rewrite Hs|].
    destruct (Gemini.retryable_status s); [reflexivity | now apply Hm].
  - intros [(s' & [=] & Hin) | H]. now apply Hm.
  - intros [(s' & [= <-] & Hin) | H]; [now rewrite Hs|].
    destruct (Gemini.retryable_status s); [reflexivity | now apply Hm].
  - intros [(s' & [=] & Hin) | H]. now apply Hm.
Qed.

Lemma X9_witness :
  Gemini.isRetryableGeminiError
    (JsError "connect ETIMEDOUT 142.250.1.95:443" None) = true
  <-> transient (JsError "connect ETIMEDOUT 142.250.1.95:443" None).
Proof.
  apply X9_classifier_outside_api_errors. intros s m. discriminate.
Defined.

(* ===================================================================== *)
(** ** Further properties of [tools.ts] *)
(* ===================================================================== *)

(** *** The default directories *)

Lemma dedupe_In (xs : list string) (x : string) :
  In x (Tools.dedupe xs) <-> In x xs.
Proof.
  induction xs as [|y xs IH]; [reflexivity|]. cbn [Tools.dedupe In].
  rewrite filter_In, IH. split.
  - intros [H | [H _]]; auto.
  - intros [H | H]; [now left|].
    destruct (String.eqb_spec y x) as [->|Hne]; [now left|].
    right. split; [exact H | reflexivity].
Qed.

Lemma dedupe_NoDup (xs : list string) : List.NoDup (Tools.dedupe xs).
Proof.
  induction xs as [|y xs IH]; cbn [Tools.dedupe]; [constructor|].
  apply List.NoDup_cons.
  - rewrite filter_In. intros [_ H]. now rewrite String.eqb_refl in H.
  - now apply List.NoDup_filter.
Qed.

Lemma dedupe_head (xs : list string) : head (Tools.dedupe xs) = head xs.
Proof. now destruct xs. Qed.

(** X10: the default directories are read without changing anything; the
    list has no duplicates and no empty entry, and at most three entries;
    it holds the home-based and the temporary-files-based directory
    (whenever [path.join] gives them a name); a configured
    [IMAGE_OUTPUT_DIR] that is not blank (not made of white space only,
    that of Unicode included) comes first, trimmed and normalised, and
    otherwise the home-based directory does. *)
Theorem X10_default_directories (plat : Platform) (w : World) :
  exists dirs,
    Tools.getDefaultOutputDirectories plat w = (Return dirs, w)
    /\ List.NoDup dirs
    /\ (forall d, In d dirs -> Js.truthy d = true)
    /\ (length dirs <= 3)%nat
    /\ (Js.truthy (path_join plat (os_homedir plat) "nano-banana-images") = true ->
        In (path_join plat (os_homedir plat) "nano-banana-images") dirs)
    /\ (Js.truthy (path_join plat (os_tmpdir plat) "nano-banana-images") = true ->
        In (path_join plat (os_tmpdir plat) "nano-banana-images") dirs)
    /\ (forall raw,
          env w !! "IMAGE_OUTPUT_DIR" = Some raw ->
          Js.truthy (Js.trim raw) = true ->
          Js.truthy (Tools.normalizePathInput plat (Js.trim raw)) = true ->
          head dirs = Some (Tools.normalizePathInput plat (Js.trim raw)))
    /\ (Js.truthy_opt (Js.trim <$> env w !! "IMAGE_OUTPUT_DIR") = false ->
        Js.truthy (path_join plat (os_homedir plat) "nano-banana-images") = true ->
        head dirs = Some (path_join plat (os_homedir plat) "nano-banana-images")).
Proof.
  unfold Tools.getDefaultOutputDirectories, bind, getenv, ret.
  set (home := path_join plat (os_homedir plat) "nano-banana-images").
  set (tmp := path_join plat (os_tmpdir plat) "nano-banana-images").
  set (keep := fun c : option string =>
                 match c with
                 | Some s => if Js.truthy s then Some s else None
                 | None => None
                 end).
  set (first := if Js.truthy_opt (Js.trim <$> env w !! "IMAGE_OUTPUT_DIR")
                then Some (Tools.normalizePathInput plat
                             (default "" (Js.trim <$> env w !! "IMAGE_OUTPUT_DIR")))
                else None).
  set (kept := omap keep [first; Some home; Some tmp]).
  assert (Hkept : forall d, In d kept ->
                            Js.truthy d = true
                            /\ (first = Some d \/ d = home \/ d = tmp)).
  { intros d Hd. apply list_elem_of_In, list_elem_of_omap in Hd
      as (c & Hc & Hk).
    destruct c as [s|]; [|discriminate]. cbn in Hk.
    destruct (Js.truthy s) eqn:Hs; [|discriminate]. injection Hk as ->.
    split; [exact Hs|].
    apply list_elem_of_In in Hc. cbn in Hc.
    destruct Hc as [Hc | [[= ->] | [[= ->] | []]]]; auto. }
  assert (Hin : forall d, In (Some d) [first; Some home; Some tmp] ->
                          Js.truthy d = true -> In d kept).
  { intros d Hd Ht. apply list_elem_of_In, list_elem_of_omap.
    exists (Some d). split; [now apply list_elem_of_In|]. cbn. now rewrite Ht. }
  assert (Hlen : (length kept <= 3)%nat).
  { subst kept. cbn. destruct (keep first), (Js.truthy home), (Js.truthy tmp);
      cbn; lia. }
  exists (Tools.dedupe kept). split; [reflexivity|].
  split; [apply dedupe_NoDup|].
  split; [intros d Hd; now apply (Hkept d), dedupe_In|].
  split.
  { etransitivity; [|exact Hlen]. clear. induction kept as [|x l IH]; [reflexivity|].
    cbn [Tools.dedupe length]. apply le_n_S. etransitivity; [|exact IH].
    clear. induction (Tools.dedupe l) as [|y l' IH]; [reflexivity|].
    cbn. destruct (negb _); cbn; lia. }
  split; [intros Ht; apply dedupe_In, Hin; [cbn; auto | exact Ht]|].
  split; [intros Ht; apply dedupe_In, Hin; [cbn; auto | exact Ht]|].
  split.
  - intros raw Hraw Htrim Hnorm. rewrite dedupe_head. subst kept first.
    rewrite Hraw. cbn [fmap option_fmap option_map Js.truthy_opt default].
    rewrite Htrim. cbn. now rewrite Hnorm.
  - intros Hblank Hhome. rewrite dedupe_head. subst kept first.
    rewrite Hblank. cbn. now rewrite Hhome.
Qed.

Lemma X10_witness :
  Tools.getDefaultOutputDirectories node w_output_dir
  = (Return ["/tmp/fallback"; "/home/user/nano-banana-images";
             "/tmp/nano-banana-images"], w_output_dir)
  /\ head ["/tmp/fallback"; "/home/user/nano-banana-images";
           "/tmp/nano-banana-images"]
     = Some (Tools.normalizePathInput node (Js.trim "/tmp/fallback")).
Proof.
  destruct (X10_default_directories node w_output_dir)
    as (dirs & Hrun & _ & _ & _ & _ & _ & Hfirst & _).
  assert (Hdirs : Tools.getDefaultOutputDirectories node w_output_dir
                  = (Return ["/tmp/fallback"; "/home/user/nano-banana-images";
                             "/tmp/nano-banana-images"], w_output_dir))
    by (vm_compute; reflexivity).
  split; [exact Hdirs|].
  rewrite Hdirs in Hrun. injection Hrun as <-.
  exact (Hfirst "/tmp/fallback" eq_refl eq_refl eq_refl).
Defined.

(** A configured directory equal to a built-in one is listed once. *)
Example default_directories_collapse :
  fst (Tools.getDefaultOutputDirectories node
         (boot [("IMAGE_OUTPUT_DIR", " /tmp/nano-banana-images ")]))
  = Return ["/tmp/nano-banana-images"; "/home/user/nano-banana-images"].
Proof. reflexivity. Qed.

(** An [IMAGE_OUTPUT_DIR] made of no-break spaces is blank: the
    home-based directory comes first. *)
Example default_directories_no_break_space :
  fst (Tools.getDefaultOutputDirectories node
         (boot [("IMAGE_OUTPUT_DIR", nbsp +:+ " " +:+ nbsp)]))
  = Return ["/home/user/nano-banana-images"; "/tmp/nano-banana-images"].
Proof. vm_compute. reflexivity. Qed.

(** *** Generated file names *)

(** X11: a generated file name costs one clock reading and then one
    random draw, and has the form [generated-<timestamp>-<suffix>.jpg]: the
    timestamp is as long as the clock's ISO string and holds no [:] and no
    [.], and the suffix is made of the characters 2 to 7 of the random
    string, so at most six of them. *)
Theorem X11_generated_file_name (ora : Oracle) (w : World) :
  exists timestamp suffix,
    buildGeneratedFileName ora w
    = (Return ("generated-" +:+ timestamp +:+ "-" +:+ suffix +:+ ".jpg"),
       extend w [EvDate; EvRandom])
    /\ String.length timestamp
       = String.length (date_toISOString ora (trace w))
    /\ Js.includes timestamp ":" = false
    /\ Js.includes timestamp "." = false
    /\ suffix = String.substring 2 6 (random_toString36 ora (trace w ++ [EvDate]))
    /\ (String.length suffix <= 6)%nat.
Proof.
  exists (Js.replace_colon_dot (date_toISOString ora (trace w))),
         (Js.substring 2 8 (random_toString36 ora (trace w ++ [EvDate]))).
  split; [apply buildGeneratedFileName_run|].
  split; [apply replace_colon_dot_length|].
  split; [apply replace_colon_dot_clean; now left|].
  split; [apply replace_colon_dot_clean; now right|].
  split; [reflexivity | apply substring_length].
Qed.

Example generated_file_name_test :
  fst (buildGeneratedFileName unavailable w_no_key)
  = Return "generated-2026-01-02T03-04-05-678Z-k3x9q2.jpg".
Proof. reflexivity. Qed.

(** *** Normalising the caller's path *)

Section Normalize.
Context (plat : Platform).

(** What is assumed of the platform: [path.resolve] gives an absolute
    path. *)
Hypothesis resolve_absolute :
  forall p, path_isAbsolute plat (path_resolve plat p) = true.

(** X12: on such a platform [normalizePathInput] always gives an absolute
    path, and leaves an absolute path that does not start with the home
    shorthand as it is. *)
Theorem X12_normalized_path_is_absolute (inputPath : string) :
  path_isAbsolute plat (Tools.normalizePathInput plat inputPath) = true
  /\ (path_isAbsolute plat inputPath = true ->
      Js.startsWith inputPath "~" = false ->
      Tools.normalizePathInput plat inputPath = inputPath).
Proof.
  unfold Tools.normalizePathInput. split.
  - destruct (path_isAbsolute plat (Tools.expandUserPath plat inputPath)) eqn:H;
      [exact H | apply resolve_absolute].
  - intros Habs Htilde.
    assert (He : Tools.expandUserPath plat inputPath = inputPath).
    { unfold Tools.expandUserPath.
      destruct inputPath as [|c s]; [reflexivity|].
      unfold Js.startsWith in *. cbn [String.prefix] in Htilde.
      destruct (ascii_dec "~" c) as [<-|Hc].
      - now destruct s.
      - destruct (String.eqb_spec (String c s) "~") as [[= ->]|_];
          [congruence|].
        cbn [String.prefix]. destruct (ascii_dec "~" c); [congruence|].
        reflexivity. }
    now rewrite He, Habs.
Qed.

End Normalize.

(** The POSIX platform meets this assumption when the working directory
    is absolute. *)
Lemma posix_resolve_absolute (cwd p : string) :
  Posix.isAbsolute cwd = true -> Posix.isAbsolute (Posix.resolve cwd p) = true.
Proof.
  intros H. unfold Posix.resolve.
  destruct cwd as [|c s]; [discriminate|]. cbn [Js.truthy]. rewrite H.
  destruct (Js.truthy p), (Posix.isAbsolute p); reflexivity.
Qed.

Lemma X12_witness :
  path_isAbsolute node (Tools.normalizePathInput node "relative/output.jpg")
  = true
  /\ Tools.normalizePathInput node "/tmp/work/output.jpg"
     = "/tmp/work/output.jpg".
Proof.
  destruct (X12_normalized_path_is_absolute node
              (fun p => posix_resolve_absolute "/srv/app" p eq_refl)
              "relative/output.jpg") as [H _].
  destruct (X12_normalized_path_is_absolute node
              (fun p => posix_resolve_absolute "/srv/app" p eq_refl)
              "/tmp/work/output.jpg") as [_ H'].
  split; [exact H | exact (H' eq_refl eq_refl)].
Defined.

(** The home shorthand and relative paths, on the POSIX platform. *)
Example normalizePathInput_test :
  map (Tools.normalizePathInput node)
      ["~"; "~/pics/cat.jpg"; "~\pics"; "~other"; "./output.jpg"; "/abs/../p"]
  = ["/home/user"; "/home/user/pics/cat.jpg"; "/home/user/pics";
     "/srv/app/~other"; "/srv/app/output.jpg"; "/abs/../p"].
Proof. reflexivity. Qed.

(** *** What an attempt of [saveImage] does *)

Section Attempts.
Context (plat : Platform) (ora : Oracle) (buffer : list Byte.byte).

(** Path resolution only adds to the history. *)
Lemma resolve_extends (savePath defaultDir : option string) (w : World) :
  exists pre,
    snd (Tools.resolveOutputFilePath plat ora savePath defaultDir w)
    = extend w pre.
Proof.
  destruct (targetPath_world plat savePath defaultDir w) as [[t|] Ht].
  - destruct (Js.truthy (path_extname plat t)) eqn:Hext.
    + destruct (decide (Js.toLowerCase (path_extname plat t) ∈ JPEG_EXTENSIONS))
        as [Hin|Hin].
      * rewrite (resolve_jpeg plat ora _ _ t w Ht Hext Hin). eexists; reflexivity.
      * rewrite (resolve_other plat ora _ _ t w Ht Hext Hin).
        exists []. now rewrite extend_nil.
    + rewrite (resolve_directory plat ora _ _ t w Ht Hext).
      destruct (fs_mkdir ora (trace w) t); eexists; reflexivity.
  - unfold Tools.resolveOutputFilePath, bind. rewrite Ht.
    exists []. now rewrite extend_nil.
Qed.

(** A successful attempt: the path was resolved, the buffer was written to
    it, and the file was found not to be empty. *)
Lemma write_attempt_returns (attempt : Tools.Attempt) (w w' : World)
      (filePath : string) :
  Tools.write_attempt plat ora buffer attempt w = (Return filePath, w') ->
  exists pre size,
    Tools.resolveOutputFilePath plat ora (Tools.a_savePath attempt)
                                (Tools.a_defaultDir attempt) w
    = (Return filePath, extend w pre)
    /\ fs_writeFile ora (trace w ++ pre) filePath buffer = Return tt
    /\ fs_stat_size ora (trace w ++ pre ++ [EvWriteFile filePath buffer])
                    filePath = Return size
    /\ size <> 0
    /\ w' = extend w (pre ++ [EvWriteFile filePath buffer; EvStat filePath]).
Proof.
  intros H. unfold Tools.write_attempt, bind in H.
  destruct (resolve_extends (Tools.a_savePath attempt)
                            (Tools.a_defaultDir attempt) w) as [pre Hpre].
  destruct (Tools.resolveOutputFilePath plat ora _ _ w) as [[p|e] w1];
    cbn [snd] in Hpre; subst w1; [|discriminate].
  unfold writeFile, stat_size, call in H. cbn [trace extend log] in H.
  destruct (fs_writeFile ora (trace w ++ pre) p buffer) as [[]|e] eqn:Hwr;
    [|discriminate].
  rewrite <- app_assoc in H.
  destruct (fs_stat_size ora (trace w ++ pre ++ [EvWriteFile p buffer]) p)
    as [size|e] eqn:Hst; [|discriminate].
  destruct (Z.eqb_spec size 0) as [->|Hsize]; [discriminate|].
  injection H as <- <-.
  exists pre, size. repeat (split; [reflexivity || assumption|]).
  now rewrite !log_extend, !extend_extend.
Qed.

(** An attempt only adds to the history. *)
Lemma write_attempt_extends (attempt : Tools.Attempt) (w : World) :
  exists delta,
    snd (Tools.write_attempt plat ora buffer attempt w) = extend w delta.
Proof.
  unfold Tools.write_attempt, bind.
  destruct (resolve_extends (Tools.a_savePath attempt)
                            (Tools.a_defaultDir attempt) w) as [pre Hpre].
  destruct (Tools.resolveOutputFilePath plat ora _ _ w) as [[p|e] w1];
    cbn [snd] in Hpre; subst w1; [|eexists; reflexivity].
  unfold writeFile, stat_size, call.
  destruct (fs_writeFile ora _ p buffer) as [[]|e];
    [|eexists; cbn [snd]; now rewrite log_extend, extend_extend].
  destruct (fs_stat_size ora _ p) as [size|e];
    [destruct (size =? 0)|]; eexists; cbn [snd ret throw];
    now rewrite !log_extend, !extend_extend.
Qed.

(** A result of the loop is the path of an attempt of the list that
    succeeded, in a world that extends the initial one. *)
Lemma save_loop_returns (savePath : option string)
      (attempts : list Tools.Attempt) :
  forall (firstFailureMessage : option string) (lastError : option Thrown)
         (w w' : World) (r : Tools.SaveImageResult),
    Tools.save_loop plat ora buffer savePath attempts
                    firstFailureMessage lastError w = (Return r, w') ->
    exists attempt before,
      In attempt attempts
      /\ Tools.write_attempt plat ora buffer attempt (extend w before)
         = (Return (Tools.filePath r), w').
Proof.
  induction attempts as [|a attempts IH]; intros ffm lastError w w' r H;
    [discriminate|].
  rewrite save_loop_cons in H.
  destruct (write_attempt_extends a w) as [delta Hdelta].
  destruct (Tools.write_attempt plat ora buffer a w) as [[p|e] w1] eqn:Hw;
    cbn [snd] in Hdelta; subst w1.
  - injection H as <- <-. exists a, []. split; [now left|].
    rewrite extend_nil, Hw. unfold Tools.shape_result.
    now destruct (Js.truthy_opt _); [|destruct (_ && _)].
  - destruct (Tools.is_fatal a e); [discriminate|].
    apply IH in H as (attempt & before & Hin & Hok).
    exists attempt, (delta ++ before). split; [now right|].
    now rewrite <- extend_extend.
Qed.

Lemma truthy_label (label message : string) :
  Js.truthy (label +:+ ": " +:+ message) = true.
Proof. now destruct label. Qed.

(** A failure of the loop is an error that the catch clause rethrew (the
    attempt was on the caller's path and the message carries the extension
    marker), or the exhaustion error made of the first recorded failure and
    of the last error. *)
Lemma save_loop_throws (savePath : option string)
      (attempts : list Tools.Attempt) :
  forall (firstFailureMessage : option string) (lastError : option Thrown)
         (w w' : World) (e : Thrown),
    Tools.save_loop plat ora buffer savePath attempts
                    firstFailureMessage lastError w = (Throw e, w') ->
    (exists attempt,
        In attempt attempts /\ Tools.is_fatal attempt e = true)
    \/ (exists first last,
           e = Tools.exhaustedError first last
           /\ (attempts <> []
               \/ (Js.truthy_opt firstFailureMessage = true
                   /\ is_Some lastError) ->
               Js.truthy_opt first = true /\ is_Some last)).
Proof.
  induction attempts as [|a attempts IH]; intros ffm lastError w w' e H.
  { right. injection H as <- <-. exists ffm, lastError.
    split; [reflexivity|]. now intros [[]|]. }
  rewrite save_loop_cons in H.
  destruct (Tools.write_attempt plat ora buffer a w) as [[p|e1] w1];
    [discriminate|].
  destruct (Tools.is_fatal a e1) eqn:Hf.
  - injection H as <- <-. left. exists a. split; [now left | exact Hf].
  - apply IH in H as [(attempt & Hin & Hfatal) | (first & last & -> & Hinv)].
    + left. exists attempt. split; [now right | exact Hfatal].
    + right. exists first, last. split; [reflexivity|]. intros _.
      apply Hinv. right. split; [|eauto].
      destruct (Js.truthy_opt ffm) eqn:Ht; cbn [negb]; [exact Ht|].
      apply truthy_label.
Qed.

End Attempts.

(** *** Outcomes of [saveImage] *)

(** X13: when [saveImage] succeeds, the payload was not empty and the last
    two things that happened are the write of the decoded payload to the
    returned path, which the filesystem accepted, and the [stat] of that
    path, which reported a size other than zero. *)
Theorem X13_saved_path_holds_the_payload
        (plat : Platform) (ora : Oracle) (data : string)
        (savePath : option string) (w w' : World)
        (r : Tools.SaveImageResult) :
  Tools.saveImage plat ora data savePath w = (Return r, w') ->
  base64_decode plat data <> []
  /\ exists before size,
       trace w'
       = trace w ++ before
           ++ [EvWriteFile (Tools.filePath r) (base64_decode plat data);
               EvStat (Tools.filePath r)]
       /\ fs_writeFile ora (trace w ++ before) (Tools.filePath r)
                       (base64_decode plat data) = Return tt
       /\ fs_stat_size ora
            (trace w ++ before
               ++ [EvWriteFile (Tools.filePath r) (base64_decode plat data)])
            (Tools.filePath r) = Return size
       /\ size <> 0.
Proof.
  intros H. unfold Tools.saveImage in H.
  destruct (base64_decode plat data) as [|b bs] eqn:Hb; [discriminate|].
  cbn [length Nat.eqb] in H. split; [discriminate|].
  unfold bind in H.
  destruct (getDefaultOutputDirectories_world plat w) as [dirs Hdirs].
  rewrite Hdirs in H.
  apply save_loop_returns in H as (attempt & before & _ & Hok).
  apply write_attempt_returns in Hok
    as (pre & size & _ & Hwr & Hst & Hsize & ->).
  cbn [trace extend] in Hwr, Hst. rewrite <- !app_assoc in Hwr, Hst.
  exists (before ++ pre), size. cbn [trace extend].
  rewrite <- !app_assoc. auto.
Qed.

Lemma X13_witness :
  trace fallback_world
  = trace w_output_dir
      ++ [EvMkdir "/tmp/blocked"; EvMkdir "/tmp/fallback"; EvDate; EvRandom]
      ++ [EvWriteFile fallback_path (Base64.decode synthetic_data);
          EvStat fallback_path]
  /\ base64_decode node synthetic_data <> [].
Proof.
  destruct (X13_saved_path_holds_the_payload node blocked_fs synthetic_data
              (Some "/tmp/blocked/output.jpg") w_output_dir fallback_world
              fallback_result ltac:(vm_compute; reflexivity))
    as (Hne & _).
  split; [reflexivity | exact Hne].
Defined.

(** X14: without a caller's path, when the first default directory
    resolves to a path, the write to it is accepted and the file is found
    not empty, [saveImage] returns that path without warning, and nothing
    is asked of any other directory. *)
Theorem X14_first_default_directory_wins
        (plat : Platform) (ora : Oracle) (data : string)
        (savePath : option string) (w w1 : World)
        (dir filePath : string) (rest : list string) (size : Z) :
  Js.truthy_opt savePath = false ->
  base64_decode plat data <> [] ->
  Tools.getDefaultOutputDirectories plat w = (Return (dir :: rest), w) ->
  Tools.resolveOutputFilePath plat ora None (Some dir) w
    = (Return filePath, w1) ->
  fs_writeFile ora (trace w1) filePath (base64_decode plat data) = Return tt ->
  fs_stat_size ora
    (trace w1 ++ [EvWriteFile filePath (base64_decode plat data)]) filePath
    = Return size ->
  size <> 0 ->
  Tools.saveImage plat ora data savePath w
  = (Return {| Tools.filePath := filePath; Tools.warning := None |},
     extend w1 [EvWriteFile filePath (base64_decode plat data);
                EvStat filePath]).
Proof.
  intros Hsp Hdata Hdirs Hres Hwr Hst Hsize. unfold Tools.saveImage.
  destruct (base64_decode plat data) as [|b bs] eqn:Hb; [congruence|].
  cbn [length Nat.eqb]. unfold bind at 1. rewrite Hdirs.
  unfold Tools.build_attempts. rewrite Hsp. cbn [andb app imap].
  rewrite save_loop_cons.
  unfold Tools.write_attempt, bind. cbn [Tools.a_savePath Tools.a_defaultDir].
  rewrite Hres. unfold writeFile, stat_size, call. rewrite Hwr.
  cbn [trace log]. rewrite Hst.
  destruct (Z.eqb_spec size 0) as [->|_]; [congruence|].
  unfold ret, Tools.shape_result. cbn [Tools.a_savePath Js.truthy_opt].
  rewrite Hsp. cbn [andb].
  now rewrite !log_extend, extend_extend.
Qed.

Lemma X14_witness :
  Tools.saveImage node unavailable synthetic_data None w_output_dir
  = (Return {| Tools.filePath := fallback_path; Tools.warning := None |},
     extend w_output_dir
       [EvMkdir "/tmp/fallback"; EvDate; EvRandom;
        EvWriteFile fallback_path (Base64.decode synthetic_data);
        EvStat fallback_path]).
Proof.
  refine (eq_trans
            (X14_first_default_directory_wins node unavailable synthetic_data
               None w_output_dir
               (extend w_output_dir [EvMkdir "/tmp/fallback"; EvDate; EvRandom])
               "/tmp/fallback" fallback_path
               ["/home/user/nano-banana-images"; "/tmp/nano-banana-images"] 21
               eq_refl _ _ _ eq_refl eq_refl _) _).
  - vm_compute. discriminate.
  - vm_compute. reflexivity.
  - vm_compute. reflexivity.
  - discriminate.
  - vm_compute. reflexivity.
Defined.



(** The rethrow is decided on the message alone: when the caller's path
    itself contains the marker, the error of [mkdir] on its parent, a file,
    is rethrown as it is and no default directory is tried. *)
Example marker_in_the_path_is_fatal :
  Tools.saveImage node
    (scripted [] ["/tmp/must use a .jpg or .jpeg extension"])
    synthetic_data
    (Some "/tmp/must use a .jpg or .jpeg extension/out.jpg") w_no_key
  = (Throw (ENOTDIR "/tmp/must use a .jpg or .jpeg extension"),
     extend w_no_key [EvMkdir "/tmp/must use a .jpg or .jpeg extension"]).
Proof. vm_compute. reflexivity. Qed.

(** *** The handler *)

Lemma toUserFacing_is_error (e : Thrown) :
  instanceofError (Gemini.toUserFacingGeminiError e) = true.
Proof.
  destruct e as [s m| |]; [|reflexivity|reflexivity]. cbn.
  destruct (_ || _); [reflexivity|].
  destruct (s =? 429); [reflexivity|]. now destruct (s >=? 500).
Qed.

(** What [generateImage] throws is an [Error]. *)
Lemma generateImage_throws_error (plat : Platform) (ora : Oracle)
      (prompt : string) (w w' : World) (e : Thrown) :
  Gemini.generateImage plat ora prompt w = (Throw e, w') ->
  instanceofError e = true.
Proof.
  intros H.
  destruct (generateImage_unfold plat ora prompt w)
    as [(e0 & _ & -> & H0) | (client & model & w0 & _ & H0)];
    rewrite H0 in H.
  { now injection H as <- <-. }
  assert (Hin := retry_loop_exits_inside plat ora client model prompt
                   Gemini.loop_fuel 0 w0
                   ltac:(unfold Gemini.MAX_RETRIES; lia)
                   ltac:(vm_compute; lia)).
  destruct (Gemini.retry_loop plat ora Gemini.loop_fuel client model
              prompt 0 w0) as [x w1] eqn:Hl.
  cbn [fst snd] in H, Hin.
  destruct x as [r|e1|e1|]; cbn [Gemini.outcome_of_exit] in H;
    try contradiction; [discriminate|].
  injection H as -> ->.
  destruct (retry_loop_terminal_error plat ora client model prompt
              Gemini.loop_fuel 0 w0 _ _
              ltac:(unfold Gemini.MAX_RETRIES; lia) Hl)
    as (k & pre & raw & _ & _ & _ & -> & _).
  apply toUserFacing_is_error.
Qed.

(** What the [saveImage] with fallback throws is an [Error]. *)
Lemma saveImage_throws_error (plat : Platform) (ora : Oracle) (data : string)
      (savePath : option string) (w w' : World) (e : Thrown) :
  Tools.saveImage plat ora data savePath w = (Throw e, w') ->
  instanceofError e = true.
Proof.
  intros H. unfold Tools.saveImage in H.
  destruct (length (base64_decode plat data) =? 0)%nat.
  { now injection H as <- <-. }
  unfold bind in H.
  destruct (getDefaultOutputDirectories_world plat w) as [dirs Hdirs].
  rewrite Hdirs in H.
  apply save_loop_throws in H
    as [(attempt & _ & Hfatal) | (first & last & -> & _)]; [|reflexivity].
  unfold Tools.is_fatal in Hfatal.
  apply andb_true_iff in Hfatal as [Hfatal _].
  now apply andb_true_iff in Hfatal as [_ Hinst].
Qed.

(** Everything [generateImage] asks of the outside is asked of the
    backend, the encoder or the timer. *)
Lemma generateImage_generation_events (plat : Platform) (ora : Oracle)
      (prompt : string) (w : World) :
  exists delta,
    trace (snd (Gemini.generateImage plat ora prompt w)) = trace w ++ delta
    /\ forallb generation_event delta = true.
Proof.
  destruct (generateImage_unfold plat ora prompt w)
    as [(e0 & _ & _ & ->) | (client & model & w0 & Ht & ->)].
  { exists []. now rewrite app_nil_r. }
  destruct (retry_loop_generation_events plat ora client model prompt
              Gemini.loop_fuel 0 w0) as (delta & Hw & Hd).
  exists delta. cbn [snd]. rewrite Hw. cbn [trace extend]. now rewrite Ht.
Qed.

Lemma generation_events_no_fs (delta : list Event) :
  forallb generation_event delta = true ->
  List.filter fs_event delta = [].
Proof.
  induction delta as [|ev delta IH]; [reflexivity|]. cbn [forallb List.filter].
  intros H. apply andb_true_iff in H as [Hev Hd].
  rewrite (IH Hd). now destruct ev.
Qed.

(** X16: the handler of the version with fallback asks nothing of the
    filesystem before generation has succeeded: a run of [generateImage]
    adds only backend, encoder and timer calls to the history, and when it
    throws, the handler answers with the error response of that error in
    the world [generateImage] left. *)
Theorem X16_no_file_is_touched_unless_generation_succeeded
        (plat : Platform) (ora : Oracle) (args : Tools.Args) (w : World) :
  (exists delta,
      trace (snd (Gemini.generateImage plat ora (Tools.prompt args) w))
      = trace w ++ delta
      /\ List.filter fs_event delta = [])
  /\ (forall e w1,
        Gemini.generateImage plat ora (Tools.prompt args) w = (Throw e, w1) ->
        Tools.handler plat ora args w = (errorResponse e, w1)
        /\ List.filter fs_event (trace w1) = List.filter fs_event (trace w)).
Proof.
  destruct (generateImage_generation_events plat ora (Tools.prompt args) w)
    as (delta & Ht & Hd).
  apply generation_events_no_fs in Hd.
  split; [eauto|].
  intros e w1 H. rewrite H in Ht. cbn [snd] in Ht.
  split.
  - unfold Tools.handler, bind. now rewrite H.
  - now rewrite Ht, List.filter_app, Hd, app_nil_r.
Qed.

Lemma X16_witness :
  Tools.handler node unauthorized
    {| Tools.prompt := "draw a cat"; Tools.save_path := Some "/tmp/out" |}
    w_keyed
  = (errorResponse (mkError Gemini.AUTH_MESSAGE),
     extend w_cached
       [EvGenerateContent "AIza-primary" Gemini.DEFAULT_IMAGE_MODEL "draw a cat"]).
Proof.
  exact (proj1 (proj2 (X16_no_file_is_touched_unless_generation_succeeded
                         node unauthorized
                         {| Tools.prompt := "draw a cat";
                            Tools.save_path := Some "/tmp/out" |} w_keyed)
                      _ _ eq_refl)).
Defined.

(** X17: whatever the [try] block of the handler with fallback throws,
    be it the error of [generateImage] or the error of [saveImage] on the
    generated data, is an [Error], and the handler answers, in the world the
    throw left, with the error-flagged response without structured content
    whose single text is the prefix followed by that error's message: the
    handler's wording for thrown values that are no [Error] is never used.
    Every error-flagged response of the handler is made that way. *)
Theorem X17_error_responses_show_the_error
        (plat : Platform) (ora : Oracle) (args : Tools.Args) (w : World) :
  (forall e w',
     thrown_in_handler plat ora args w e w' ->
     instanceofError e = true
     /\ Tools.handler plat ora args w
        = ({| resp_content :=
                [TextContent ("Error generating image: " +:+ errorMessage e)];
              structuredContent := None;
              isError := true |}, w'))
  /\ (isError (fst (Tools.handler plat ora args w)) = true ->
      exists e w', thrown_in_handler plat ora args w e w').
Proof.
  split.
  - intros e w' [Hg | (r & w1 & Hg & Hs)].
    + assert (He := generateImage_throws_error _ _ _ _ _ _ Hg).
      split; [exact He|]. unfold Tools.handler, bind. rewrite Hg.
      unfold errorResponse. now rewrite He.
    + assert (He := saveImage_throws_error _ _ _ _ _ _ _ Hs).
      split; [exact He|]. unfold Tools.handler, bind. rewrite Hg, Hs.
      unfold errorResponse. now rewrite He.
  - unfold thrown_in_handler, Tools.handler, bind.
    destruct (Gemini.generateImage plat ora (Tools.prompt args) w)
      as [[r|e] w1] eqn:Hg.
    + destruct (Tools.saveImage plat ora (Gemini.data r)
                  (Tools.save_path args) w1) as [[saved|e] w2] eqn:Hs; cbn;
        [discriminate|].
      intros _. exists e, w2. right. eauto.
    + intros _. exists e, w1. now left.
Qed.

Lemma X17_witness :
  Tools.handler node one_answer
    {| Tools.prompt := "draw a cat";
       Tools.save_path := Some "/tmp/x/photo.png" |} w_keyed
  = ({| resp_content :=
          [TextContent ("Error generating image: "
                          +:+ errorMessage (invalidExtensionError ".png"))];
        structuredContent := None;
        isError := true |},
     extend w_cached
       [ EvGenerateContent "AIza-primary" Gemini.DEFAULT_IMAGE_MODEL "draw a cat";
         EvSharpJpeg (Base64.decode "U2Vjb25k") ]).
Proof.
  refine (proj2 (proj1 (X17_error_responses_show_the_error node one_answer
                          {| Tools.prompt := "draw a cat";
                             Tools.save_path := Some "/tmp/x/photo.png" |}
                          w_keyed)
                       (invalidExtensionError ".png") _ _)).
  right. eexists _, _. split; vm_compute; reflexivity.
Defined.

(** A result of [generateImage] has the JPEG MIME type and a text that is
    absent or not empty. *)
Lemma generateImage_result_shape (plat : Platform) (ora : Oracle)
      (prompt : string) (w w' : World) (r : Gemini.GenResult) :
  Gemini.generateImage plat ora prompt w = (Return r, w') ->
  Gemini.mimeType r = "image/jpeg"
  /\ (Gemini.text r = None \/ Js.truthy_opt (Gemini.text r) = true).
Proof.
  intros H.
  destruct (generateImage_unfold plat ora prompt w)
    as [(e0 & _ & _ & H0) | (client & model & w0 & _ & H0)];
    rewrite H0 in H; [discriminate|].
  destruct (Gemini.retry_loop plat ora Gemini.loop_fuel client model
              prompt 0 w0) as [x w1] eqn:Hl.
  cbn [fst snd] in H.
  destruct x as [r1|e|e|]; cbn in H; try discriminate.
  injection H as -> ->.
  destruct (retry_loop_returns plat ora client model prompt _ _ _ _ _ Hl)
    as (wk & Hb).
  destruct (attempt_body_returns plat ora client model prompt wk w' r Hb)
    as (response & ps & d & jpg & _ & _ & _ & _ & -> & _).
  cbn. split; [reflexivity|].
  apply (scan_text_absent_or_truthy ps None None (or_introl eq_refl)).
Qed.

(** A warning of [saveImage] is never the empty string. *)
Lemma saveImage_warning_shape (plat : Platform) (ora : Oracle) (data : string)
      (savePath : option string) (w w' : World)
      (saved : Tools.SaveImageResult) :
  Tools.saveImage plat ora data savePath w = (Return saved, w') ->
  Tools.warning saved = None \/ Js.truthy_opt (Tools.warning saved) = true.
Proof.
  intros H. unfold Tools.saveImage in H.
  destruct (length (base64_decode plat data) =? 0)%nat; [discriminate|].
  unfold bind in H.
  destruct (Tools.getDefaultOutputDirectories plat w) as [[dirs|e] w0];
    [|discriminate].
  revert H. generalize (@None string) at 1. generalize (@None Thrown).
  generalize (Tools.build_attempts savePath dirs). revert w0.
  intros w0 attempts. revert w0.
  induction attempts as [|a attempts IH]; intros w0 lastError ffm H;
    [discriminate|].
  rewrite save_loop_cons in H.
  destruct (Tools.write_attempt plat ora (base64_decode plat data) a w0)
    as [[p|e] w1].
  - injection H as <- <-. unfold Tools.shape_result.
    destruct (Js.truthy_opt (Tools.a_savePath a)); [now left|].
    destruct (_ && _); [right|now left].
    cbn. now destruct (default "" savePath).
  - destruct (Tools.is_fatal a e); [discriminate|]. eapply IH, H.
Qed.

(** The last two of the joined lines close the text. *)
Lemma join_lines_closing (lines : list string) (a b : string) :
  exists head,
    join_lines (lines ++ [a; b])
    = head +:+ a +:+ Gemini.newline +:+ Gemini.newline +:+ b.
Proof.
  induction lines as [|l lines [head IH]].
  - now exists "".
  - exists (l +:+ Gemini.newline +:+ Gemini.newline +:+ head).
    change ((l :: lines) ++ [a; b]) with (l :: (lines ++ [a; b])).
    assert (Hne : lines ++ [a; b] <> []) by now destruct lines.
    cbn [join_lines]. destruct (lines ++ [a; b]) eqn:Hl; [contradiction|].
    rewrite IH. now rewrite !string_app_assoc.
Qed.

(** X18: a success response of the handler with fallback is what the output
    schema asks for: the structured content holds the path [saveImage]
    returned, the literal MIME type [image/jpeg], the model and the text of
    the generated result; the content is one text followed by the image
    with the generated data; and the text is made of the model's text (when
    there is one), the fallback warning (when there is one), and always
    closes with the line of the saved path and the line of the model. *)
Theorem X18_success_response
        (plat : Platform) (ora : Oracle) (args : Tools.Args) (w : World) :
  isError (fst (Tools.handler plat ora args w)) = false ->
  exists r saved w1,
    Gemini.generateImage plat ora (Tools.prompt args) w = (Return r, w1)
    /\ Tools.saveImage plat ora (Gemini.data r) (Tools.save_path args) w1
       = (Return saved, snd (Tools.handler plat ora args w))
    /\ structuredContent (fst (Tools.handler plat ora args w))
       = Some {| file_path := Tools.filePath saved;
                 mime_type := "image/jpeg";
                 sc_model := Gemini.model r;
                 sc_text := Gemini.text r |}
    /\ resp_content (fst (Tools.handler plat ora args w))
       = [ TextContent
             (join_lines (option_list (Gemini.text r)
                            ++ option_list (Tools.warning saved)
                            ++ [ "Image saved to: " +:+ Tools.filePath saved;
                                 "Model: " +:+ Gemini.model r ]));
           ImageContent (Gemini.data r) "image/jpeg" ]
    /\ exists head,
         join_lines (option_list (Gemini.text r)
                       ++ option_list (Tools.warning saved)
                       ++ [ "Image saved to: " +:+ Tools.filePath saved;
                            "Model: " +:+ Gemini.model r ])
         = head +:+ ("Image saved to: " +:+ Tools.filePath saved)
                +:+ Gemini.newline +:+ Gemini.newline
                +:+ ("Model: " +:+ Gemini.model r).
Proof.
  unfold Tools.handler, bind.
  destruct (Gemini.generateImage plat ora (Tools.prompt args) w)
    as [[r|e] w1] eqn:Hg.
  2:{ cbn. unfold errorResponse. discriminate. }
  destruct (Tools.saveImage plat ora (Gemini.data r) (Tools.save_path args) w1)
    as [[saved|e] w2] eqn:Hs.
  2:{ cbn. unfold errorResponse. discriminate. }
  intros _. exists r, saved, w1. split; [reflexivity|].
  split; [exact Hs|].
  destruct (generateImage_result_shape _ _ _ _ _ _ Hg) as [Hmime Htext].
  destruct (saveImage_warning_shape _ _ _ _ _ _ _ Hs) as [Hwarn|Hwarn].
  - cbn. rewrite Hmime, Hwarn.
    assert (Ht : (if Js.truthy_opt (Gemini.text r) then Gemini.text r else None)
                 = Gemini.text r)
      by (destruct Htext as [-> | ->]; reflexivity).
    rewrite Ht. split; [reflexivity|]. split.
    + now destruct (Gemini.text r).
    + rewrite app_assoc. apply join_lines_closing.
  - cbn. rewrite Hmime, Hwarn.
    assert (Ht : (if Js.truthy_opt (Gemini.text r) then Gemini.text r else None)
                 = Gemini.text r)
      by (destruct Htext as [-> | ->]; reflexivity).
    rewrite Ht. split; [reflexivity|]. split.
    + destruct (Tools.warning saved); [|discriminate].
      now destruct (Gemini.text r).
    + rewrite app_assoc. apply join_lines_closing.
Qed.

Lemma X18_witness :
  exists r saved w1,
    Gemini.generateImage node one_answer "draw a cat" w_keyed = (Return r, w1)
    /\ Tools.saveImage node one_answer (Gemini.data r) None w1
       = (Return saved,
          snd (Tools.handler node one_answer
                 {| Tools.prompt := "draw a cat"; Tools.save_path := None |}
                 w_keyed))
    /\ structuredContent
         (fst (Tools.handler node one_answer
                 {| Tools.prompt := "draw a cat"; Tools.save_path := None |}
                 w_keyed))
       = Some {| file_path := Tools.filePath saved;
                 mime_type := "image/jpeg";
                 sc_model := Gemini.model r;
                 sc_text := Gemini.text r |}
    /\ resp_content
         (fst (Tools.handler node one_answer
                 {| Tools.prompt := "draw a cat"; Tools.save_path := None |}
                 w_keyed))
       = [ TextContent
             (join_lines (option_list (Gemini.text r)
                            ++ option_list (Tools.warning saved)
                            ++ [ "Image saved to: " +:+ Tools.filePath saved;
                                 "Model: " +:+ Gemini.model r ]));
           ImageContent (Gemini.data r) "image/jpeg" ]
    /\ exists head,
         join_lines (option_list (Gemini.text r)
                       ++ option_list (Tools.warning saved)
                       ++ [ "Image saved to: " +:+ Tools.filePath saved;
                            "Model: " +:+ Gemini.model r ])
         = head +:+ ("Image saved to: " +:+ Tools.filePath saved)
                +:+ Gemini.newline +:+ Gemini.newline
                +:+ ("Model: " +:+ Gemini.model r).
Proof.
  exact (X18_success_response node one_answer
           {| Tools.prompt := "draw a cat"; Tools.save_path := None |}
           w_keyed eq_refl).
Defined.

(** The same run, evaluated. *)
Example handler_status_text_test :
  resp_content
    (fst (Tools.handler node one_answer
            {| Tools.prompt := "draw a cat"; Tools.save_path := None |}
            w_keyed))
  = [ TextContent
        ("two drafts" +:+ Gemini.newline +:+ Gemini.newline
           +:+ "Image saved to: /home/user/nano-banana-images/generated-2026-01-02T03-04-05-678Z-k3x9q2.jpg"
           +:+ Gemini.newline +:+ Gemini.newline
           +:+ "Model: gemini-3-pro-image-preview");
      ImageContent "U2Vjb25k" "image/jpeg" ].
Proof. vm_compute. reflexivity. Qed.

(** *** The version that requires an absolute path *)

(** X19: the strict version refuses a relative path before anything else:
    whatever the payload, [saveImage] throws the absolute-path error in an
    unchanged world, and the handler, once an image was generated, answers
    with an error response that shows this message and touches no file. *)
Theorem X19_relative_path_is_refused_first
        (plat : Platform) (ora : Oracle) (data t : string) (w : World) :
  path_isAbsolute plat t = false ->
  ToolsStrict.saveImage plat ora data t w
  = (Throw (ToolsStrict.notAbsoluteError t), w)
  /\ (forall prompt r w1,
        Gemini.generateImage plat ora prompt w = (Return r, w1) ->
        ToolsStrict.handler plat ora
          {| ToolsStrict.prompt := prompt; ToolsStrict.save_path := t |} w
        = ({| resp_content :=
                [TextContent ("Error generating image: "
                                +:+ "save_path must be an absolute path, got: "
                                +:+ t)];
              structuredContent := None;
              isError := true |}, w1)).
Proof.
  intros Ha.
  assert (Hs : forall d w0, ToolsStrict.saveImage plat ora d t w0
                            = (Throw (ToolsStrict.notAbsoluteError t), w0)).
  { intros d w0. unfold ToolsStrict.saveImage, bind.
    now rewrite (strict_resolve_relative plat ora t w0 Ha). }
  split; [apply Hs|].
  intros prompt r w1 Hg. unfold ToolsStrict.handler, bind.
  cbn [ToolsStrict.prompt ToolsStrict.save_path]. rewrite Hg, Hs. reflexivity.
Qed.

Lemma X19_witness :
  ToolsStrict.saveImage node unavailable synthetic_data "images/out.jpg" w_no_key
  = (Throw (ToolsStrict.notAbsoluteError "images/out.jpg"), w_no_key).
Proof.
  exact (proj1 (X19_relative_path_is_refused_first node unavailable
                  synthetic_data "images/out.jpg" w_no_key eq_refl)).
Defined.

Lemma mkdirs_app (xs ys : list Event) : mkdirs (xs ++ ys) = mkdirs xs ++ mkdirs ys.
Proof. apply omap_app. Qed.

Lemma writes_app (xs ys : list Event) : writes (xs ++ ys) = writes xs ++ writes ys.
Proof. apply omap_app. Qed.

(** Closes the case of a run that returns nothing. *)
Ltac no_result :=
  split; [reflexivity|]; split; [reflexivity|]; split; [first [now left | now right]|];
  discriminate.

(** What the strict [saveImage] does after the path is resolved. *)
Lemma strict_write_phase (plat : Platform) (ora : Oracle) (data : string)
      (filePath : string) (w : World) :
  let buffer := base64_decode plat data in
  let run :=
    (if (length buffer =? 0)%nat then throw EMPTY_PAYLOAD
     else
       writeFile ora filePath buffer ;;;
       size <- stat_size ora filePath ;;
       if size =? 0 then throw (emptyFileError filePath)
       else ret filePath) w in
  exists delta,
    snd run = extend w delta
    /\ mkdirs delta = []
    /\ (writes delta = [] \/ writes delta = [filePath])
    /\ (forall p, fst run = Return p ->
          p = filePath
          /\ buffer <> []
          /\ delta = [EvWriteFile filePath buffer; EvStat filePath]
          /\ exists size,
               fs_stat_size ora (trace w ++ [EvWriteFile filePath buffer])
                            filePath = Return size
               /\ size <> 0).
Proof.
  intros buffer run. subst run.
  destruct buffer as [|b bs] eqn:Hb.
  { exists []. cbn. rewrite extend_nil. no_result. }
  cbn [length Nat.eqb]. unfold bind, writeFile, stat_size, call.
  destruct (fs_writeFile ora (trace w) filePath (b :: bs)) as [[]|e].
  2:{ exists [EvWriteFile filePath (b :: bs)]. cbn [fst snd].
      rewrite log_extend. no_result. }
  cbn [trace log].
  destruct (fs_stat_size ora _ filePath) as [size|e] eqn:Hstat.
  2:{ exists [EvWriteFile filePath (b :: bs); EvStat filePath]. cbn [fst snd].
      rewrite !log_extend, extend_extend. no_result. }
  destruct (size =? 0) eqn:Hsize.
  { exists [EvWriteFile filePath (b :: bs); EvStat filePath]. cbn [fst snd].
    unfold throw. cbn [fst snd].
    rewrite !log_extend, extend_extend. no_result. }
  exists [EvWriteFile filePath (b :: bs); EvStat filePath].
  unfold ret. cbn [fst snd]. rewrite !log_extend, extend_extend.
  split; [reflexivity|]. split; [reflexivity|]. split; [now right|].
  intros p Hp. injection Hp as <-. split; [reflexivity|].
  split; [discriminate|]. split; [reflexivity|].
  exists size. split; [reflexivity|]. now apply Z.eqb_neq.
Qed.

(** X20: the strict [saveImage] never falls back to another directory.  In
    every run it asks for at most one directory, the given path or its
    parent, and writes at most one file.  When it returns a path, the given
    path was absolute, the payload was not empty, the returned path is the
    given one (when that has an extension) or [path.join] of the given path
    and the file name generated right after the directory was made, and
    the run closed with the write of the decoded payload to that path and a
    [stat] of it that answered a size other than zero. *)
Theorem X20_strict_saveImage_never_falls_back
        (plat : Platform) (ora : Oracle) (data t : string) (w : World) :
  exists delta,
    snd (ToolsStrict.saveImage plat ora data t w) = extend w delta
    /\ (mkdirs delta = [] \/ mkdirs delta = [t]
        \/ mkdirs delta = [path_dirname plat t])
    /\ (writes delta = [] \/ exists p, writes delta = [p])
    /\ (forall p,
          fst (ToolsStrict.saveImage plat ora data t w) = Return p ->
          path_isAbsolute plat t = true
          /\ base64_decode plat data <> []
          /\ ((Js.truthy (path_extname plat t) = true /\ p = t)
              \/ (Js.truthy (path_extname plat t) = false
                  /\ p = path_join plat t
                                  (generated_name ora (trace w ++ [EvMkdir t]))))
          /\ writes delta = [p]
          /\ exists before size,
               delta = before
                         ++ [EvWriteFile p (base64_decode plat data); EvStat p]
               /\ fs_stat_size ora
                    (trace w ++ before
                       ++ [EvWriteFile p (base64_decode plat data)]) p
                  = Return size
               /\ size <> 0).
Proof.
  assert (Hrun : ToolsStrict.saveImage plat ora data t w
                 = match ToolsStrict.resolveOutputFilePath plat ora t w with
                   | (Return fp, w1) =>
                       (if (length (base64_decode plat data) =? 0)%nat
                        then throw EMPTY_PAYLOAD
                        else
                          writeFile ora fp (base64_decode plat data) ;;;
                          size <- stat_size ora fp ;;
                          if size =? 0 then throw (emptyFileError fp)
                          else ret fp) w1
                   | (Throw e, w1) => (Throw e, w1)
                   end) by reflexivity.
  rewrite Hrun. clear Hrun.
  destruct (path_isAbsolute plat t) eqn:Ha.
  2:{ rewrite (strict_resolve_relative plat ora t w Ha).
      exists []. rewrite extend_nil. cbn.
      split; [reflexivity|]. split; [now left|]. split; [now left|].
      discriminate. }
  assert (Hres : exists before,
             snd (ToolsStrict.resolveOutputFilePath plat ora t w)
             = extend w before
             /\ (mkdirs before = [] \/ mkdirs before = [t]
                 \/ mkdirs before = [path_dirname plat t])
             /\ writes before = []
             /\ forall p,
                  fst (ToolsStrict.resolveOutputFilePath plat ora t w)
                  = Return p ->
                  (Js.truthy (path_extname plat t) = true /\ p = t)
                  \/ (Js.truthy (path_extname plat t) = false
                      /\ p = path_join plat t
                                  (generated_name ora (trace w ++ [EvMkdir t])))).
  { destruct (Js.truthy (path_extname plat t)) eqn:Hext.
    - destruct (decide (Js.toLowerCase (path_extname plat t) ∈ JPEG_EXTENSIONS))
        as [Hin|Hin].
      + rewrite (strict_resolve_jpeg plat ora t w Ha Hext Hin).
        exists [EvMkdir (path_dirname plat t)]. cbn [fst snd].
        split; [reflexivity|]. split; [now right; right|].
        split; [reflexivity|]. intros p Hp.
        destruct (fs_mkdir ora (trace w) (path_dirname plat t));
          [|discriminate].
        injection Hp as <-. now left.
      + rewrite (strict_resolve_other plat ora t w Ha Hext Hin).
        exists []. rewrite extend_nil. cbn [fst snd].
        split; [reflexivity|]. split; [now left|]. split; [reflexivity|].
        discriminate.
    - rewrite (strict_resolve_directory plat ora t w Ha Hext).
      destruct (fs_mkdir ora (trace w) t).
      + exists [EvMkdir t; EvDate; EvRandom]. cbn [fst snd].
        split; [reflexivity|]. split; [now right; left|].
        split; [reflexivity|]. intros p Hp. injection Hp as <-.
        right. split; reflexivity.
      + exists [EvMkdir t]. cbn [fst snd].
        split; [reflexivity|]. split; [now right; left|].
        split; [reflexivity|]. discriminate. }
  destruct Hres as (before & Hw1 & Hmk & Hwr & Hp).
  destruct (ToolsStrict.resolveOutputFilePath plat ora t w) as [[fp|e] w1];
    cbn [fst snd] in Hw1, Hp; subst w1; cbn beta iota.
  2:{ exists before. cbn [fst snd]. split; [reflexivity|].
      split; [exact Hmk|]. split; [now left|]. discriminate. }
  destruct (strict_write_phase plat ora data fp (extend w before))
    as (delta & Hw2 & Hmk2 & Hwr2 & Hok).
  cbn zeta in Hw2, Hok.
  exists (before ++ delta). rewrite Hw2, extend_extend.
  split; [reflexivity|]. rewrite mkdirs_app, writes_app, Hmk2, Hwr, app_nil_r.
  split; [exact Hmk|]. cbn [app].
  split; [destruct Hwr2 as [->| ->]; eauto|].
  intros p Hret. destruct (Hok p Hret) as (-> & Hne & -> & size & Hsize & Hnz).
  split; [reflexivity|]. split; [exact Hne|]. split; [now apply Hp|].
  split; [reflexivity|]. exists before, size.
  split; [reflexivity|]. split; [|exact Hnz].
  cbn [trace extend] in Hsize. now rewrite <- app_assoc in Hsize.
Qed.

Lemma X20_witness :
  exists p,
    fst (ToolsStrict.saveImage node unavailable synthetic_data "/tmp/out"
           w_no_key) = Return p
    /\ path_isAbsolute node "/tmp/out" = true
    /\ base64_decode node synthetic_data <> []
    /\ ((Js.truthy (path_extname node "/tmp/out") = true /\ p = "/tmp/out")
        \/ (Js.truthy (path_extname node "/tmp/out") = false
            /\ p = path_join node "/tmp/out"
                              (generated_name unavailable
                                 (trace w_no_key ++ [EvMkdir "/tmp/out"])))).
Proof.
  eexists. split; [vm_compute; reflexivity|].
  destruct (X20_strict_saveImage_never_falls_back node unavailable
              synthetic_data "/tmp/out" w_no_key) as (delta & _ & _ & _ & H).
  destruct (H _ eq_refl) as (Ha & Hne & Hp & _).
  split; [exact Ha|]. split; [exact Hne|]. exact Hp.
Defined.

(** The same run, evaluated. *)
Example strict_saveImage_test :
  ToolsStrict.saveImage node unavailable synthetic_data "/tmp/out" w_no_key
  = (Return "/tmp/out/generated-2026-01-02T03-04-05-678Z-k3x9q2.jpg",
     extend w_no_key
       [ EvMkdir "/tmp/out"; EvDate; EvRandom;
         EvWriteFile "/tmp/out/generated-2026-01-02T03-04-05-678Z-k3x9q2.jpg"
                     (Base64.decode synthetic_data);
         EvStat "/tmp/out/generated-2026-01-02T03-04-05-678Z-k3x9q2.jpg" ]).
Proof. vm_compute. reflexivity. Qed.
